(** * Multi-task dataset merging (goli/data/dataset.py)

    A shallow embedding of [SingleTaskDataset], [MultitaskDataset] and
    [FakeDataset].  Python lists are lists, dictionaries keyed by task name
    are [gmap string _], a dictionary iterated in insertion order (the
    [datasets] argument) is an association list, and raised exceptions are
    the [Err] branch of [result]. *)

From Stdlib Require Import QArith_base.
From stdpp Require Import base option list gmap strings sorting pretty.

Local Close Scope Q_scope.

(** ** Exceptions and the error monad *)

(** The Python exception classes the embedded code can raise. *)
Inductive exn : Type :=
  | AssertionError (msg : string)
  | StopIteration
  | KeyError (key : string)
  | IndexError
  | ValueError (msg : string)
  | AttributeError (attr : string)
  | ZeroDivisionError
  | InvalidInput (what : string).

Inductive result (A : Type) : Type :=
  | Ok (a : A)
  | Err (e : exn).
Arguments Ok {A} a.
Arguments Err {A} e.

#[global] Instance result_ret : MRet result := @Ok.
#[global] Instance result_bind : MBind result := λ A B f m,
  match m with Ok a => f a | Err e => Err e end.
#[global] Instance result_fmap : FMap result := λ A B f m,
  match m with Ok a => Ok (f a) | Err e => Err e end.

Definition is_Ok {A} (r : result A) : Prop := ∃ a, r = Ok a.

(** [l[i]] for a non-negative index: out of range raises [IndexError]. *)
Definition py_index {A} (l : list A) (i : nat) : result A :=
  match l !! i with Some x => Ok x | None => Err IndexError end.

(** [d[key]] on a dictionary entry that may be absent. *)
Definition dict_get {A} (key : string) (entry : option A) : result A :=
  match entry with Some x => Ok x | None => Err (KeyError key) end.

(** ** numpy.unique *)

(** Position of [x] in [u] (0 when absent, which [np_unique] never asks). *)
Definition np_index `{EqDecision A} (x : A) (u : list A) : nat :=
  default 0 (fst <$> list_find (x =.) u).

(** [np.unique(l, return_inverse=True)]: the sorted distinct elements and,
    for every element of [l], its position among them. *)
Definition np_unique `{EqDecision A} (R : relation A)
    `{∀ x y, Decision (R x y)} (l : list A) : list A * list nat :=
  let u := merge_sort R (remove_dups l) in
  (u, (λ x, np_index x u) <$> l).

(** ** Rows filed under a key *)

(** The data of the rows filed under [key], in row order: [keys] and [xs]
    are two parallel columns. *)
Definition rows_of `{EqDecision K} {B} (key : K) (keys : list K)
    (xs : list B) : list B :=
  (filter (λ row, row.1 = key) (zip keys xs)).*2.

(** Updating the slots named by a list of rows [(unique_idx, data)], one row
    after the other. *)
Definition apply_rows {A B} (upd : B → A → A) (rows : list (nat * B))
    (out : list A) : list A :=
  foldl (λ out row, alter (upd row.2) row.1 out) out rows.

(** ** SingleTaskDataset *)

Section dataset.
Context {Label Feature Weight : Type}.

(** The canonical-identity resolver of goli.data.data_utils applied to one
    SMILES string; it may reject its input. *)
Context (smiles_to_unique_mol_id : string → result string).
(** [torch.as_tensor(label).size()] *)
Context (label_size : Label → list nat).
(** The [num_nodes] and [num_edges] attributes of a featurized graph. *)
Context (num_nodes num_edges : Feature → nat).
(** [numpy.std] over a list of counts, with the floating-point type it
    returns. *)
Context {Float : Type} (np_std : list nat → Float).

Record SingleTaskDataset : Type := {
  st_labels : list Label;
  st_features : option (list Feature);
  st_smiles : option (list string);
  st_indices : option (list string);
  st_weights : option (list Weight);
  st_unique_ids : option (list string);
}.

(** The assertion message of a failed length check. *)
Definition length_msg (name : string) (got numel : nat) : string :=
  name +:+ " must be the same length as labels, got " +:+ pretty got
       +:+ " and " +:+ pretty numel.

(** [assert len(field) == numel] for an optional parallel sequence. *)
Definition check_length {A} (name : string) (field : option (list A))
    (numel : nat) : result unit :=
  match field with
  | None => Ok ()
  | Some l =>
      if decide (length l = numel) then Ok ()
      else Err (AssertionError (length_msg name (length l) numel))
  end.

(** [SingleTaskDataset.__init__] *)
Definition SingleTaskDataset_init (labels : list Label)
    (features : option (list Feature)) (smiles indices : option (list string))
    (weights : option (list Weight)) (unique_ids : option (list string))
    : result SingleTaskDataset :=
  let numel := length labels in
  _ ← check_length "features" features numel;
  _ ← check_length "smiles" smiles numel;
  _ ← check_length "indices" indices numel;
  _ ← check_length "weights" weights numel;
  _ ← check_length "unique_ids" unique_ids numel;
  Ok {| st_labels := labels; st_features := features; st_smiles := smiles;
        st_indices := indices; st_weights := weights;
        st_unique_ids := unique_ids |}.

(** The length of the optional sequence passed under [name], when one was
    passed. *)
Definition provided_length (features : option (list Feature))
    (smiles indices : option (list string)) (weights : option (list Weight))
    (unique_ids : option (list string)) (name : string) : option nat :=
  if decide (name = "features") then length <$> features
  else if decide (name = "smiles") then length <$> smiles
  else if decide (name = "indices") then length <$> indices
  else if decide (name = "weights") then length <$> weights
  else if decide (name = "unique_ids") then length <$> unique_ids
  else None.

(** [SingleTaskDataset.__len__] *)
Definition SingleTaskDataset_len (self : SingleTaskDataset) : nat :=
  length (st_labels self).

(** A store as the constructor validates it: every optional sequence it
    holds is as long as the labels. *)
Definition well_formed (self : SingleTaskDataset) : Prop :=
  ∀ name n,
    provided_length (st_features self) (st_smiles self) (st_indices self)
      (st_weights self) (st_unique_ids self) name = Some n →
    n = SingleTaskDataset_len self.

(** The dictionary returned by [__getitem__]: a key is present exactly when
    the field is [Some]. *)
Record datum : Type := {
  d_features : option Feature;
  d_labels : option Label;
  d_smiles : option string;
  d_indices : option string;
  d_weights : option Weight;
  d_unique_ids : option string;
}.

(** [if self.field is not None: datum[key] = self.field[idx]] *)
Definition get_field {A} (field : option (list A)) (idx : nat)
    : result (option A) :=
  match field with
  | None => Ok None
  | Some l => x ← py_index l idx; Ok (Some x)
  end.

(** [SingleTaskDataset.__getitem__] *)
Definition SingleTaskDataset_getitem (self : SingleTaskDataset) (idx : nat)
    : result datum :=
  f ← get_field (st_features self) idx;
  l ← get_field (Some (st_labels self)) idx;
  s ← get_field (st_smiles self) idx;
  i ← get_field (st_indices self) idx;
  w ← get_field (st_weights self) idx;
  u ← get_field (st_unique_ids self) idx;
  Ok {| d_features := f; d_labels := l; d_smiles := s; d_indices := i;
        d_weights := w; d_unique_ids := u |}.

(** The dictionary [__getitem__] returns for an index within range of a
    validated store. *)
Definition datum_at (self : SingleTaskDataset) (idx : nat) : datum :=
  {| d_features := st_features self ≫= (.!! idx);
     d_labels := st_labels self !! idx;
     d_smiles := st_smiles self ≫= (.!! idx);
     d_indices := st_indices self ≫= (.!! idx);
     d_weights := st_weights self ≫= (.!! idx);
     d_unique_ids := st_unique_ids self ≫= (.!! idx) |}.

(** ** MultitaskDataset *)

(** Modelled from the spec: [smiles_to_unique_mol_ids] of
    goli.data.data_utils is not part of the sources; per the spec it maps the
    per-item resolver over the batch, keeping the input order, and an item
    that cannot be normalised fails the batch. *)
Definition smiles_to_unique_mol_ids (ds_smiles : list string)
    : result (list string) :=
  mapM smiles_to_unique_mol_id ds_smiles.

(** The dictionary [all_lists] built by [_get_all_lists_ids]. *)
Record all_lists : Type := {
  al_smiles : list string;
  al_features : list Feature;
  al_labels : list Label;
  al_mol_ids : list string;
  al_tasks : list string;
}.

(** [[ds[i][key] for i in range(len(ds))]] *)
Definition column {A} (ds : SingleTaskDataset) (key : string)
    (entry : datum → option A) : result (list A) :=
  mapM (λ i, d ← SingleTaskDataset_getitem ds i; dict_get key (entry d))
       (seq 0 (SingleTaskDataset_len ds)).

(** The body of the loop of [_get_all_lists_ids] for one non-empty task:
    the five columns it appends. *)
Definition task_columns (task : string) (ds : SingleTaskDataset)
    : result all_lists :=
  ds_smiles ← column ds "smiles" d_smiles;
  ds_labels ← column ds "labels" d_labels;
  first ← SingleTaskDataset_getitem ds 0;
  ds_mol_ids ←
    match d_unique_ids first with
    | Some _ => column ds "unique_ids" d_unique_ids
    | None => smiles_to_unique_mol_ids ds_smiles
    end;
  first ← SingleTaskDataset_getitem ds 0;
  ds_features ←
    match d_features first with
    | Some _ => Some <$> column ds "features" d_features
    | None => Ok None
    end;
  Ok {| al_smiles := ds_smiles;
        al_features := default [] ds_features;
        al_labels := ds_labels;
        al_mol_ids := ds_mol_ids;
        al_tasks := replicate (SingleTaskDataset_len ds) task |}.

(** [all_x.extend(ds_x)] for the five lists. *)
Definition extend (acc cols : all_lists) : all_lists :=
  {| al_smiles := al_smiles acc ++ al_smiles cols;
     al_features := al_features acc ++ al_features cols;
     al_labels := al_labels acc ++ al_labels cols;
     al_mol_ids := al_mol_ids acc ++ al_mol_ids cols;
     al_tasks := al_tasks acc ++ al_tasks cols |}.

Definition no_lists : all_lists :=
  {| al_smiles := []; al_features := []; al_labels := [];
     al_mol_ids := []; al_tasks := [] |}.

(** The loop of [_get_all_lists_ids] over [datasets.items()], [acc] holding
    the five lists extended so far. *)
Fixpoint get_all_lists_loop (datasets : list (string * SingleTaskDataset))
    (acc : all_lists) : result all_lists :=
  match datasets with
  | [] => Ok acc
  | (task, ds) :: rest =>
      if decide (SingleTaskDataset_len ds = 0) then get_all_lists_loop rest acc
      else
        cols ← task_columns task ds;
        get_all_lists_loop rest (extend acc cols)
  end.

(** [MultitaskDataset._get_all_lists_ids] *)
Definition _get_all_lists_ids (datasets : list (string * SingleTaskDataset))
    : result all_lists :=
  get_all_lists_loop datasets no_lists.

(** A task takes part in the merge when it has at least one row. *)
Definition non_empty (item : string * SingleTaskDataset) : Prop :=
  SingleTaskDataset_len item.2 ≠ 0.

(** A task supplies features when its store was given a feature list. *)
Definition supplies_features (item : string * SingleTaskDataset) : Prop :=
  is_Some (st_features item.2).

(** The tasks that have rows, paired with the columns the loop body gives
    for each. *)
Definition collected (datasets : list (string * SingleTaskDataset))
    (colss : list all_lists) : Prop :=
  Forall2 (λ item cols, task_columns item.1 item.2 = Ok cols)
          (filter (λ item, SingleTaskDataset_len item.2 ≠ 0) datasets) colss.

(** The rows of an entity, read off the collected columns: the SMILES
    variants filed under identity [id], the label of the last row of task
    [t] with that identity, and the feature of its last row. *)
Definition variants_of (all : all_lists) (id : string) : list string :=
  rows_of id (al_mol_ids all) (al_smiles all).
Definition last_label (all : all_lists) (id t : string) : option Label :=
  last (rows_of (id, t) (zip (al_mol_ids all) (al_tasks all))
                (al_labels all)).
Definition last_feature (all : all_lists) (id : string) : option Feature :=
  last (rows_of id (al_mol_ids all) (al_features all)).

(** [MultitaskDataset._get_inv_of_mol_ids] *)
Definition MultitaskDataset_get_inv_of_mol_ids (all_mol_ids : list string)
    : result (list string * list nat) :=
  Ok (np_unique String.le all_mol_ids).

(** A slot of the [features] list of [merge]: the placeholder [-1] it is
    initialised with, or a feature object. *)
Inductive slot : Type :=
  | MinusOne
  | Obj (f : Feature).

(** What [merge] returns: a 3-tuple, or a 4-tuple with the features. *)
Inductive merged (I : Type) : Type :=
  | Merged3 (mol_ids : list I) (smiles : list (list string))
      (labels : list (gmap string Label))
  | Merged4 (mol_ids : list I) (smiles : list (list string))
      (labels : list (gmap string Label)) (features : list slot).
Arguments Merged3 {I} _ _ _.
Arguments Merged4 {I} _ _ _ _.

Definition merged_mol_ids {I} (r : merged I) : list I :=
  match r with Merged3 ids _ _ | Merged4 ids _ _ _ => ids end.
Definition merged_smiles {I} (r : merged I) : list (list string) :=
  match r with Merged3 _ sm _ | Merged4 _ sm _ _ => sm end.
Definition merged_labels {I} (r : merged I) : list (gmap string Label) :=
  match r with Merged3 _ _ lb | Merged4 _ _ lb _ => lb end.
Definition merged_features {I} (r : merged I) : option (list slot) :=
  match r with Merged3 _ _ _ => None | Merged4 _ _ _ fs => Some fs end.

(** [for all_idx, unique_idx in enumerate(inv): out[unique_idx] <- upd ...]:
    the three scatter loops of [merge].  [fetch all_idx] reads the row data,
    [upd] is the update done to the slot at [unique_idx].  Reading the row
    and reading the slot both raise [IndexError] out of range, so the order
    of the two reads does not show. *)
Fixpoint scatter {A B} (fetch : nat → result B) (upd : B → A → A)
    (inv : list nat) (all_idx : nat) (out : list A) : result (list A) :=
  match inv with
  | [] => Ok out
  | unique_idx :: inv' =>
      x ← fetch all_idx;
      old ← py_index out unique_idx;
      scatter fetch upd inv' (S all_idx) (<[unique_idx := upd x old]> out)
  end.

(** [MultitaskDataset.merge]; [get_inv] is the [_get_inv_of_mol_ids] method
    of the class of [self]. *)
Definition merge {I} (get_inv : list string → result (list I * list nat))
    (datasets : list (string * SingleTaskDataset)) : result (merged I) :=
  all ← _get_all_lists_ids datasets;
  '(mol_ids, inv) ← get_inv (al_mol_ids all);
  smiles ← scatter (py_index (al_smiles all)) (λ s variants, variants ++ [s])
             inv 0 (replicate (length mol_ids) []);
  labels ← scatter
             (λ all_idx, task ← py_index (al_tasks all) all_idx;
                         label ← py_index (al_labels all) all_idx;
                         Ok (task, label))
             (λ row (d : gmap string Label), <[row.1 := row.2]> d)
             inv 0 (replicate (length mol_ids) ∅);
  if decide (0 < length (al_features all)) then
    features ← scatter (py_index (al_features all)) (λ f _, Obj f)
                 inv 0 (replicate (length mol_ids) MinusOne);
    Ok (Merged4 mol_ids smiles labels features)
  else Ok (Merged3 mol_ids smiles labels).

(** The tuple [merge] builds from the collected columns once every row
    could be read. *)
Definition merged_of (all : all_lists) : merged string :=
  let '(mol_ids, inv) := np_unique String.le (al_mol_ids all) in
  let smiles :=
    apply_rows (λ s variants, variants ++ [s]) (zip inv (al_smiles all))
      (replicate (length mol_ids) []) in
  let labels :=
    apply_rows (λ row (d : gmap string Label), <[row.1 := row.2]> d)
      (zip inv (zip (al_tasks all) (al_labels all)))
      (replicate (length mol_ids) ∅) in
  if decide (0 < length (al_features all)) then
    Merged4 mol_ids smiles labels
      (apply_rows (λ f _, Obj f) (zip inv (al_features all))
         (replicate (length mol_ids) MinusOne))
  else Merged3 mol_ids smiles labels.

(** The loop of [set_label_size_dict]. *)
Fixpoint label_size_loop (datasets : list (string * SingleTaskDataset))
    (task_labels_size : gmap string (list nat))
    : result (gmap string (list nat)) :=
  match datasets with
  | [] => Ok task_labels_size
  | (task, ds) :: rest =>
      if decide (SingleTaskDataset_len ds = 0)
      then label_size_loop rest task_labels_size
      else
        first ← SingleTaskDataset_getitem ds 0;
        label ← dict_get "labels" (d_labels first);
        label_size_loop rest (<[task := label_size label]> task_labels_size)
  end.

(** [MultitaskDataset.set_label_size_dict] *)
Definition set_label_size_dict (datasets : list (string * SingleTaskDataset))
    : result (gmap string (list nat)) :=
  label_size_loop datasets ∅.

(** The attributes of a constructed [MultitaskDataset].  [mt_mol_ids] and
    [mt_smiles] are [None] when set to Python's [None]; [mt_features] is
    [None] when the attribute was never assigned. *)
Record MultitaskDataset : Type := {
  mt_about : string;
  mt_mol_ids : option (list string);
  mt_smiles : option (list (list string));
  mt_labels : list (gmap string Label);
  mt_features : option (list slot);
  mt_labels_size : gmap string (list nat);
}.

(** [self.a, self.b, self.c, self.d = self.merge(datasets)] *)
Definition unpack4 {I} (r : merged I)
    : result (list I * list (list string) * list (gmap string Label)
              * option (list slot)) :=
  match r with
  | Merged4 ids sm lb fs => Ok (ids, sm, lb, Some fs)
  | Merged3 _ _ _ =>
      Err (ValueError "not enough values to unpack (expected 4, got 3)")
  end.

(** [self.a, self.b, self.c = self.merge(datasets)] *)
Definition unpack3 {I} (r : merged I)
    : result (list I * list (list string) * list (gmap string Label)
              * option (list slot)) :=
  match r with
  | Merged3 ids sm lb => Ok (ids, sm, lb, None)
  | Merged4 _ _ _ _ => Err (ValueError "too many values to unpack (expected 3)")
  end.

(** [MultitaskDataset.__init__]; [datasets[task]] for the first key [task]
    is the store of the first item, and [np.array(self.labels)] keeps the
    label dictionaries and their order. *)
Definition MultitaskDataset_init
    (datasets : list (string * SingleTaskDataset))
    (save_smiles_and_ids : bool) (about : string) : result MultitaskDataset :=
  match datasets with
  | [] => Err StopIteration
  | (task, ds) :: _ =>
      with_features ←
        (if decide (0 < SingleTaskDataset_len ds) then
           first ← SingleTaskDataset_getitem ds 0;
           Ok (bool_decide (is_Some (d_features first)))
         else Ok false);
      r ← merge MultitaskDataset_get_inv_of_mol_ids datasets;
      '(mol_ids, smiles, labels, features) ←
        (if with_features : bool then unpack4 r else unpack3 r);
      labels_size ← set_label_size_dict datasets;
      Ok {| mt_about := about;
            mt_mol_ids := if save_smiles_and_ids then Some mol_ids else None;
            mt_smiles := if save_smiles_and_ids then Some smiles else None;
            mt_labels := labels;
            mt_features := features;
            mt_labels_size := labels_size |}
  end.

(** [MultitaskDataset.__len__] *)
Definition MultitaskDataset_len (self : MultitaskDataset) : nat :=
  length (mt_labels self).

(** [num_graphs_total] *)
Definition num_graphs_total (self : MultitaskDataset) : nat :=
  MultitaskDataset_len self.

(** [self.features]: reading an attribute that was never assigned. *)
Definition get_features (self : MultitaskDataset) : result (list slot) :=
  match mt_features self with
  | Some fs => Ok fs
  | None => Err (AttributeError "features")
  end.

(** [data.attr] for an element of [self.features]. *)
Definition slot_attr (name : string) (attr : Feature → nat) (data : slot)
    : result nat :=
  match data with
  | Obj f => Ok (attr f)
  | MinusOne => Err (AttributeError name)
  end.

(** [[data.attr for data in self.features]] *)
Definition per_graph (name : string) (attr : Feature → nat)
    (self : MultitaskDataset) : result (list nat) :=
  fs ← get_features self;
  mapM (slot_attr name attr) fs.

(** Python's [max] and [min] of a list. *)
Definition py_max (l : list nat) : result nat :=
  match l with
  | [] => Err (ValueError "max() arg is an empty sequence")
  | x :: l' => Ok (foldr Nat.max x l')
  end.
Definition py_min (l : list nat) : result nat :=
  match l with
  | [] => Err (ValueError "min() arg is an empty sequence")
  | x :: l' => Ok (foldr Nat.min x l')
  end.

(** [total / count], Python's true division; the quotient is given as the
    exact rational. *)
Definition py_truediv (total count : nat) : result Q :=
  if decide (count = 0) then Err ZeroDivisionError
  else Ok (Qmake (Z.of_nat total) (Pos.of_nat count)).

Definition num_nodes_total (self : MultitaskDataset) : result nat :=
  sum_list <$> per_graph "num_nodes" num_nodes self.
Definition max_num_nodes_per_graph (self : MultitaskDataset) : result nat :=
  per_graph "num_nodes" num_nodes self ≫= py_max.
Definition std_num_nodes_per_graph (self : MultitaskDataset) : result Float :=
  np_std <$> per_graph "num_nodes" num_nodes self.
Definition min_num_nodes_per_graph (self : MultitaskDataset) : result nat :=
  per_graph "num_nodes" num_nodes self ≫= py_min.
Definition mean_num_nodes_per_graph (self : MultitaskDataset) : result Q :=
  total ← num_nodes_total self;
  py_truediv total (num_graphs_total self).

Definition num_edges_total (self : MultitaskDataset) : result nat :=
  sum_list <$> per_graph "num_edges" num_edges self.
Definition max_num_edges_per_graph (self : MultitaskDataset) : result nat :=
  per_graph "num_edges" num_edges self ≫= py_max.
Definition min_num_edges_per_graph (self : MultitaskDataset) : result nat :=
  per_graph "num_edges" num_edges self ≫= py_min.
Definition std_num_edges_per_graph (self : MultitaskDataset) : result Float :=
  np_std <$> per_graph "num_edges" num_edges self.
Definition mean_num_edges_per_graph (self : MultitaskDataset) : result Q :=
  total ← num_edges_total self;
  py_truediv total (num_graphs_total self).

End dataset.

Arguments Merged3 {Label Feature I} _ _ _.
Arguments Merged4 {Label Feature I} _ _ _ _.

(** ** FakeDataset *)

Section fake_dataset.
Context {Label Feature Weight : Type}.
Context (label_size : Label → list nat).
Context (num_nodes num_edges : Feature → nat).
Context {Float : Type} (np_std : list nat → Float).

(** [FakeDataset._get_inv_of_mol_ids] *)
Definition FakeDataset_get_inv_of_mol_ids (num_datasets : nat)
    (all_mol_ids : list string) : result (list nat * list nat) :=
  if decide (num_datasets = 0) then Err ZeroDivisionError
  else
    let inv :=
      mjoin (replicate num_datasets
               (seq 0 (length all_mol_ids `div` num_datasets))) in
    Ok ((np_unique (≤) inv).1, inv).

(** [FakeDataset.__init__] does not call [MultitaskDataset.__init__], so a
    [FakeDataset] has no attribute [n_jobs]: in [_get_all_lists_ids] the call
    [smiles_to_unique_mol_ids(ds_smiles, n_jobs=self.n_jobs, ...)] raises
    [AttributeError] while its arguments are evaluated, whatever the SMILES.
    The call is reached only for a task with rows and without [unique_ids],
    whose [ds_smiles] is not empty. *)
Definition FakeDataset_smiles_to_unique_mol_id (smiles : string)
    : result string :=
  Err (AttributeError "n_jobs").

(** [self.merge(datasets)] on a [FakeDataset]: the inherited [merge] with
    the overridden [_get_inv_of_mol_ids] and [self.num_datasets], which the
    constructor sets to [len(datasets)]. *)
Definition FakeDataset_merge
    (datasets : list (string * @SingleTaskDataset Label Feature Weight))
    : result (merged nat) :=
  merge FakeDataset_smiles_to_unique_mol_id
    (FakeDataset_get_inv_of_mol_ids (length datasets)) datasets.

(** The objects a [FakeDataset] hands out are mutable (label dictionaries
    and feature objects), so they live in a store and the dataset holds
    their locations.  Two records alias when they hold the same location. *)
Inductive object : Type :=
  | LabelsObj (d : gmap string Label)
  | FeatureObj (data : @slot Feature).

Abbreviation loc := nat (only parsing).
Abbreviation heap := (list object) (only parsing).

(** A new object is placed at the next free location. *)
Definition alloc (o : object) (h : heap) : loc * heap := (length h, h ++ [o]).

(** Placing a list of existing objects in the store, in list order. *)
Definition adopt (os : list object) (h : heap) : list loc * heap :=
  (seq (length h) (length os), h ++ os).

(** [copy.deepcopy]: immutable values are returned as they are, a mutable
    object is duplicated into a new location. *)
Class DeepCopy (A B : Type) : Type := deepcopy : A → heap → B * heap.

#[global] Instance deepcopy_int : DeepCopy nat nat := λ x h, (x, h).
#[global] Instance deepcopy_variants : DeepCopy (list string) (list string) :=
  λ x h, (x, h).
#[global] Instance deepcopy_labels : DeepCopy (gmap string Label) loc :=
  λ d h, alloc (LabelsObj d) h.
#[global] Instance deepcopy_slot : DeepCopy (@slot Feature) loc :=
  λ data h, alloc (FeatureObj data) h.

(** [[body for _ in range(n)]] for a body that allocates. *)
Fixpoint comprehension {B} (n : nat) (body : heap → result (B * heap))
    (h : heap) : result (list B * heap) :=
  match n with
  | 0 => Ok ([], h)
  | S n' =>
      '(x, h1) ← body h;
      '(xs, h2) ← comprehension n' body h1;
      Ok (x :: xs, h2)
  end.

(** [deepcopy(l[0])] *)
Definition copy_first {A B} `{DeepCopy A B} (l : list A) (h : heap)
    : result (B * heap) :=
  x ← py_index l 0; Ok (deepcopy x h).

(** [FakeDataset.deepcopy_mol]; the parameters keep the order and names of
    the source. *)
Definition deepcopy_mol {A A' B B' C C' D D'}
    `{DeepCopy A A', DeepCopy B B', DeepCopy C C', DeepCopy D D'}
    (num_mols : nat) (mol_ids : list A) (labels : list B) (smiles : list C)
    (features : option (list D)) (h : heap)
    : result ((list A' * list B' * list C' * option (list D')) * heap) :=
  '(mol_ids', h) ← comprehension num_mols (copy_first mol_ids) h;
  '(labels', h) ← comprehension num_mols (copy_first labels) h;
  '(smiles', h) ← comprehension num_mols (copy_first smiles) h;
  match features with
  | Some fs =>
      '(features', h) ← comprehension num_mols (copy_first fs) h;
      Ok ((mol_ids', labels', smiles', Some features'), h)
  | None => Ok ((mol_ids', labels', smiles', None), h)
  end.

(** The attributes of a constructed [FakeDataset]. *)
Record FakeDataset : Type := {
  fk_indexing_same_elem : bool;
  fk_num_mols : nat;
  fk_num_datasets : nat;
  fk_about : string;
  fk_mol_ids : list nat;
  fk_smiles : list (list string);
  fk_labels : list loc;
  fk_features : list loc;
  fk_labels_size : gmap string (list nat);
}.

(** The body of [FakeDataset.__init__] up to the assignment of
    [labels_size]: the branch on the first record, the merge and the
    copies.  The last component is the [features] attribute, [None] when the
    branch taken never assigns it. *)
Definition FakeDataset_init_branches
    (datasets : list (string * @SingleTaskDataset Label Feature Weight))
    (num_mols : nat) (indexing_same_elem : bool) (h : heap)
    : result ((list nat * list (list string) * list loc * option (list loc))
              * heap) :=
  match datasets with
  | [] => Err StopIteration
  | (task, ds) :: _ =>
      first ← SingleTaskDataset_getitem ds 0;
      match d_features first with
      | Some _ =>
          r ← FakeDataset_merge datasets;
          '(mol_ids, smiles, labels, features) ← unpack4 r;
          if indexing_same_elem then
            let '(labels, h) := adopt (LabelsObj <$> labels) h in
            let '(features, h) :=
              adopt (FeatureObj <$> default [] features) h in
            Ok ((mol_ids, smiles, labels, Some features), h)
          else
            '((mol_ids, smiles, labels, features), h) ←
               deepcopy_mol num_mols mol_ids smiles labels features h;
            Ok ((mol_ids, smiles, labels, features), h)
      | None =>
          r ← FakeDataset_merge datasets;
          '(mol_ids, smiles, labels, _) ← unpack3 r;
          if indexing_same_elem then
            let '(labels, h) := adopt (LabelsObj <$> labels) h in
            Ok ((mol_ids, smiles, labels, None), h)
          else
            '((mol_ids, smiles, labels, _), h) ←
               deepcopy_mol (D := slot) (D' := loc)
                 num_mols mol_ids smiles labels None h;
            Ok ((mol_ids, smiles, labels, None), h)
      end
  end.

(** [FakeDataset.__init__]: after the branches, [labels_size] is set and
    the closing [self.features = self.features] reads the attribute. *)
Definition FakeDataset_init
    (datasets : list (string * @SingleTaskDataset Label Feature Weight))
    (num_mols : nat) (indexing_same_elem : bool) (h : heap)
    : result (FakeDataset * heap) :=
  '((mol_ids, smiles, labels, features_attr), h) ←
     FakeDataset_init_branches datasets num_mols indexing_same_elem h;
  labels_size ← set_label_size_dict label_size datasets;
  features ← match features_attr with
             | Some fs => Ok fs
             | None => Err (AttributeError "features")
             end;
  Ok ({| fk_indexing_same_elem := indexing_same_elem;
         fk_num_mols := num_mols;
         fk_num_datasets := length datasets;
         fk_about := "FakeDatasets";
         fk_mol_ids := mol_ids;
         fk_smiles := smiles;
         fk_labels := labels;
         fk_features := features;
         fk_labels_size := labels_size |}, h).

(** [FakeDataset.__len__] *)
Definition FakeDataset_len (self : FakeDataset) : nat := fk_num_mols self.

(** The statistics properties are inherited from [MultitaskDataset].  On a
    [FakeDataset], [self.features] lists the objects at the locations of
    [fk_features], and [len(self)] is [FakeDataset.__len__]. *)

(** [data.attr] for the object at a location: a feature object has the
    attribute, the placeholder and a label dictionary have not.  The
    locations a constructed dataset holds are all in the store. *)
Definition object_attr (name : string) (attr : Feature → nat) (h : heap)
    (l : loc) : result nat :=
  o ← py_index h l;
  match o with
  | FeatureObj data => slot_attr name attr data
  | LabelsObj _ => Err (AttributeError name)
  end.

(** [[data.attr for data in self.features]] *)
Definition FakeDataset_per_graph (name : string) (attr : Feature → nat)
    (self : FakeDataset) (h : heap) : result (list nat) :=
  mapM (object_attr name attr h) (fk_features self).

(** [num_graphs_total] *)
Definition FakeDataset_num_graphs_total (self : FakeDataset) : nat :=
  FakeDataset_len self.

Definition FakeDataset_num_nodes_total (self : FakeDataset) (h : heap)
    : result nat :=
  sum_list <$> FakeDataset_per_graph "num_nodes" num_nodes self h.
Definition FakeDataset_max_num_nodes_per_graph (self : FakeDataset)
    (h : heap) : result nat :=
  FakeDataset_per_graph "num_nodes" num_nodes self h ≫= py_max.
Definition FakeDataset_std_num_nodes_per_graph (self : FakeDataset)
    (h : heap) : result Float :=
  np_std <$> FakeDataset_per_graph "num_nodes" num_nodes self h.
Definition FakeDataset_min_num_nodes_per_graph (self : FakeDataset)
    (h : heap) : result nat :=
  FakeDataset_per_graph "num_nodes" num_nodes self h ≫= py_min.
Definition FakeDataset_mean_num_nodes_per_graph (self : FakeDataset)
    (h : heap) : result Q :=
  total ← FakeDataset_num_nodes_total self h;
  py_truediv total (FakeDataset_num_graphs_total self).

Definition FakeDataset_num_edges_total (self : FakeDataset) (h : heap)
    : result nat :=
  sum_list <$> FakeDataset_per_graph "num_edges" num_edges self h.
Definition FakeDataset_max_num_edges_per_graph (self : FakeDataset)
    (h : heap) : result nat :=
  FakeDataset_per_graph "num_edges" num_edges self h ≫= py_max.
Definition FakeDataset_min_num_edges_per_graph (self : FakeDataset)
    (h : heap) : result nat :=
  FakeDataset_per_graph "num_edges" num_edges self h ≫= py_min.
Definition FakeDataset_std_num_edges_per_graph (self : FakeDataset)
    (h : heap) : result Float :=
  np_std <$> FakeDataset_per_graph "num_edges" num_edges self h.
Definition FakeDataset_mean_num_edges_per_graph (self : FakeDataset)
    (h : heap) : result Q :=
  total ← FakeDataset_num_edges_total self h;
  py_truediv total (FakeDataset_num_graphs_total self).

(** The dictionary returned by [FakeDataset.__getitem__]: the two objects
    it refers to. *)
Record fake_datum : Type := {
  fd_labels : loc;
  fd_features : loc;
}.

(** [FakeDataset.__getitem__] *)
Definition FakeDataset_getitem (self : FakeDataset) (idx : nat)
    : result fake_datum :=
  let idx := if fk_indexing_same_elem self then 0 else idx in
  labels ← py_index (fk_labels self) idx;
  features ← py_index (fk_features self) idx;
  Ok {| fd_labels := labels; fd_features := features |}.

(** The contents of a record: the objects its two references point to. *)
Definition record_value (h : heap) (d : fake_datum)
    : option object * option object :=
  (h !! fd_labels d, h !! fd_features d).

(** Mutating the object at location [l] in place. *)
Definition mutate (l : loc) (o : object) (h : heap) : heap := <[l := o]> h.

End fake_dataset.

Abbreviation loc := nat (only parsing).
Abbreviation heap := (list object) (only parsing).

(** ** Reading the unified collection *)

(** [functools.lru_cache(maxsize)] around a function [f] of one argument:
    the cache lists the entries from the most to the least recently used.
    A hit returns the stored value and makes its entry the most recent, a
    miss calls [f], stores the value it returns (nothing when it raises) and
    drops the least recently used entries beyond [maxsize]. *)
Definition lru_call `{EqDecision K} {V} (maxsize : nat) (f : K → result V)
    (key : K) (cache : list (K * V)) : result V * list (K * V) :=
  match list_find (λ entry, entry.1 = key) cache with
  | Some (i, entry) => (Ok entry.2, entry :: delete i cache)
  | None =>
      match f key with
      | Ok v => (Ok v, take maxsize ((key, v) :: cache))
      | Err e => (Err e, cache)
      end
  end.

Section access.
Context {Label Feature : Type}.
Context (num_nodes num_edges : Feature → nat).
Context {Float : Type} (np_std : list nat → Float).
(** [str] of the floating-point values [__repr__] interpolates. *)
Context (show_std : Float → string) (show_mean : Q → string).

(** The dictionary returned by [MultitaskDataset.__getitem__]. *)
Record multitask_datum : Type := {
  md_mol_ids : option string;
  md_smiles : option (list string);
  md_labels : option (gmap string Label);
  md_features : option (@slot Feature);
}.

(** [if self.attr is not None: datum[key] = self.attr[idx]] *)
Definition get_attr {A} (attr : option (list A)) (idx : nat)
    : result (option A) :=
  match attr with
  | None => Ok None
  | Some l => x ← py_index l idx; Ok (Some x)
  end.

(** The body of [MultitaskDataset.__getitem__]; [self.labels] is never
    [None], and [self.features], once assigned, is a list. *)
Definition MultitaskDataset_getitem (self : @MultitaskDataset Label Feature)
    (idx : nat) : result multitask_datum :=
  mol_ids ← get_attr (mt_mol_ids self) idx;
  smiles ← get_attr (mt_smiles self) idx;
  labels ← get_attr (Some (mt_labels self)) idx;
  features ← (fs ← get_features self; get_attr (Some fs) idx);
  Ok {| md_mol_ids := mol_ids; md_smiles := smiles; md_labels := labels;
        md_features := features |}.

(** [MultitaskDataset.__getitem__] as decorated with
    [@lru_cache(maxsize=16)], for one dataset [self]. *)
Definition MultitaskDataset_getitem_cached
    (self : @MultitaskDataset Label Feature) (idx : nat)
    (cache : list (nat * multitask_datum))
    : result multitask_datum * list (nat * multitask_datum) :=
  lru_call 16 (MultitaskDataset_getitem self) idx cache.

(** Successive reads [self[idx]] for the indices [idxs], through the cache:
    the outcomes, in call order, and the cache left behind. *)
Fixpoint MultitaskDataset_getitems (self : @MultitaskDataset Label Feature)
    (idxs : list nat) (cache : list (nat * multitask_datum))
    : list (result multitask_datum) * list (nat * multitask_datum) :=
  match idxs with
  | [] => ([], cache)
  | idx :: idxs' =>
      let '(r, cache') := MultitaskDataset_getitem_cached self idx cache in
      let '(rs, cache'') := MultitaskDataset_getitems self idxs' cache' in
      (r :: rs, cache'')
  end.

(** The line feed and the tabulation of the summary. *)
Definition nl : string := String (Ascii.ascii_of_nat 10) EmptyString.
Definition tab : string := String (Ascii.ascii_of_nat 9) EmptyString.

(** One [f"\t{name} = {value}\n"] line and the rule
    [f"-------------------\n"]. *)
Definition repr_line (name value : string) : string :=
  tab +:+ name +:+ " = " +:+ value +:+ nl.
Definition repr_rule : string := "-------------------" +:+ nl.

(** [MultitaskDataset.__repr__]; [class_name] is
    [self.__class__.__name__]. *)
Definition MultitaskDataset_repr (class_name : string)
    (self : @MultitaskDataset Label Feature) : result string :=
  if decide (MultitaskDataset_len self = 0) then
    Ok (repr_rule +:+ class_name +:+ nl
        +:+ repr_line "about" (mt_about self)
        +:+ repr_line "num_graphs_total" (pretty (num_graphs_total self))
        +:+ repr_rule)
  else
    nodes_total ← num_nodes_total num_nodes self;
    nodes_max ← max_num_nodes_per_graph num_nodes self;
    nodes_min ← min_num_nodes_per_graph num_nodes self;
    nodes_std ← std_num_nodes_per_graph num_nodes np_std self;
    nodes_mean ← mean_num_nodes_per_graph num_nodes self;
    edges_total ← num_edges_total num_edges self;
    edges_max ← max_num_edges_per_graph num_edges self;
    edges_min ← min_num_edges_per_graph num_edges self;
    edges_std ← std_num_edges_per_graph num_edges np_std self;
    edges_mean ← mean_num_edges_per_graph num_edges self;
    Ok (repr_rule +:+ class_name +:+ nl
        +:+ repr_line "about" (mt_about self)
        +:+ repr_line "num_graphs_total" (pretty (num_graphs_total self))
        +:+ repr_line "num_nodes_total" (pretty nodes_total)
        +:+ repr_line "max_num_nodes_per_graph" (pretty nodes_max)
        +:+ repr_line "min_num_nodes_per_graph" (pretty nodes_min)
        +:+ repr_line "std_num_nodes_per_graph" (show_std nodes_std)
        +:+ repr_line "mean_num_nodes_per_graph" (show_mean nodes_mean)
        +:+ repr_line "num_edges_total" (pretty edges_total)
        +:+ repr_line "max_num_edges_per_graph" (pretty edges_max)
        +:+ repr_line "min_num_edges_per_graph" (pretty edges_min)
        +:+ repr_line "std_num_edges_per_graph" (show_std edges_std)
        +:+ repr_line "mean_num_edges_per_graph" (show_mean edges_mean)
        +:+ repr_rule).

End access.

(** ** Task mappings the merge can read *)

Section conditions.
Context {Label Feature Weight : Type}.
Context (smiles_to_unique_mol_id : string → result string).

(** A task whose rows can be collected: a validated store which, when it
    has rows, carries SMILES and, when it brings no identities of its own,
    only SMILES the resolver accepts. *)
Definition collectable (item : string * @SingleTaskDataset Label Feature Weight)
    : Prop :=
  well_formed item.2 ∧
  (non_empty item →
   ∃ sm, st_smiles item.2 = Some sm ∧
         (st_unique_ids item.2 = None →
          Forall (λ s, is_Ok (smiles_to_unique_mol_id s)) sm)).

End conditions.

(** ** Outcomes the specification names *)

(** The class name of an exception. *)
Definition exn_class (e : exn) : string :=
  match e with
  | AssertionError _ => "AssertionError"
  | StopIteration => "StopIteration"
  | KeyError _ => "KeyError"
  | IndexError => "IndexError"
  | ValueError _ => "ValueError"
  | AttributeError _ => "AttributeError"
  | ZeroDivisionError => "ZeroDivisionError"
  | InvalidInput _ => "InvalidInputError"
  end.

(** What the specification accepts from a statistic of an empty collection:
    a returned value (the sentinel) or an exception of the class
    [DegenerateDatasetError]. *)
Definition degenerate_handled {A} (r : result A) : Prop :=
  match r with
  | Ok _ => True
  | Err e => exn_class e = "DegenerateDatasetError"
  end.

(** ** Example task mappings *)

(** A resolver that takes a SMILES string as its own identity, scalar
    labels, and graphs given by their node count. *)
Definition resolve_id (smiles : string) : result string := Ok smiles.
Definition scalar_size (label : nat) : list nat := [].
Definition node_count (data : nat) : nat := data.

Definition store (labels : list nat) (features : option (list nat))
    (smiles : option (list string)) : @SingleTaskDataset nat nat nat :=
  {| st_labels := labels; st_features := features; st_smiles := smiles;
     st_indices := None; st_weights := None; st_unique_ids := None |}.

(** Task A labels m1 and m2, task B labels m2 and m3. *)
Definition task_A := store [0; 1] None (Some ["m1"; "m2"]).
Definition task_B := store [10; 5] None (Some ["m2"; "m3"]).
Definition task_A_graphs := store [0; 1] (Some [7; 8]) (Some ["m1"; "m2"]).
Definition task_B_graphs := store [10; 5] (Some [9; 6]) (Some ["m2"; "m3"]).
Definition task_empty := store [] None None.
Definition task_no_rows := store [] None (Some []).

Definition rows_AB : @all_lists nat nat :=
  {| al_smiles := ["m1"; "m2"; "m2"; "m3"];
     al_features := [];
     al_labels := [0; 1; 10; 5];
     al_mol_ids := ["m1"; "m2"; "m2"; "m3"];
     al_tasks := ["A"; "A"; "B"; "B"] |}.

Definition rows_AB_graphs : @all_lists nat nat :=
  {| al_smiles := ["m1"; "m2"; "m2"; "m3"];
     al_features := [7; 8; 9; 6];
     al_labels := [0; 1; 10; 5];
     al_mol_ids := ["m1"; "m2"; "m2"; "m3"];
     al_tasks := ["A"; "A"; "B"; "B"] |}.

Definition merged_AB : @merged nat nat string :=
  Merged3 ["m1"; "m2"; "m3"] [["m1"]; ["m2"; "m2"]; ["m3"]]
    [{["A" := 0]}; <["B" := 10]> {["A" := 1]}; {["B" := 5]}].

Definition merged_AB_graphs : @merged nat nat string :=
  Merged4 ["m1"; "m2"; "m3"] [["m1"]; ["m2"; "m2"]; ["m3"]]
    [{["A" := 0]}; <["B" := 10]> {["A" := 1]}; {["B" := 5]}]
    [Obj 7; Obj 9; Obj 6].

(** The collection constructed from one task without rows. *)
Definition dataset_empty : @MultitaskDataset nat nat :=
  {| mt_about := ""; mt_mol_ids := None; mt_smiles := None; mt_labels := [];
     mt_features := None; mt_labels_size := ∅ |}.

(** Three copies of the first entity of task A with graphs, and the store
    holding their objects. *)
Definition fake_A : FakeDataset :=
  {| fk_indexing_same_elem := false; fk_num_mols := 3; fk_num_datasets := 1;
     fk_about := "FakeDatasets"; fk_mol_ids := [0; 0; 0];
     fk_smiles := [["m1"]; ["m1"]; ["m1"]]; fk_labels := [0; 1; 2];
     fk_features := [3; 4; 5]; fk_labels_size := {["A" := []]} |}.
Definition heap_A : list (@object nat nat) :=
  [LabelsObj {["A" := 0]}; LabelsObj {["A" := 0]}; LabelsObj {["A" := 0]};
   FeatureObj (Obj 7); FeatureObj (Obj 7); FeatureObj (Obj 7)].

(** A task that brings its own identities, and a resolver that rejects
    every SMILES string. *)
Definition task_ids : @SingleTaskDataset nat nat nat :=
  {| st_labels := [3; 4]; st_features := None;
     st_smiles := Some ["C"; "CC"]; st_indices := None; st_weights := None;
     st_unique_ids := Some ["u1"; "u2"] |}.
Definition reject_all (smiles : string) : result string :=
  Err (InvalidInput smiles).

(** Stores that bring their own identities, the SMILES strings themselves:
    the only stores with rows that a [FakeDataset] can merge. *)
Definition store_ids (labels : list nat) (features : option (list nat))
    (ids : list string) : @SingleTaskDataset nat nat nat :=
  {| st_labels := labels; st_features := features; st_smiles := Some ids;
     st_indices := None; st_weights := None; st_unique_ids := Some ids |}.

Definition task_A_ids := store_ids [0; 1] None ["m1"; "m2"].
Definition task_B_ids := store_ids [10; 5] None ["m2"; "m3"].
Definition task_A_ids_graphs := store_ids [0; 1] (Some [7; 8]) ["m1"; "m2"].
Definition task_m1_ids := store_ids [1] None ["m1"].

(** No copy of the first entity of task A with graphs, and the store, in
    which nothing was placed. *)
Definition fake_none : FakeDataset :=
  {| fk_indexing_same_elem := false; fk_num_mols := 0; fk_num_datasets := 1;
     fk_about := "FakeDatasets"; fk_mol_ids := []; fk_smiles := [];
     fk_labels := []; fk_features := []; fk_labels_size := {["A" := []]} |}.
Definition heap_none : list (@object nat nat) := [].

(** Seventeen entities, one more than the cache of [__getitem__] holds. *)
Definition task_17 : @SingleTaskDataset nat nat nat :=
  store_ids (seq 0 17) (Some (seq 100 17))
    ["a"; "b"; "c"; "d"; "e"; "f"; "g"; "h"; "i";
     "j"; "k"; "l"; "m"; "n"; "o"; "p"; "q"].

(** * Properties *)

(** ** The error monad *)

Lemma bind_Ok {A B} (m : result A) (f : A → result B) b :
  m ≫= f = Ok b ↔ ∃ a, m = Ok a ∧ f a = Ok b.
Proof.
  destruct m as [a|e]; simpl; split; eauto.
  - by intros (a' & [= <-] & ?).
  - done.
  - by intros (? & ? & ?).
Qed.

Lemma fmap_Ok {A B} (m : result A) (f : A → B) b :
  f <$> m = Ok b ↔ ∃ a, m = Ok a ∧ b = f a.
Proof.
  destruct m as [a|e]; simpl; split.
  - intros [= <-]; eauto.
  - by intros (a' & [= <-] & ->).
  - done.
  - by intros (? & ? & ?).
Qed.

Lemma py_index_Ok {A} (l : list A) i x : py_index l i = Ok x ↔ l !! i = Some x.
Proof. unfold py_index. destruct (l !! i); split; congruence. Qed.

Lemma py_index_Err {A} (l : list A) i e :
  py_index l i = Err e ↔ length l ≤ i ∧ e = IndexError.
Proof.
  unfold py_index. destruct (l !! i) eqn:Hi.
  - apply lookup_lt_Some in Hi. split; [done|lia].
  - apply lookup_ge_None in Hi. split; [by intros [= <-]|by intros [_ ->]].
Qed.

(** Destructs the successful binds of a hypothesis. *)
Ltac inv_Ok H :=
  repeat match type of H with
  | _ ≫= _ = Ok _ =>
      let a := fresh "a" in let Ha := fresh "Ha" in
      apply bind_Ok in H as (a & Ha & H)
  | _ <$> _ = Ok _ =>
      let a := fresh "a" in let Ha := fresh "Ha" in
      apply fmap_Ok in H as (a & Ha & H)
  end.

Section mapM_result.
Context {A B : Type} (f : A → result B).

Lemma mapM_Ok_Forall2 l k :
  mapM f l = Ok k ↔ Forall2 (λ x y, f x = Ok y) l k.
Proof.
  revert k. induction l as [|x l IH]; intros k; simpl.
  - split; [intros [= <-]; constructor|by inversion 1].
  - split.
    + intros H. apply bind_Ok in H as (y & Hy & H).
      apply bind_Ok in H as (k' & Hk' & [= <-]).
      constructor; [done|by apply IH].
    + inversion 1 as [|? y ? k' Hy Hk']; subst.
      rewrite Hy; simpl. apply IH in Hk'. by rewrite Hk'.
Qed.

Lemma mapM_Ok_length l k : mapM f l = Ok k → length k = length l.
Proof. intros H%mapM_Ok_Forall2. by apply Forall2_length in H. Qed.
End mapM_result.

(** Reading [n] consecutive positions of a list from [k] on succeeds
    exactly when the list is long enough, and yields that segment. *)
Lemma mapM_py_index {A} (l : list A) k n xs :
  mapM (py_index l) (seq k n) = Ok xs ↔
  (n = 0 ∨ k + n ≤ length l) ∧ xs = take n (drop k l).
Proof.
  revert k xs. induction n as [|n IH]; intros k xs; simpl.
  - split; [intros [= <-]; auto|]. by intros [_ ->].
  - split.
    + intros H. apply bind_Ok in H as (x & Hx%py_index_Ok & H).
      apply bind_Ok in H as (xs' & Hxs' & [= <-]).
      apply IH in Hxs' as [Hn ->].
      pose proof (lookup_lt_Some _ _ _ Hx).
      split; [right; destruct Hn; lia|].
      rewrite (drop_S _ _ _ Hx). by rewrite <-Nat.add_1_r, <-drop_drop.
    + intros [[?|Hn] ->]; [done|].
      destruct (lookup_lt_is_Some_2 l k) as [x Hx]; [lia|].
      rewrite (drop_S _ _ _ Hx).
      assert (py_index l k = Ok x) as -> by by apply py_index_Ok.
      assert (mapM (py_index l) (seq (S k) n) = Ok (take n (drop (S k) l)))
        as ->; [|done].
      apply IH. split; [destruct n; [by left|right; lia]|done].
Qed.

(** ** SingleTaskDataset *)

Section single_task.
Context {Label Feature Weight : Type}.

Lemma check_length_cases {A} name (field : option (list A)) numel :
  (∃ l, field = Some l ∧ length l ≠ numel ∧
        check_length name field numel
        = Err (AssertionError (length_msg name (length l) numel))) ∨
  ((∀ n, length <$> field = Some n → n = numel) ∧
   check_length name field numel = Ok ()).
Proof.
  unfold check_length. destruct field as [l|]; [|right; by split].
  case_decide; [right|left; eauto].
  split; [|done]. by intros n [= <-].
Qed.

(** The constructor returns the store it was given exactly when every
    sequence passed has the length of the labels. *)
Lemma SingleTaskDataset_init_Ok (labels : list Label)
    (features : option (list Feature)) smiles indices
    (weights : option (list Weight)) unique_ids ds :
  SingleTaskDataset_init labels features smiles indices weights unique_ids
  = Ok ds ↔
  (∀ name n,
     provided_length features smiles indices weights unique_ids name
     = Some n → n = length labels) ∧
  ds = {| st_labels := labels; st_features := features;
          st_smiles := smiles; st_indices := indices;
          st_weights := weights; st_unique_ids := unique_ids |}.
Proof.
  unfold SingleTaskDataset_init, provided_length.
  destruct (check_length_cases "features" features (length labels))
    as [(l & -> & ? & ->)|[H1 ->]].
  { split; [done|]. intros [Hn _]. by destruct (Hn "features" _ eq_refl). }
  destruct (check_length_cases "smiles" smiles (length labels))
    as [(l & -> & ? & ->)|[H2 ->]].
  { split; [done|]. intros [Hn _]. by destruct (Hn "smiles" _ eq_refl). }
  destruct (check_length_cases "indices" indices (length labels))
    as [(l & -> & ? & ->)|[H3 ->]].
  { split; [done|]. intros [Hn _]. by destruct (Hn "indices" _ eq_refl). }
  destruct (check_length_cases "weights" weights (length labels))
    as [(l & -> & ? & ->)|[H4 ->]].
  { split; [done|]. intros [Hn _]. by destruct (Hn "weights" _ eq_refl). }
  destruct (check_length_cases "unique_ids" unique_ids (length labels))
    as [(l & -> & ? & ->)|[H5 ->]].
  { split; [done|]. intros [Hn _].
    by destruct (Hn "unique_ids" _ eq_refl). }
  simpl. split.
  - intros [= <-]. split; [|done]. intros name n.
    repeat case_decide; auto. done.
  - by intros [_ ->].
Qed.

(** C6: a sequence passed with a length other than that of the labels
    makes the constructor fail with an assertion error whose message
    names that sequence, the labels and the two lengths; labels of length
    5 with features of length 4 is such a case. *)
Theorem SingleTaskDataset_init_length_mismatch (labels : list Label)
    (features : option (list Feature)) smiles indices
    (weights : option (list Weight)) unique_ids :
  ((∃ name n,
      provided_length features smiles indices weights unique_ids name
      = Some n ∧ n ≠ length labels) →
   ∃ name n,
     provided_length features smiles indices weights unique_ids name
     = Some n ∧ n ≠ length labels ∧
     SingleTaskDataset_init labels features smiles indices weights
       unique_ids
     = Err (AssertionError (length_msg name n (length labels)))) ∧
  (∀ fs, length labels = 5 → features = Some fs → length fs = 4 →
     SingleTaskDataset_init labels features smiles indices weights
       unique_ids
     = Err (AssertionError
              "features must be the same length as labels, got 4 and 5")).
Proof.
  split.
  - intros (name & n & Hin & Hne).
    unfold SingleTaskDataset_init.
    destruct (check_length_cases "features" features (length labels))
      as [(l & -> & ? & ->)|[H1 ->]]; [by exists "features", (length l)|].
    destruct (check_length_cases "smiles" smiles (length labels))
      as [(l & -> & ? & ->)|[H2 ->]]; [by exists "smiles", (length l)|].
    destruct (check_length_cases "indices" indices (length labels))
      as [(l & -> & ? & ->)|[H3 ->]]; [by exists "indices", (length l)|].
    destruct (check_length_cases "weights" weights (length labels))
      as [(l & -> & ? & ->)|[H4 ->]]; [by exists "weights", (length l)|].
    destruct (check_length_cases "unique_ids" unique_ids (length labels))
      as [(l & -> & ? & ->)|[H5 ->]];
      [by exists "unique_ids", (length l)|].
    exfalso. unfold provided_length in Hin.
    repeat case_decide; auto. done.
  - intros fs Hl -> Hfs. unfold SingleTaskDataset_init; simpl.
    rewrite Hl, Hfs. by rewrite decide_False by lia.
Qed.
End single_task.

(** ** numpy.unique *)

Section np_unique.
Context `{Countable A} (R : relation A).
Context `{!PartialOrder R, !Total R, !∀ x y, Decision (R x y)}.
Implicit Types l u : list A.

Lemma np_index_lookup x u : x ∈ u → u !! np_index x u = Some x.
Proof.
  intros Hx. unfold np_index.
  destruct (list_find_elem_of (x =.) u x Hx eq_refl) as [[j y] Hj].
  rewrite Hj; simpl. by apply list_find_Some in Hj as (? & -> & _).
Qed.

Lemma np_index_NoDup x u j : NoDup u → u !! j = Some x → np_index x u = j.
Proof.
  intros Hu Hj.
  assert (u !! np_index x u = Some x) as Hi
    by (apply np_index_lookup; by eapply list_elem_of_lookup_2).
  by apply (NoDup_lookup u _ _ x).
Qed.

Lemma np_unique_Permutation l : (np_unique R l).1 ≡ₚ remove_dups l.
Proof. apply merge_sort_Permutation. Qed.

Lemma np_unique_Sorted l : Sorted R (np_unique R l).1.
Proof. apply (Sorted_merge_sort R). Qed.

Lemma np_unique_NoDup l : NoDup (np_unique R l).1.
Proof. rewrite np_unique_Permutation. apply NoDup_remove_dups. Qed.

Lemma elem_of_np_unique l x : x ∈ (np_unique R l).1 ↔ x ∈ l.
Proof. rewrite np_unique_Permutation. apply elem_of_remove_dups. Qed.

(** Ascending and without repetition means strictly ascending. *)
Lemma np_unique_strict l :
  StronglySorted (strict R) (np_unique R l).1.
Proof.
  pose proof (np_unique_NoDup l) as Hnd.
  pose proof (Sorted_StronglySorted R _ (np_unique_Sorted l)) as Hs.
  induction Hs as [|x u Hs IH Hx]; [constructor|].
  apply NoDup_cons in Hnd as [Hxu Hnd].
  constructor; [by apply IH|].
  rewrite Forall_forall in Hx |- *. intros y Hy. split; [by apply Hx|].
  intros Hyx. assert (x = y) as -> by (apply (anti_symm R); auto). done.
Qed.

Lemma np_unique_length l :
  length (np_unique R l).1 = size (list_to_set (C:=gset A) l).
Proof.
  rewrite np_unique_Permutation.
  rewrite <-(size_list_to_set (C:=gset A)) by apply NoDup_remove_dups.
  f_equal. apply set_eq. intros x.
  by rewrite !elem_of_list_to_set, elem_of_remove_dups.
Qed.

(** The sorted distinct elements depend only on which elements occur. *)
Lemma np_unique_ext l1 l2 :
  (∀ x, x ∈ l1 ↔ x ∈ l2) → (np_unique R l1).1 = (np_unique R l2).1.
Proof.
  intros Heq. apply (Sorted_unique R); try apply np_unique_Sorted.
  apply NoDup_Permutation; try apply np_unique_NoDup.
  intros x. by rewrite !elem_of_np_unique.
Qed.

Lemma np_unique_inv_length l : length (np_unique R l).2 = length l.
Proof. apply length_fmap. Qed.

(** The inverse sends every position to the place of its element. *)
Lemma np_unique_inv_lookup l i j :
  (np_unique R l).2 !! i = Some j ↔
  ∃ x, l !! i = Some x ∧ (np_unique R l).1 !! j = Some x.
Proof.
  unfold np_unique at 1; simpl. rewrite list_lookup_fmap. split.
  - destruct (l !! i) as [x|] eqn:Hi; [|done]. intros [= <-].
    exists x. split; [done|]. apply np_index_lookup, elem_of_np_unique.
    by eapply list_elem_of_lookup_2.
  - intros (x & -> & Hj); simpl. f_equal.
    by apply np_index_NoDup; [apply np_unique_NoDup|].
Qed.

Lemma np_unique_inv_bound l :
  Forall (λ j, j < length (np_unique R l).1) (np_unique R l).2.
Proof.
  apply Forall_lookup. intros i j (x & _ & Hj)%np_unique_inv_lookup.
  by eapply lookup_lt_Some.
Qed.
End np_unique.

(** ** The scatter loops *)

Section scatter.
Context {A B : Type} (fetch : nat → result B) (upd : B → A → A).

(** A scatter loop succeeds exactly when every row can be read and every
    target slot exists; its result is then the fold of the updates. *)
Lemma scatter_Ok inv k out out' :
  scatter fetch upd inv k out = Ok out' ↔
  ∃ xs, mapM fetch (seq k (length inv)) = Ok xs ∧
        Forall (λ u, u < length out) inv ∧
        out' = apply_rows upd (zip inv xs) out.
Proof.
  revert k out out'. induction inv as [|u inv IH]; intros k out out'; simpl.
  - split.
    + intros [= <-]. exists []. by repeat split.
    + by intros (xs & [= <-] & _ & ->).
  - split.
    + intros H. apply bind_Ok in H as (x & Hx & H).
      apply bind_Ok in H as (old & Hold%py_index_Ok & H).
      apply IH in H as (xs & Hxs & Hinv & ->).
      rewrite length_insert in Hinv.
      exists (x :: xs). rewrite Hx, Hxs; simpl. split; [done|].
      split; [constructor; [by eapply lookup_lt_Some|done]|].
      unfold apply_rows; simpl. f_equal.
      apply list_eq. intros i. destruct (decide (i = u)) as [->|].
      * rewrite list_lookup_insert_eq by by eapply lookup_lt_Some.
        by rewrite list_lookup_alter_eq, Hold.
      * by rewrite list_lookup_insert_ne, list_lookup_alter_ne.
    + intros (xs & Hxs & Hinv & ->).
      apply bind_Ok in Hxs as (x & Hx & Hxs).
      apply bind_Ok in Hxs as (xs' & Hxs' & [= <-]).
      apply Forall_cons in Hinv as [Hu Hinv].
      destruct (lookup_lt_is_Some_2 out u Hu) as [old Hold].
      rewrite Hx; simpl.
      assert (py_index out u = Ok old) as -> by by apply py_index_Ok.
      simpl. apply IH. exists xs'. rewrite length_insert.
      split; [done|]. split; [done|].
      unfold apply_rows; simpl. f_equal.
      apply list_eq. intros i. destruct (decide (i = u)) as [->|].
      * rewrite list_lookup_insert_eq by done.
        by rewrite list_lookup_alter_eq, Hold.
      * by rewrite list_lookup_insert_ne, list_lookup_alter_ne.
Qed.

Lemma length_apply_rows rows out :
  length (apply_rows upd rows out) = length out.
Proof.
  revert out. induction rows as [|row rows IH]; intros out; [done|].
  unfold apply_rows in *; simpl. by rewrite IH, length_alter.
Qed.

(** Slot [j] receives, in row order, the updates of the rows addressed
    to it. *)
Lemma apply_rows_lookup inv xs out j :
  apply_rows upd (zip inv xs) out !! j
  = (λ a, foldl (λ a x, upd x a) a (rows_of j inv xs)) <$> out !! j.
Proof.
  revert xs out. induction inv as [|u inv IH]; intros xs out.
  { simpl. by destruct (out !! j). }
  destruct xs as [|x xs]; [simpl; by destruct (out !! j)|].
  unfold apply_rows, rows_of in *; simpl. rewrite IH.
  rewrite filter_cons; simpl. destruct (decide (u = j)) as [->|].
  - rewrite list_lookup_alter_eq. by destruct (out !! j).
  - by rewrite list_lookup_alter_ne.
Qed.
End scatter.

(** What the three update functions of [merge] accumulate. *)
Lemma foldl_append {A} (xs acc : list A) :
  foldl (λ variants s, variants ++ [s]) acc xs = acc ++ xs.
Proof.
  revert acc. induction xs as [|x xs IH]; intros acc; simpl.
  - by rewrite app_nil_r.
  - by rewrite IH, <-app_assoc.
Qed.

Lemma foldl_insert_lookup {V} (rows : list (string * V))
    (d : gmap string V) (t : string) :
  foldl (λ d row, <[row.1 := row.2]> d) d rows !! t
  = match last (filter (λ row, row.1 = t) rows) with
    | Some row => Some row.2
    | None => d !! t
    end.
Proof.
  revert d. induction rows as [|[t' v] rows IH]; intros d; [done|].
  simpl. rewrite IH, filter_cons; simpl.
  destruct (decide (t' = t)) as [->|Hne].
  - rewrite last_cons.
    destruct (last (filter _ rows)); [done|]. by rewrite lookup_insert_eq.
  - destruct (last (filter _ rows)); [done|]. by rewrite lookup_insert_ne.
Qed.

Lemma foldl_overwrite {A B} (g : B → A) (xs : list B) (a : A) :
  foldl (λ _ x, g x) a xs = from_option g a (last xs).
Proof.
  revert a. induction xs as [|x xs IH]; intros a; [done|].
  simpl. rewrite IH, last_cons. by destruct (last xs).
Qed.

(** ** Collecting the rows *)

Section collect.
Context {Label Feature Weight : Type}.
Context (smiles_to_unique_mol_id : string → result string).
Abbreviation columns := (task_columns smiles_to_unique_mol_id).
Implicit Types (ds : @SingleTaskDataset Label Feature Weight).
Implicit Types
  (datasets : list (string * @SingleTaskDataset Label Feature Weight)).
Implicit Types (all acc cols : @all_lists Label Feature).

Lemma get_field_Ok {A} (field : option (list A)) idx o :
  get_field field idx = Ok o →
  (is_Some o ↔ is_Some field) ∧ o = field ≫= (.!! idx).
Proof.
  unfold get_field. destruct field as [l|]; simpl.
  - intros H. apply bind_Ok in H as (x & Hx%py_index_Ok & [= <-]).
    rewrite Hx. split; [split; eauto|done].
  - intros [= <-]. split; [|done]. split; by intros [??].
Qed.

Lemma getitem_Ok ds idx d :
  SingleTaskDataset_getitem ds idx = Ok d →
  (is_Some (d_features d) ↔ is_Some (st_features ds)) ∧
  (is_Some (d_unique_ids d) ↔ is_Some (st_unique_ids ds)) ∧
  (is_Some (d_smiles d) ↔ is_Some (st_smiles ds)) ∧
  d_labels d = st_labels ds !! idx.
Proof.
  unfold SingleTaskDataset_getitem. intros H. inv_Ok H.
  injection H as <-; simpl.
  repeat match goal with H : get_field _ _ = Ok _ |- _ =>
    apply get_field_Ok in H as [? ?] end.
  by split_and!.
Qed.

Lemma column_length {A} ds key (entry : datum → option A) xs :
  column ds key entry = Ok xs → length xs = SingleTaskDataset_len ds.
Proof. intros ->%mapM_Ok_length. apply length_seq. Qed.

(** The columns of one task have one entry per row; the feature column
    is complete or absent. *)
Lemma task_columns_Ok task ds cols :
  columns task ds = Ok cols →
  length (al_smiles cols) = SingleTaskDataset_len ds ∧
  length (al_labels cols) = SingleTaskDataset_len ds ∧
  length (al_mol_ids cols) = SingleTaskDataset_len ds ∧
  al_tasks cols = replicate (SingleTaskDataset_len ds) task ∧
  length (al_features cols)
  = (if st_features ds is Some _ then SingleTaskDataset_len ds else 0).
Proof.
  unfold task_columns. intros H. inv_Ok H. injection H as <-; simpl.
  repeat match goal with H : column _ _ d_smiles = Ok _ |- _ =>
    pose proof (column_length _ _ _ _ H); clear H
  | H : column _ _ d_labels = Ok _ |- _ =>
    pose proof (column_length _ _ _ _ H); clear H end.
  split_and!; try done.
  - destruct (d_unique_ids _).
    + by eapply column_length.
    + match goal with H : smiles_to_unique_mol_ids _ _ = Ok _ |- _ =>
        apply mapM_Ok_length in H; congruence end.
  - match goal with H : SingleTaskDataset_getitem ds 0 = Ok ?d,
      H' : match d_features ?d with _ => _ end = Ok _ |- _ =>
        apply getitem_Ok in H as ([Hf1 Hf2] & _); revert H' end.
    destruct (d_features _) as [f|], (st_features ds) as [fs|];
      try (by destruct Hf1; eauto); try (by destruct Hf2; eauto).
    + intros Hc. inv_Ok Hc. subst. simpl. by eapply column_length.
    + by intros [= <-].
Qed.

(** The loop appends, in iteration order, the columns of the tasks that
    have rows. *)
Lemma get_all_lists_loop_Ok datasets acc all :
  get_all_lists_loop smiles_to_unique_mol_id datasets acc = Ok all ↔
  ∃ colss,
    mapM (λ item, columns item.1 item.2)
         (filter (λ item, SingleTaskDataset_len item.2 ≠ 0) datasets)
      = Ok colss ∧
    all = foldl extend acc colss.
Proof.
  revert acc. induction datasets as [|[task ds] rest IH]; intros acc; simpl.
  - split; [intros [= <-]; by exists []|by intros (? & [= <-] & ->)].
  - rewrite filter_cons; simpl. case_decide as Hlen.
    + rewrite decide_False by (by intros ?). apply IH.
    + rewrite decide_True by done. simpl. split.
      * intros H. apply bind_Ok in H as (cols & Hcols & H).
        apply IH in H as (colss & Hcolss & ->).
        exists (cols :: colss). by rewrite Hcols, Hcolss.
      * intros (colss & H & ->).
        apply bind_Ok in H as (cols & Hcols & H).
        apply bind_Ok in H as (colss' & Hcolss' & [= <-]).
        rewrite Hcols; simpl. apply IH. eauto.
Qed.

Lemma foldl_extend acc colss :
  foldl extend acc colss
  = {| al_smiles := al_smiles acc ++ mjoin (al_smiles <$> colss);
       al_features := al_features acc ++ mjoin (al_features <$> colss);
       al_labels := al_labels acc ++ mjoin (al_labels <$> colss);
       al_mol_ids := al_mol_ids acc ++ mjoin (al_mol_ids <$> colss);
       al_tasks := al_tasks acc ++ mjoin (al_tasks <$> colss) |}.
Proof.
  revert acc. induction colss as [|cols colss IH]; intros acc; simpl.
  - rewrite !app_nil_r. by destruct acc.
  - rewrite IH; simpl. by rewrite <-!app_assoc.
Qed.

Lemma get_all_lists_ids_Ok datasets all :
  _get_all_lists_ids smiles_to_unique_mol_id datasets = Ok all ↔
  ∃ colss, collected smiles_to_unique_mol_id datasets colss ∧ all = foldl extend no_lists colss.
Proof.
  unfold _get_all_lists_ids, collected. rewrite get_all_lists_loop_Ok.
  by setoid_rewrite mapM_Ok_Forall2.
Qed.

(** The four row columns have one entry per row. *)
Lemma all_lists_lengths datasets all :
  _get_all_lists_ids smiles_to_unique_mol_id datasets = Ok all →
  length (al_smiles all) = length (al_mol_ids all) ∧
  length (al_labels all) = length (al_mol_ids all) ∧
  length (al_tasks all) = length (al_mol_ids all).
Proof.
  intros (colss & Hc & ->)%get_all_lists_ids_Ok.
  rewrite foldl_extend; simpl. unfold collected in Hc.
  induction Hc as [|[task ds] cols items colss Hcols _ IH]; [done|].
  apply task_columns_Ok in Hcols as (Hs & Hl & Hm & Ht & _).
  simpl in *. rewrite !length_app, Hs, Hl, Hm, Ht, length_replicate.
  destruct IH as (IH1 & IH2 & IH3). split_and!; f_equal; assumption.
Qed.

(** The task column names, row by row, the task of the mapping the row
    comes from: the tasks with rows in iteration order, each repeated once
    per row. *)
Lemma all_lists_tasks datasets all :
  _get_all_lists_ids smiles_to_unique_mol_id datasets = Ok all →
  al_tasks all
  = mjoin ((λ item, replicate (SingleTaskDataset_len item.2) item.1)
           <$> filter (λ item, SingleTaskDataset_len item.2 ≠ 0) datasets).
Proof.
  intros (colss & Hc & ->)%get_all_lists_ids_Ok.
  rewrite foldl_extend; simpl. unfold collected in Hc.
  induction Hc as [|[task ds] cols items colss Hcols _ IH]; [done|].
  apply task_columns_Ok in Hcols as (_ & _ & _ & Ht & _).
  csimpl. by rewrite Ht, IH.
Qed.
(** The feature column has the rows of the tasks that supply features:
    never more than the rows, all of them exactly when every task with
    rows supplies features, none exactly when no such task does. *)
Lemma all_lists_features datasets all :
  _get_all_lists_ids smiles_to_unique_mol_id datasets = Ok all →
  length (al_features all) ≤ length (al_mol_ids all) ∧
  (length (al_features all) = length (al_mol_ids all) ↔
   Forall (λ item, non_empty item → supplies_features item) datasets) ∧
  (0 < length (al_features all) ↔
   Exists (λ item, non_empty item ∧ supplies_features item) datasets).
Proof.
  intros (colss & Hc & ->)%get_all_lists_ids_Ok.
  rewrite foldl_extend; simpl. unfold collected in Hc.
  revert colss Hc.
  induction datasets as [|[task ds] rest IH]; intros colss Hc.
  { rewrite filter_nil in Hc. inversion Hc; subst; simpl.
    split_and!; [done| |].
    - split; [constructor|done].
    - split; [lia|by inversion 1]. }
  rewrite filter_cons in Hc; simpl in Hc.
  rewrite Forall_cons, Exists_cons. unfold non_empty, supplies_features in *.
  simpl. case_decide as Hlen.
  - inversion Hc as [|? cols ? colss' Hcols Hrest]; subst; csimpl in *.
    apply task_columns_Ok in Hcols as (_ & _ & Hm & _ & Hf).
    destruct (IH _ Hrest) as (Hle & Hall & Hex).
    rewrite !length_app, Hm, Hf.
    destruct (st_features ds) as [fs|]; split_and!.
    + lia.
    + rewrite <-Hall. split; [intros; split; [eauto|lia]|intros [_ ?]; lia].
    + split; [eauto|]. lia.
    + lia.
    + split; [lia|]. intros [Hds _]. destruct (Hds Hlen) as [? [=]].
    + rewrite <-Hex. split; [auto|]. intros [[_ [? [=]]]|?]; done.
  - destruct (IH _ Hc) as (Hle & Hall & Hex). split_and!; [done| |].
    + rewrite Hall. split; [intros; split; [intros ?; lia|done]|by intros [_ ?]].
    + rewrite Hex. split; [auto|]. intros [[? _]|?]; [lia|done].
Qed.

Lemma Forall2_Permutation_l {X Y} (P : X → Y → Prop) l1 l2 k1 :
  l1 ≡ₚ l2 → Forall2 P l1 k1 → ∃ k2, k1 ≡ₚ k2 ∧ Forall2 P l2 k2.
Proof.
  intros Hp. revert k1. induction Hp as [|x l1 l2 _ IH|x y l|l1 l2 l3 _ IH1 _ IH2];
    intros k1 HF.
  - inversion HF; subst. by exists [].
  - inversion HF as [|? y ? k1' Hxy HF']; subst.
    destruct (IH _ HF') as (k2 & ? & ?).
    exists (y :: k2). split; [by constructor|by constructor].
  - inversion HF as [|? y' ? k1' Hy HF']; subst.
    inversion HF' as [|? x' ? k1'' Hx HF'']; subst.
    exists (x' :: y' :: k1''). split; [by constructor|by repeat constructor].
  - destruct (IH1 _ HF) as (k2 & ? & HF2).
    destruct (IH2 _ HF2) as (k3 & ? & HF3).
    exists k3. split; [by etrans|done].
Qed.

(** Collecting succeeds whatever the iteration order, and yields the same
    identities up to their order and as many features. *)
Lemma all_lists_Permutation datasets1 datasets2 all1 :
  datasets1 ≡ₚ datasets2 →
  _get_all_lists_ids smiles_to_unique_mol_id datasets1 = Ok all1 →
  ∃ all2,
    _get_all_lists_ids smiles_to_unique_mol_id datasets2 = Ok all2 ∧
    al_mol_ids all1 ≡ₚ al_mol_ids all2 ∧
    length (al_features all1) = length (al_features all2).
Proof.
  intros Hp (colss1 & Hc & ->)%get_all_lists_ids_Ok. unfold collected in Hc.
  eapply Forall2_Permutation_l in Hc as (colss2 & Hcolss & Hc);
    [|by apply filter_Permutation].
  exists (foldl extend no_lists colss2). split.
  { apply get_all_lists_ids_Ok. by exists colss2. }
  rewrite !foldl_extend; simpl. split.
  - by rewrite Hcolss.
  - apply Permutation_length. by rewrite Hcolss.
Qed.
End collect.

(** ** Rows and keys *)

Lemma rows_of_rekey `{EqDecision K1, EqDecision K2} {B} (k1 : K1) (k2 : K2)
    (keys1 : list K1) (keys2 : list K2) (xs : list B) :
  length keys1 = length keys2 →
  (∀ i a b, keys1 !! i = Some a → keys2 !! i = Some b → a = k1 ↔ b = k2) →
  rows_of k1 keys1 xs = rows_of k2 keys2 xs.
Proof.
  revert keys2 xs. induction keys1 as [|a keys1 IH]; intros [|b keys2] xs;
    try done. intros [= Hlen] Hkeys.
  destruct xs as [|x xs]; [done|]. unfold rows_of in *; simpl.
  rewrite !filter_cons; simpl.
  pose proof (Hkeys 0 a b eq_refl eq_refl) as Hab.
  pose proof (IH keys2 xs Hlen (λ i, Hkeys (S i))) as IH'.
  destruct (decide (a = k1)), (decide (b = k2)); simpl; try tauto;
    first [exact IH' | f_equal; exact IH'].
Qed.

Lemma rows_of_pair `{EqDecision K1, EqDecision K2} {B} (k1 : K1) (k2 : K2)
    (keys1 : list K1) (keys2 : list K2) (xs : list B) :
  (filter (λ row, row.1 = k2) (rows_of k1 keys1 (zip keys2 xs))).*2
  = rows_of (k1, k2) (zip keys1 keys2) xs.
Proof.
  revert keys2 xs. induction keys1 as [|a keys1 IH]; intros [|b keys2] [|x xs];
    try done.
  unfold rows_of in *; simpl. rewrite !filter_cons; simpl.
  specialize (IH keys2 xs).
  destruct (decide (a = k1)) as [->|]; simpl.
  - rewrite filter_cons; simpl. destruct (decide (b = k2)) as [->|]; simpl.
    + rewrite decide_True by done. simpl. f_equal. exact IH.
    + rewrite decide_False by congruence. exact IH.
  - rewrite decide_False by congruence. exact IH.
Qed.

Lemma rows_of_elem_of `{EqDecision K} {B} (k : K) (keys : list K)
    (xs : list B) x :
  x ∈ rows_of k keys xs ↔ ∃ i, keys !! i = Some k ∧ xs !! i = Some x.
Proof.
  unfold rows_of. rewrite list_elem_of_fmap. split.
  - intros ([k' x'] & -> & [Heq Hin]%list_elem_of_filter). simpl in *. subst.
    apply list_elem_of_lookup in Hin as [i Hi].
    apply lookup_zip_with_Some in Hi as (? & ? & [= <- <-] & ? & ?). eauto.
  - intros (i & Hk & Hx). exists (k, x). split; [done|].
    apply list_elem_of_filter. split; [done|].
    apply list_elem_of_lookup. exists i.
    apply lookup_zip_with_Some. eauto.
Qed.

(** Reading a row of two parallel columns. *)
Lemma mapM_py_index2 {A B} (l1 : list A) (l2 : list B) n xs :
  length l1 = n → length l2 = n →
  mapM (λ i, a ← py_index l1 i; b ← py_index l2 i; Ok (a, b)) (seq 0 n)
    = Ok xs →
  xs = zip l1 l2.
Proof.
  intros H1 H2 HF%mapM_Ok_Forall2. apply list_eq. intros i.
  destruct (decide (i < n)) as [Hi|Hi].
  - destruct (Forall2_lookup_l _ _ _ i i HF) as (x & Hx & H);
      [by apply lookup_seq|].
    apply bind_Ok in H as (a & Ha%py_index_Ok & H).
    apply bind_Ok in H as (b & Hb%py_index_Ok & [= <-]).
    rewrite Hx. symmetry. apply lookup_zip_with_Some. eauto.
  - rewrite !lookup_ge_None_2; [done| |].
    + rewrite length_zip. lia.
    + apply Forall2_length in HF. rewrite length_seq in HF. lia.
Qed.

(** ** merge *)

Lemma scatter_Err {A B} (fetch : nat → result B) (upd : B → A → A)
    inv k out e :
  (∀ i e', fetch i = Err e' → e' = IndexError) →
  scatter fetch upd inv k out = Err e → e = IndexError.
Proof.
  intros Hfetch. revert k out. induction inv as [|u inv IH]; intros k out;
    simpl; [done|].
  destruct (fetch k) as [x|e'] eqn:Hx; simpl.
  - destruct (py_index out u) as [old|e'] eqn:Hold; simpl; [by apply IH|].
    apply py_index_Err in Hold as [_ ->]. by intros [= <-].
  - intros [= <-]. by eapply Hfetch.
Qed.

Lemma scatter_py_index {A B} (src : list B) (upd : B → A → A) inv out out' :
  length src = length inv →
  scatter (py_index src) upd inv 0 out = Ok out' ↔
  Forall (λ u, u < length out) inv ∧ out' = apply_rows upd (zip inv src) out.
Proof.
  intros Hlen. rewrite scatter_Ok. split.
  - intros (xs & [_ ->]%mapM_py_index & ? & ->).
    by rewrite drop_0, <-Hlen, firstn_all.
  - intros [? ->]. exists src. split; [|done].
    apply mapM_py_index. rewrite drop_0, <-Hlen, firstn_all.
    split; [right; lia|done].
Qed.

Section merge_correct.
Context {Label Feature Weight : Type}.
Context (smiles_to_unique_mol_id : string → result string).
Abbreviation get_all :=
  (_get_all_lists_ids (Weight:=Weight) (Label:=Label) (Feature:=Feature)
     smiles_to_unique_mol_id).
Abbreviation mt_merge :=
  (merge (Weight:=Weight) (Label:=Label) (Feature:=Feature)
     smiles_to_unique_mol_id MultitaskDataset_get_inv_of_mol_ids).
Implicit Types (all : @all_lists Label Feature).

(** [merge] returns exactly when the rows can be collected and the
    feature column is empty or complete. *)
Lemma merge_Ok datasets r :
  mt_merge datasets = Ok r ↔
  ∃ all, get_all datasets = Ok all ∧
    (length (al_features all) = 0 ∨
     length (al_features all) = length (al_mol_ids all)) ∧
    r = merged_of all.
Proof.
  unfold merge, MultitaskDataset_get_inv_of_mol_ids, merged_of.
  split.
  - intros H. apply bind_Ok in H as (all & Hall & H). exists all.
    split; [done|].
    destruct (all_lists_lengths _ _ _ Hall) as (Hs & Hl & Ht).
    destruct (all_lists_features _ _ _ Hall) as (Hle & _ & _).
    pose proof (np_unique_inv_length String.le (al_mol_ids all)) as Hinv.
    apply bind_Ok in H as ([u inv] & Hu' & H1).
    assert (np_unique String.le (al_mol_ids all) = (u, inv)) as Hu
      by congruence.
    rewrite Hu in Hinv |- *. simpl in Hinv.
    apply bind_Ok in H1 as (smiles & Hsm & H2).
    apply bind_Ok in H2 as (labels & Hlb & H3).
    assert (length (al_smiles all) = length inv) as Hsl by congruence.
    apply (scatter_py_index _ _ _ _ _ Hsl) in Hsm as [_ ->].
    apply scatter_Ok in Hlb as (xs & Hxs & _ & ->).
    apply mapM_py_index2 in Hxs as ->; [|congruence..].
    case_decide as Hf.
    + apply bind_Ok in H3 as (features & Hfs & [= <-]).
      apply scatter_Ok in Hfs as (fs & [Hn ->]%mapM_py_index & _ & ->).
      assert (length (al_features all) = length (al_mol_ids all)) as Hfl
        by lia.
      split; [by right|].
      by rewrite drop_0, Hinv, <-Hfl, firstn_all.
    + injection H3 as <-. split; [left; lia|done].
  - intros (all & Hall & Hf & ->).
    apply bind_Ok. exists all. split; [done|].
    apply bind_Ok. exists (np_unique String.le (al_mol_ids all)).
    split; [done|].
    destruct (all_lists_lengths _ _ _ Hall) as (Hs & Hl & Ht).
    pose proof (np_unique_inv_bound String.le (al_mol_ids all)) as Hb.
    pose proof (np_unique_inv_length String.le (al_mol_ids all)) as Hinv.
    revert Hb Hinv.
    destruct (np_unique String.le (al_mol_ids all)) as [u inv].
    simpl. intros Hb Hinv.
    assert (scatter (py_index (al_smiles all))
              (λ s variants, variants ++ [s]) inv 0
              (replicate (length u) [])
            = Ok (apply_rows (λ s variants, variants ++ [s])
                    (zip inv (al_smiles all)) (replicate (length u) [])))
      as ->.
    { apply scatter_py_index; [congruence|].
      by rewrite length_replicate. }
    simpl.
    assert (scatter
              (λ all_idx, task ← py_index (al_tasks all) all_idx;
                          label ← py_index (al_labels all) all_idx;
                          Ok (task, label))
              (λ row (d : gmap string Label), <[row.1 := row.2]> d)
              inv 0 (replicate (length u) ∅)
            = Ok (apply_rows
                    (λ row (d : gmap string Label), <[row.1 := row.2]> d)
                    (zip inv (zip (al_tasks all) (al_labels all)))
                    (replicate (length u) ∅))) as ->.
    { apply scatter_Ok. exists (zip (al_tasks all) (al_labels all)).
      rewrite length_replicate. split_and!; [|done..].
      apply mapM_Ok_Forall2, Forall2_same_length_lookup_2.
      - rewrite length_seq, length_zip. lia.
      - intros i i' [t l] [-> Hi]%lookup_seq
          (? & ? & [= <- <-] & Ht' & Hl')%lookup_zip_with_Some.
        simpl. unfold py_index. by rewrite Ht', Hl'. }
    simpl. case_decide as Hf'; [|done].
    assert (scatter (py_index (al_features all)) (λ f _, Obj f) inv 0
              (replicate (length u) MinusOne)
            = Ok (apply_rows (λ f (_ : slot), Obj f)
                    (zip inv (al_features all))
                    (replicate (length u) MinusOne)))
      as ->; [|done].
    apply scatter_py_index; [destruct Hf; [lia|congruence]|].
    by rewrite length_replicate.
Qed.
End merge_correct.

Section entities.
Context {Label Feature : Type}.
Implicit Types (all : @all_lists Label Feature).

Lemma merged_of_mol_ids all :
  merged_mol_ids (merged_of all) = (np_unique String.le (al_mol_ids all)).1.
Proof.
  unfold merged_of. destruct (np_unique _ _) as [u inv]. by case_decide.
Qed.

(** Rows filed under position [j] of the inverse are the rows whose
    identity is the [j]-th distinct identity. *)
Lemma inverse_key (ids : list string) j id i a b :
  (np_unique String.le ids).1 !! j = Some id →
  (np_unique String.le ids).2 !! i = Some a → ids !! i = Some b →
  a = j ↔ b = id.
Proof.
  intros Hj (x & Hx & Ha)%np_unique_inv_lookup Hb.
  assert (x = b) as -> by congruence. split.
  - intros ->. congruence.
  - intros ->. by eapply NoDup_lookup; [apply (np_unique_NoDup String.le)|..].
Qed.

Lemma rows_of_inverse {B} (ids : list string) j id (xs : list B) :
  (np_unique String.le ids).1 !! j = Some id →
  rows_of j (np_unique String.le ids).2 xs = rows_of id ids xs.
Proof.
  intros Hj. apply rows_of_rekey; [apply np_unique_inv_length|].
  intros i a b. by apply inverse_key.
Qed.

Lemma merged_of_lengths all :
  length (merged_smiles (merged_of all))
  = length (merged_mol_ids (merged_of all)) ∧
  length (merged_labels (merged_of all))
  = length (merged_mol_ids (merged_of all)) ∧
  ∀ fs, merged_features (merged_of all) = Some fs →
        length fs = length (merged_mol_ids (merged_of all)).
Proof.
  unfold merged_of. destruct (np_unique _ _) as [u inv].
  case_decide; simpl; rewrite !length_apply_rows, !length_replicate;
    split_and!; try done.
  intros fs [= <-]. by rewrite length_apply_rows, length_replicate.
Qed.

Lemma apply_rows_replicate {A B} (upd : B → A → A) inv xs n a j :
  j < n →
  apply_rows upd (zip inv xs) (replicate n a) !! j
  = Some (foldl (λ a x, upd x a) a (rows_of j inv xs)).
Proof.
  intros Hj. by rewrite apply_rows_lookup, lookup_replicate_2.
Qed.

(** The entity at position [j]: its variants, its label map and its
    feature slot, in terms of the rows that carry its identity. *)
Lemma merged_of_entity all j id :
  (np_unique String.le (al_mol_ids all)).1 !! j = Some id →
  merged_smiles (merged_of all) !! j = Some (variants_of all id) ∧
  (∃ d, merged_labels (merged_of all) !! j = Some d ∧
        ∀ t, d !! t = last_label all id t) ∧
  (∀ fs, merged_features (merged_of all) = Some fs →
         fs !! j = Some (from_option Obj MinusOne (last_feature all id))).
Proof.
  intros Hj. pose proof (lookup_lt_Some _ _ _ Hj) as Hlt.
  pose proof (λ B xs, rows_of_inverse (B:=B) _ _ _ xs Hj) as Hrows.
  pose proof (np_unique_inv_length String.le (al_mol_ids all)) as Hinv.
  pose proof (λ i a b, inverse_key _ _ _ i a b Hj) as Hkey.
  unfold merged_of, variants_of, last_label, last_feature.
  revert Hj Hlt Hrows Hinv Hkey.
  destruct (np_unique String.le (al_mol_ids all)) as [u inv].
  simpl. intros Hj Hlt Hrows Hinv Hkey.
  assert (apply_rows (λ s variants, variants ++ [s])
            (zip inv (al_smiles all)) (replicate (length u) []) !! j
          = Some (rows_of id (al_mol_ids all) (al_smiles all))) as Hsm.
  { rewrite apply_rows_replicate by done.
    by rewrite foldl_append, Hrows. }
  assert (∃ d,
    apply_rows (λ row (d : gmap string Label), <[row.1 := row.2]> d)
      (zip inv (zip (al_tasks all) (al_labels all)))
      (replicate (length u) ∅) !! j = Some d ∧
    ∀ t, d !! t
         = last (rows_of (id, t) (zip (al_mol_ids all) (al_tasks all))
                  (al_labels all))) as Hlb.
  { eexists. split; [by apply apply_rows_replicate|].
    intros t. cbv beta. rewrite foldl_insert_lookup, lookup_empty.
    rewrite <-(rows_of_rekey (j, t) (id, t) (zip inv (al_tasks all))).
    - rewrite <-rows_of_pair, fmap_last.
      by destruct (last (filter _ _)).
    - by rewrite !length_zip, Hinv.
    - intros i [a t1] [b t2]
        (? & ? & [= <- <-] & Ha & Ht1)%lookup_zip_with_Some
        (? & ? & [= <- <-] & Hb & Ht2)%lookup_zip_with_Some.
      assert (t1 = t2) as -> by congruence.
      specialize (Hkey i a b Ha Hb). split; intros [= -> ->]; f_equal; tauto. }
  case_decide; simpl; (split_and!; [done..|]); [|done].
  intros fs [= <-]. rewrite apply_rows_replicate by done.
  by rewrite foldl_overwrite, Hrows.
Qed.
End entities.

(** ** The rows of a validated store *)

Section stores.
Context {Label Feature Weight : Type}.
Context (smiles_to_unique_mol_id : string → result string).
Implicit Types (ds : @SingleTaskDataset Label Feature Weight).

Lemma get_field_wf {A} (field : option (list A)) n idx :
  (∀ l, field = Some l → length l = n) → idx < n →
  get_field field idx = Ok (field ≫= (.!! idx)).
Proof.
  intros Hlen Hidx. unfold get_field. destruct field as [l|]; [|done].
  destruct (lookup_lt_is_Some_2 l idx) as [x Hx].
  { by rewrite (Hlen l). }
  simpl. unfold py_index. by rewrite Hx.
Qed.

(** Within range, [__getitem__] of a validated store returns the entries
    of the fields it holds. *)
Lemma getitem_wf ds idx :
  well_formed ds → idx < SingleTaskDataset_len ds →
  SingleTaskDataset_getitem ds idx = Ok (datum_at ds idx).
Proof.
  intros Hwf Hidx. unfold SingleTaskDataset_getitem.
  unfold well_formed, provided_length in Hwf.
  rewrite (get_field_wf (st_features ds) (SingleTaskDataset_len ds))
    by (done || intros l Hl; apply (Hwf "features"); by rewrite Hl).
  rewrite (get_field_wf (Some (st_labels ds)) (SingleTaskDataset_len ds))
    by (done || by intros l [= <-]).
  rewrite (get_field_wf (st_smiles ds) (SingleTaskDataset_len ds))
    by (done || intros l Hl; apply (Hwf "smiles"); by rewrite Hl).
  rewrite (get_field_wf (st_indices ds) (SingleTaskDataset_len ds))
    by (done || intros l Hl; apply (Hwf "indices"); by rewrite Hl).
  rewrite (get_field_wf (st_weights ds) (SingleTaskDataset_len ds))
    by (done || intros l Hl; apply (Hwf "weights"); by rewrite Hl).
  rewrite (get_field_wf (st_unique_ids ds) (SingleTaskDataset_len ds))
    by (done || intros l Hl; apply (Hwf "unique_ids"); by rewrite Hl).
  done.
Qed.

(** The comprehension over a key that is present is the whole field. *)
Lemma column_wf {A} ds key (entry : datum → option A) (l : list A) :
  well_formed ds → length l = SingleTaskDataset_len ds →
  (∀ idx, entry (datum_at ds idx) = l !! idx) →
  column ds key entry = Ok l.
Proof.
  intros Hwf Hlen Hentry. unfold column.
  apply mapM_Ok_Forall2, Forall2_same_length_lookup_2.
  { by rewrite length_seq. }
  intros i idx x [-> Hidx]%lookup_seq Hx; simpl.
  rewrite getitem_wf by done; simpl. by rewrite Hentry, Hx.
Qed.

(** The columns a validated store with SMILES contributes: its own
    sequences, with the identities given or else resolved from the
    SMILES. *)
Lemma task_columns_wf task ds sm :
  well_formed ds → SingleTaskDataset_len ds ≠ 0 → st_smiles ds = Some sm →
  task_columns smiles_to_unique_mol_id task ds
  = (ds_mol_ids ← match st_unique_ids ds with
                  | Some ids => Ok ids
                  | None => smiles_to_unique_mol_ids smiles_to_unique_mol_id sm
                  end;
     Ok {| al_smiles := sm;
           al_features := default [] (st_features ds);
           al_labels := st_labels ds;
           al_mol_ids := ds_mol_ids;
           al_tasks := replicate (SingleTaskDataset_len ds) task |}).
Proof.
  intros Hwf Hlen Hsm. unfold task_columns.
  assert (0 < SingleTaskDataset_len ds) as H0 by lia.
  pose proof Hwf as Hwf'. unfold well_formed, provided_length in Hwf'.
  rewrite (column_wf ds "smiles" d_smiles sm); [|done| |].
  2:{ apply (Hwf' "smiles"). by rewrite Hsm. }
  2:{ intros idx. simpl. by rewrite Hsm. }
  rewrite (column_wf ds "labels" d_labels (st_labels ds)) by done.
  rewrite getitem_wf by done. simpl.
  destruct (lookup_lt_is_Some_2 (st_labels ds) 0 H0) as [l0 Hl0].
  destruct (st_unique_ids ds) as [ids|] eqn:Hids; simpl.
  - assert (length ids = SingleTaskDataset_len ds) as Hil
      by (apply (Hwf' "unique_ids"); by rewrite ?Hids).
    destruct (lookup_lt_is_Some_2 ids 0) as [i0 Hi0]; [lia|]. rewrite Hi0.
    rewrite (column_wf ds "unique_ids" d_unique_ids ids);
      [|done|done|intros idx; simpl; by rewrite ?Hids].
    simpl. destruct (st_features ds) as [fs|] eqn:Hfs; simpl; [|done].
    assert (length fs = SingleTaskDataset_len ds) as Hfl
      by (apply (Hwf' "features"); by rewrite ?Hfs).
    destruct (lookup_lt_is_Some_2 fs 0) as [f0 Hf0]; [lia|]. rewrite Hf0.
    by rewrite (column_wf ds "features" d_features fs);
      [|done|done|intros idx; simpl; by rewrite ?Hfs].
  - destruct (smiles_to_unique_mol_ids _ sm) as [ids|e]; simpl; [|done].
    destruct (st_features ds) as [fs|] eqn:Hfs; simpl; [|done].
    assert (length fs = SingleTaskDataset_len ds) as Hfl
      by (apply (Hwf' "features"); by rewrite ?Hfs).
    destruct (lookup_lt_is_Some_2 fs 0) as [f0 Hf0]; [lia|]. rewrite Hf0.
    by rewrite (column_wf ds "features" d_features fs);
      [|done|done|intros idx; simpl; by rewrite ?Hfs].
Qed.

(** A store without SMILES that has rows stops the collection. *)
Lemma task_columns_no_smiles task ds :
  well_formed ds → SingleTaskDataset_len ds ≠ 0 → st_smiles ds = None →
  task_columns smiles_to_unique_mol_id task ds = Err (KeyError "smiles").
Proof.
  intros Hwf Hlen Hsm. unfold task_columns, column.
  destruct (SingleTaskDataset_len ds) as [|n] eqn:Hn; [done|]. simpl.
  rewrite getitem_wf by first [done|lia]. simpl. by rewrite Hsm.
Qed.
End stores.

(** ** The merged collection *)

Section merge_claims.
Context {Label Feature Weight : Type}.
Context (smiles_to_unique_mol_id : string → result string).
Context (label_size : Label → list nat).
Abbreviation Store := (@SingleTaskDataset Label Feature Weight).
Abbreviation collect :=
  (_get_all_lists_ids (Weight:=Weight) (Label:=Label) (Feature:=Feature)
     smiles_to_unique_mol_id).
Abbreviation Merge :=
  (merge (Weight:=Weight) (Label:=Label) (Feature:=Feature)
     smiles_to_unique_mol_id MultitaskDataset_get_inv_of_mol_ids).
Abbreviation Init :=
  (MultitaskDataset_init (Weight:=Weight) (Label:=Label) (Feature:=Feature)
     smiles_to_unique_mol_id label_size).
Implicit Types (datasets : list (string * Store)).
Implicit Types (all : @all_lists Label Feature).

(** A constructed dataset holds the labels of the merge of its tasks. *)
Lemma MultitaskDataset_init_Ok datasets save about self :
  Init datasets save about = Ok self →
  ∃ r, Merge datasets = Ok r ∧ mt_labels self = merged_labels r ∧
       (mt_features self = None ∨ mt_features self = merged_features r).
Proof.
  unfold MultitaskDataset_init. destruct datasets as [|[task ds] rest];
    [done|].
  intros H. apply bind_Ok in H as (with_features & _ & H).
  apply bind_Ok in H as (r & Hr & H). exists r. split; [done|].
  apply bind_Ok in H as ([[[ids sm] lb] fs] & Hun & H).
  apply bind_Ok in H as (sizes & _ & [= <-]); simpl.
  destruct with_features, r; simplify_eq/=; auto.
Qed.

(** C1: the merged collection has one entity per distinct identity among
    the collected rows; this is the length of every list [merge] returns
    and the [__len__] of the constructed dataset. *)
Theorem merge_length_distinct_ids datasets all :
  collect datasets = Ok all →
  (∀ r, Merge datasets = Ok r →
     length (merged_mol_ids r)
     = size (list_to_set (C:=gset string) (al_mol_ids all)) ∧
     length (merged_smiles r) = length (merged_mol_ids r) ∧
     length (merged_labels r) = length (merged_mol_ids r) ∧
     ∀ fs, merged_features r = Some fs →
           length fs = length (merged_mol_ids r)) ∧
  (∀ save about self, Init datasets save about = Ok self →
     MultitaskDataset_len self
     = size (list_to_set (C:=gset string) (al_mol_ids all))).
Proof.
  intros Hall.
  assert (∀ r, Merge datasets = Ok r →
     length (merged_mol_ids r)
     = size (list_to_set (C:=gset string) (al_mol_ids all)) ∧
     length (merged_smiles r) = length (merged_mol_ids r) ∧
     length (merged_labels r) = length (merged_mol_ids r) ∧
     ∀ fs, merged_features r = Some fs →
           length fs = length (merged_mol_ids r)) as Hmerge.
  { intros r (all' & Hall' & _ & ->)%merge_Ok.
    assert (all' = all) as -> by congruence.
    rewrite merged_of_mol_ids at 1. rewrite np_unique_length.
    split; [done|]. apply merged_of_lengths. }
  split; [done|].
  intros save about self (r & Hr & Hlb & _)%MultitaskDataset_init_Ok.
  unfold MultitaskDataset_len. rewrite Hlb.
  destruct (Hmerge r Hr) as (<- & _ & ? & _). done.
Qed.

(** C2: the merged identities are the distinct collected identities in
    strictly ascending order, and a mapping with the same items in another
    iteration order merges to the same list of identities. *)
Theorem merge_order_sorted_independent datasets1 datasets2 r1 :
  datasets1 ≡ₚ datasets2 →
  Merge datasets1 = Ok r1 →
  StronglySorted (strict String.le) (merged_mol_ids r1) ∧
  (∀ all, collect datasets1 = Ok all →
          ∀ id, id ∈ merged_mol_ids r1 ↔ id ∈ al_mol_ids all) ∧
  ∃ r2, Merge datasets2 = Ok r2 ∧ merged_mol_ids r2 = merged_mol_ids r1.
Proof.
  intros Hp (all1 & Hall1 & Hf & ->)%merge_Ok.
  rewrite merged_of_mol_ids. split_and!.
  - apply (np_unique_strict String.le).
  - intros all Hall id. assert (all = all1) as -> by congruence.
    apply (elem_of_np_unique String.le).
  - destruct (all_lists_Permutation _ _ _ _ Hp Hall1)
      as (all2 & Hall2 & Hids & Hfs).
    exists (merged_of all2). split.
    + apply merge_Ok. exists all2. split; [done|]. split; [|done].
      rewrite <-Hfs, <-(Permutation_length Hids). done.
    + rewrite merged_of_mol_ids. apply (np_unique_ext String.le).
      intros id. by rewrite Hids.
Qed.

Lemma last_is_Some {X} (l : list X) : is_Some (last l) ↔ ∃ x, x ∈ l.
Proof.
  induction l as [|x l _] using rev_ind.
  - split; [by intros [? [=]]|by intros [? ?%elem_of_nil]].
  - rewrite last_snoc. split; [|by eauto]. intros _. exists x. set_solver.
Qed.

(** C3: the label map of an entity has exactly the task names of the rows
    carrying its identity, and under each the label of the last such row
    in row-processing order. *)
Theorem merge_label_map datasets all r j id :
  collect datasets = Ok all →
  Merge datasets = Ok r →
  merged_mol_ids r !! j = Some id →
  ∃ d, merged_labels r !! j = Some d ∧
    (∀ t, t ∈ dom d ↔
          ∃ i, al_mol_ids all !! i = Some id ∧ al_tasks all !! i = Some t) ∧
    (∀ t, d !! t = last_label all id t).
Proof.
  intros Hall (all' & Hall' & _ & ->)%merge_Ok Hj.
  assert (all' = all) as -> by congruence.
  rewrite merged_of_mol_ids in Hj.
  destruct (merged_of_entity all j id Hj) as (_ & (d & Hd & Hlast) & _).
  exists d. split_and!; [done| |done].
  intros t. rewrite elem_of_dom, Hlast. unfold last_label.
  rewrite last_is_Some.
  destruct (all_lists_lengths _ _ _ Hall) as (_ & Hl & Ht).
  split.
  - intros (x & (i & Hi & _)%rows_of_elem_of). exists i.
    by apply lookup_zip_with_Some in Hi as (? & ? & [= <- <-] & ? & ?).
  - intros (i & Hid & Htask).
    destruct (lookup_lt_is_Some_2 (al_labels all) i) as [x Hx].
    { rewrite Hl. by eapply lookup_lt_Some. }
    exists x. apply rows_of_elem_of. exists i. split; [|done].
    apply lookup_zip_with_Some. eauto.
Qed.

(** C7: with features, the slot of an entity holds the feature of the
    last row carrying its identity; when no task with rows supplies
    features, [merge] returns the 3-tuple, without a feature list. *)
Theorem merge_feature_slot datasets all r :
  collect datasets = Ok all →
  Merge datasets = Ok r →
  (∀ fs j id, merged_features r = Some fs →
     merged_mol_ids r !! j = Some id →
     ∃ f, fs !! j = Some (Obj f) ∧ last_feature all id = Some f) ∧
  (Forall (λ item, non_empty item → ¬ supplies_features item) datasets →
   r = Merged3 (merged_mol_ids r) (merged_smiles r) (merged_labels r)).
Proof.
  intros Hall (all' & Hall' & Hf & ->)%merge_Ok.
  assert (all' = all) as -> by congruence.
  destruct (all_lists_features _ _ _ Hall) as (_ & _ & Hex). split.
  - intros fs j id Hfs Hj. rewrite merged_of_mol_ids in Hj.
    destruct (merged_of_entity all j id Hj) as (_ & _ & Hslot).
    rewrite (Hslot fs Hfs).
    assert (length (al_features all) = length (al_mol_ids all)) as Hlen.
    { destruct Hf as [Hf|]; [|done]. revert Hfs. unfold merged_of.
      destruct (np_unique _ _). by rewrite decide_False by lia. }
    assert (is_Some (last_feature all id)) as [f Hlast].
    { apply last_is_Some.
      assert (id ∈ al_mol_ids all) as [i Hi]%list_elem_of_lookup.
      { apply (elem_of_np_unique String.le).
        by eapply list_elem_of_lookup_2. }
      destruct (lookup_lt_is_Some_2 (al_features all) i) as [f Hfi].
      { rewrite Hlen. by eapply lookup_lt_Some. }
      exists f. apply rows_of_elem_of. eauto. }
    exists f. by rewrite Hlast.
  - intros Hnone.
    assert (¬ 0 < length (al_features all)) as Hz.
    { rewrite Hex, Exists_exists. intros (item & Hin & ? & ?).
      rewrite Forall_forall in Hnone. by eapply Hnone. }
    unfold merged_of. destruct (np_unique _ _).
    by rewrite decide_False by done.
Qed.

(** A failure of [merge] after the rows were collected is an index out
    of range. *)
Lemma merge_Err datasets all e :
  collect datasets = Ok all → Merge datasets = Err e → e = IndexError.
Proof.
  unfold merge. intros -> . simpl.
  destruct (np_unique String.le (al_mol_ids all)) as [u inv]. simpl.
  destruct (scatter (py_index (al_smiles all)) _ _ _ _) eqn:Hsm; simpl.
  2:{ intros [= <-]. eapply scatter_Err; [|apply Hsm].
      by intros i e' [_ ->]%py_index_Err. }
  destruct (scatter _ (λ row (d : gmap string Label), _) _ _ _) eqn:Hlb;
    simpl.
  2:{ intros [= <-]. eapply scatter_Err; [|apply Hlb]. intros i e'. simpl.
      destruct (py_index (al_tasks all) i) eqn:Ht; simpl.
      - destruct (py_index (al_labels all) i) eqn:Hl; simpl; [done|].
        apply py_index_Err in Hl as [_ ->]. by intros [= <-].
      - apply py_index_Err in Ht as [_ ->]. by intros [= <-]. }
  case_decide; [|done].
  destruct (scatter (py_index (al_features all)) _ _ _ _) eqn:Hfs; simpl;
    [done|].
  intros [= <-]. eapply scatter_Err; [|apply Hfs].
  by intros i e' [_ ->]%py_index_Err.
Qed.

(** C9: [merge] returns a feature list only when every task with rows
    supplies features; when some do and some do not, the feature column
    is shorter than the rows and [merge] fails with an index out of
    range. *)
Theorem merge_mixed_features datasets :
  (∀ r fs, Merge datasets = Ok r → merged_features r = Some fs →
     Forall (λ item, non_empty item → supplies_features item) datasets) ∧
  (Exists (λ item, non_empty item ∧ supplies_features item) datasets →
   Exists (λ item, non_empty item ∧ ¬ supplies_features item) datasets →
   (∀ r, Merge datasets ≠ Ok r) ∧
   ∀ all, collect datasets = Ok all →
     0 < length (al_features all) < length (al_mol_ids all) ∧
     Merge datasets = Err IndexError).
Proof.
  assert (∀ all, collect datasets = Ok all →
    Exists (λ item, non_empty item ∧ supplies_features item) datasets →
    Exists (λ item, non_empty item ∧ ¬ supplies_features item) datasets →
    0 < length (al_features all) < length (al_mol_ids all)) as Hshort.
  { intros all (Hle & Hall & Hex)%all_lists_features Hsome Hnot.
    split; [by apply Hex|].
    destruct (decide (length (al_features all) = length (al_mol_ids all)))
      as [Heq|]; [|lia].
    apply Hall in Heq. rewrite Forall_forall in Heq.
    apply Exists_exists in Hnot as (item & Hin & Hne & Hns).
    destruct Hns. by apply Heq. }
  split.
  - intros r fs (all & Hall & Hf & ->)%merge_Ok Hfs.
    apply all_lists_features in Hall as (_ & Hall & _). apply Hall.
    destruct Hf as [Hf|]; [|done]. revert Hfs. unfold merged_of.
    destruct (np_unique _ _). by rewrite decide_False by lia.
  - intros Hsome Hnot.
    assert (∀ r, Merge datasets ≠ Ok r) as Hfail.
    { intros r (all & Hall & Hf & _)%merge_Ok.
      specialize (Hshort all Hall Hsome Hnot). lia. }
    split; [done|]. intros all Hall. split; [by apply Hshort|].
    destruct (Merge datasets) as [r|e] eqn:Hm; [by destruct (Hfail r)|].
    f_equal. by eapply merge_Err.
Qed.
End merge_claims.

(** ** Empty collections *)

Section empty.
Context {Label Feature Weight : Type}.
Context (smiles_to_unique_mol_id : string → result string).
Context (label_size : Label → list nat).
Context (num_nodes num_edges : Feature → nat).
Context {Float : Type} (np_std : list nat → Float).
Implicit Types
  (datasets : list (string * @SingleTaskDataset Label Feature Weight)).

Lemma get_all_lists_loop_empty datasets acc :
  Forall (λ item, SingleTaskDataset_len item.2 = 0) datasets →
  get_all_lists_loop smiles_to_unique_mol_id datasets acc = Ok acc.
Proof.
  induction 1 as [|[task ds] rest Hds _ IH]; simpl; [done|].
  by rewrite decide_True.
Qed.

Lemma label_size_loop_empty datasets acc :
  Forall (λ item, SingleTaskDataset_len item.2 = 0) datasets →
  label_size_loop label_size datasets acc = Ok acc.
Proof.
  induction 1 as [|[task ds] rest Hds _ IH]; simpl; [done|].
  by rewrite decide_True.
Qed.

(** Once the rows of a mapping were collected, its label sizes can be
    read. *)
Lemma label_size_loop_Ok datasets acc all sizes :
  get_all_lists_loop smiles_to_unique_mol_id datasets acc = Ok all →
  is_Ok (label_size_loop label_size datasets sizes).
Proof.
  revert acc sizes.
  induction datasets as [|[task ds] rest IH]; intros acc sizes; simpl.
  { intros _. by eexists. }
  case_decide as Hlen; [by apply IH|].
  intros H. apply bind_Ok in H as (cols & Hcols & H).
  unfold task_columns in Hcols.
  apply bind_Ok in Hcols as (? & _ & Hcols).
  apply bind_Ok in Hcols as (? & _ & Hcols).
  apply bind_Ok in Hcols as (first & Hfirst & _).
  rewrite Hfirst; simpl.
  apply getitem_Ok in Hfirst as (_ & _ & _ & ->).
  destruct (lookup_lt_is_Some_2 (st_labels ds) 0) as [l ->].
  { unfold SingleTaskDataset_len in Hlen. lia. }
  simpl. by eapply IH.
Qed.

Lemma merge_empty datasets :
  Forall (λ item, SingleTaskDataset_len item.2 = 0) datasets →
  merge smiles_to_unique_mol_id MultitaskDataset_get_inv_of_mol_ids datasets
  = Ok (Merged3 [] [] []).
Proof.
  intros Hempty. unfold merge, _get_all_lists_ids.
  by rewrite get_all_lists_loop_empty.
Qed.

(** C5: an empty mapping stops the constructor at [next(iter(datasets))],
    although [merge] itself returns the empty collection for it; a
    non-empty mapping whose tasks all have zero rows is constructed, with
    length 0. *)
Theorem MultitaskDataset_init_empty :
  (∀ save about,
     MultitaskDataset_init (Weight:=Weight) (Feature:=Feature)
       smiles_to_unique_mol_id label_size [] save about
     = Err StopIteration) ∧
  merge (Weight:=Weight) (Label:=Label) (Feature:=Feature)
    smiles_to_unique_mol_id MultitaskDataset_get_inv_of_mol_ids []
  = Ok (Merged3 [] [] []) ∧
  (∀ datasets save about,
     datasets ≠ [] →
     Forall (λ item, SingleTaskDataset_len item.2 = 0) datasets →
     ∃ self,
       MultitaskDataset_init smiles_to_unique_mol_id label_size datasets
         save about = Ok self ∧
       MultitaskDataset_len self = 0).
Proof.
  split_and!; [done|done|].
  intros [|[task ds] rest] save about Hne Hempty; [done|].
  unfold MultitaskDataset_init, set_label_size_dict.
  rewrite merge_empty, label_size_loop_empty by done.
  apply Forall_cons in Hempty as [Hds _]. simpl in Hds.
  rewrite decide_False by lia. simpl. by eexists.
Qed.

(** A merge that returns features returned at least one entity. *)
Lemma merge_features_nonempty datasets r fs :
  merge smiles_to_unique_mol_id MultitaskDataset_get_inv_of_mol_ids datasets
  = Ok r →
  merged_features r = Some fs → 0 < length (merged_labels r).
Proof.
  intros (all & Hall & _ & ->)%merge_Ok Hfs.
  destruct (merged_of_lengths all) as (_ & -> & _).
  rewrite merged_of_mol_ids.
  assert (0 < length (al_features all)) as Hf.
  { revert Hfs. unfold merged_of. destruct (np_unique _ _).
    by case_decide. }
  apply all_lists_features in Hall as (Hle & _ & _).
  assert (∃ id, id ∈ al_mol_ids all) as [id Hid].
  { destruct (al_mol_ids all) as [|id ids]; simpl in *; [lia|].
    exists id. left. }
  apply (elem_of_np_unique String.le) in Hid.
  destruct (np_unique String.le (al_mol_ids all)).1; simpl; [|lia].
  by apply elem_of_nil in Hid.
Qed.

Lemma MultitaskDataset_init_no_entity datasets save about self :
  MultitaskDataset_init smiles_to_unique_mol_id label_size datasets
    save about = Ok self →
  MultitaskDataset_len self = 0 →
  mt_features self = None.
Proof.
  intros (r & Hr & Hlb & [Hfs|Hfs])%MultitaskDataset_init_Ok Hlen; [done|].
  destruct (mt_features self) as [fs|] eqn:Hself; [|done].
  pose proof (merge_features_nonempty _ _ fs Hr) as Hpos.
  unfold MultitaskDataset_len in Hlen. rewrite Hlb in Hlen.
  rewrite <-Hfs in Hpos. specialize (Hpos eq_refl). lia.
Qed.

End empty.

(** ** FakeDataset *)

Section fake.
Context {Label Feature Weight : Type}.
Context (label_size : Label → list nat).
Implicit Types
  (datasets : list (string * @SingleTaskDataset Label Feature Weight)).
Implicit Types (h : list (@object Label Feature)) (o : @object Label Feature).

(** A comprehension whose body only reads leaves the store as it is. *)
Lemma comprehension_pure {B} n (body : heap → result (B * heap)) h xs h' :
  (∀ h0 x h1, body h0 = Ok (x, h1) → h1 = h0) →
  comprehension n body h = Ok (xs, h') → h' = h ∧ length xs = n.
Proof.
  intros Hbody. revert h xs. induction n as [|n IH]; intros h xs; simpl.
  - by intros [= <- <-].
  - intros H. apply bind_Ok in H as ([x h1] & Hx & H).
    apply bind_Ok in H as ([xs' h2] & Hxs & [= <- <-]).
    apply Hbody in Hx as ->. apply IH in Hxs as [-> <-]. done.
Qed.

(** A comprehension whose body allocates one object per round returns
    the consecutive new locations. *)
Lemma comprehension_alloc n (body : heap → result (loc * heap))
    (P : object → Prop) h xs h' :
  (∀ h0 x h1, body h0 = Ok (x, h1) →
     x = length h0 ∧ ∃ o, P o ∧ h1 = h0 ++ [o]) →
  comprehension n body h = Ok (xs, h') →
  xs = seq (length h) n ∧
  ∃ os, h' = h ++ os ∧ length os = n ∧ Forall P os.
Proof.
  intros Hbody. revert h xs. induction n as [|n IH]; intros h xs; simpl.
  - intros [= <- <-]. split; [done|]. exists []. by rewrite app_nil_r.
  - intros H. apply bind_Ok in H as ([x h1] & Hx & H).
    apply bind_Ok in H as ([xs' h2] & Hxs & [= <- <-]).
    apply Hbody in Hx as (-> & o & Ho & ->).
    apply IH in Hxs as (-> & os & -> & <- & Hos).
    rewrite length_app, Nat.add_1_r. split; [done|].
    exists (o :: os). rewrite <-app_assoc.
    split_and!; [done..|by constructor].
Qed.

(** The copies made by [deepcopy_mol] when features are given: the label
    dictionaries and the features are new objects, one block each, every
    block made of copies of one object. *)
Lemma deepcopy_mol_Ok n (mol_ids : list nat) (smiles : list (list string))
    (labels : list (gmap string Label)) (fs : list slot) h
    (ids' : list nat) (sm' : list (list string)) (lb' : list loc)
    (fs' : option (list loc)) h' :
  deepcopy_mol n mol_ids smiles labels (Some fs) h
  = Ok ((ids', sm', lb', fs'), h') →
  lb' = seq (length h) n ∧ fs' = Some (seq (length h + n) n) ∧
  ∃ os1 os2 o1 o2,
    h' = h ++ os1 ++ os2 ∧ length os1 = n ∧ length os2 = n ∧
    Forall (eq o1) os1 ∧ Forall (eq o2) os2.
Proof.
  unfold deepcopy_mol. intros H.
  apply bind_Ok in H as ([a h1] & H1 & H).
  apply bind_Ok in H as ([b h2] & H2 & H).
  apply bind_Ok in H as ([c h3] & H3 & H).
  apply bind_Ok in H as ([d h4] & H4 & [= <- <- <- <- <-]).
  assert (∀ h0 x h1', copy_first mol_ids h0 = Ok (x, h1') → h1' = h0)
    as Hp1.
  { unfold copy_first. intros h0 x h1' Hc.
    by apply bind_Ok in Hc as (? & _ & [= _ <-]). }
  assert (∀ h0 x h1', copy_first smiles h0 = Ok (x, h1') → h1' = h0)
    as Hp2.
  { unfold copy_first. intros h0 x h1' Hc.
    by apply bind_Ok in Hc as (? & _ & [= _ <-]). }
  assert (∀ h0 x h1', copy_first labels h0 = Ok (x, h1') →
            x = length h0 ∧
            ∃ o, (∃ y, labels !! 0 = Some y ∧ o = LabelsObj y) ∧
                 h1' = h0 ++ [o]) as Hp3.
  { unfold copy_first. intros h0 x h1' Hc.
    apply bind_Ok in Hc as (y & Hy%py_index_Ok & [= <- <-]).
    split; [done|]. eexists. split; [|done]. eauto. }
  assert (∀ h0 x h1', copy_first fs h0 = Ok (x, h1') →
            x = length h0 ∧
            ∃ o, (∃ y, fs !! 0 = Some y ∧ o = FeatureObj y) ∧
                 h1' = h0 ++ [o]) as Hp4.
  { unfold copy_first. intros h0 x h1' Hc.
    apply bind_Ok in Hc as (y & Hy%py_index_Ok & [= <- <-]).
    split; [done|]. eexists. split; [|done]. eauto. }
  apply (comprehension_pure _ _ _ _ _ Hp1) in H1 as [-> _].
  apply (comprehension_pure _ _ _ _ _ Hp2) in H2 as [-> _].
  apply (comprehension_alloc _ _ _ _ _ _ Hp3) in H3
    as (-> & os1 & -> & Hn1 & Hos1).
  apply (comprehension_alloc _ _ _ _ _ _ Hp4) in H4
    as (-> & os2 & -> & Hn2 & Hos2).
  rewrite length_app, Hn1. split_and!; [done..|].
  exists os1, os2, (LabelsObj (default ∅ (labels !! 0))),
    (FeatureObj (default MinusOne (fs !! 0))).
  rewrite <-app_assoc. split_and!; [done..| |].
  - eapply Forall_impl; [exact Hos1|]. by intros o (x & -> & ->).
  - eapply Forall_impl; [exact Hos2|]. by intros o (x & -> & ->).
Qed.

Abbreviation fake_init := (FakeDataset_init (Weight:=Weight) label_size).
Abbreviation fake_branches := (FakeDataset_init_branches (Weight:=Weight)).

Lemma FakeDataset_init_Ok datasets n same h self h' :
  fake_init datasets n same h = Ok (self, h') →
  fk_num_mols self = n ∧ fk_indexing_same_elem self = same ∧
  ∃ ids sm,
    fake_branches datasets n same h
    = Ok ((ids, sm, fk_labels self, Some (fk_features self)), h').
Proof.
  unfold FakeDataset_init. intros H.
  apply bind_Ok in H as ([[[[ids sm] lb] attr] h1] & Hb & H).
  apply bind_Ok in H as (sizes & _ & H).
  apply bind_Ok in H as (fs & Hattr & [= <- <-]); simpl.
  destruct attr as [fs'|]; [|done]. simpl in Hattr.
  assert (fs' = fs) as -> by congruence. eauto.
Qed.

(** Without [indexing_same_elem] the branches that assign [features]
    end in [deepcopy_mol]. *)
Lemma FakeDataset_init_branches_copies datasets n h ids sm lb fs h' :
  fake_branches datasets n false h = Ok ((ids, sm, lb, Some fs), h') →
  lb = seq (length h) n ∧ fs = seq (length h + n) n ∧
  ∃ os1 os2 o1 o2,
    h' = h ++ os1 ++ os2 ∧ length os1 = n ∧ length os2 = n ∧
    Forall (eq o1) os1 ∧ Forall (eq o2) os2.
Proof.
  unfold FakeDataset_init_branches.
  destruct datasets as [|[task ds] rest]; [done|]. intros H.
  apply bind_Ok in H as (first & _ & H).
  destruct (d_features first).
  - apply bind_Ok in H as (r & _ & H).
    apply bind_Ok in H as ([[[ids0 sm0] lb0] fs0] & Hun & H).
    destruct r as [|? ? ? fs1]; [done|]. injection Hun as <- <- <- <-.
    apply bind_Ok in H as ([[[[ids1 sm1] lb1] fs2] h1] & Hcopy & H).
    injection H as -> -> -> -> ->.
    apply deepcopy_mol_Ok in Hcopy as (-> & [= <-] & Hheap). done.
  - apply bind_Ok in H as (r & _ & H).
    apply bind_Ok in H as ([[[ids0 sm0] lb0] fs0] & Hun & H).
    apply bind_Ok in H as ([[[[ids1 sm1] lb1] fs2] h1] & Hcopy & H).
    done.
Qed.

(** C8: a constructed [FakeDataset] has length [num_mols]; without
    [indexing_same_elem] the records at two distinct indices hold equal
    values in distinct objects, and mutating an object of one leaves the
    other as it was. *)
Theorem FakeDataset_length_and_copies datasets num_mols same h self h' :
  fake_init datasets num_mols same h = Ok (self, h') →
  FakeDataset_len self = num_mols ∧
  (same = false →
   ∀ i j, i < num_mols → j < num_mols → i ≠ j →
     ∃ di dj,
       FakeDataset_getitem self i = Ok di ∧
       FakeDataset_getitem self j = Ok dj ∧
       fd_labels di ≠ fd_labels dj ∧ fd_features di ≠ fd_features dj ∧
       fd_labels di ≠ fd_features dj ∧ fd_features di ≠ fd_labels dj ∧
       record_value h' di = record_value h' dj ∧
       is_Some (record_value h' di).1 ∧ is_Some (record_value h' di).2 ∧
       ∀ o,
         record_value (mutate (fd_labels di) o h') dj
         = record_value h' dj ∧
         record_value (mutate (fd_features di) o h') dj
         = record_value h' dj).
Proof.
  intros (Hn & Hsame & ids & sm & Hb)%FakeDataset_init_Ok.
  split; [done|]. intros -> i j Hi Hj Hij.
  apply FakeDataset_init_branches_copies in Hb
    as (Hlb & Hfs & os1 & os2 & o1 & o2 & -> & Hn1 & Hn2 & Hos1 & Hos2).
  exists {| fd_labels := length h + i;
            fd_features := length h + num_mols + i |},
         {| fd_labels := length h + j;
            fd_features := length h + num_mols + j |}.
  assert (∀ k, k < num_mols →
    FakeDataset_getitem self k
    = Ok {| fd_labels := length h + k;
            fd_features := length h + num_mols + k |}) as Hget.
  { intros k Hk. unfold FakeDataset_getitem, py_index.
    rewrite Hsame, Hlb, Hfs, !lookup_seq_lt by done. done. }
  assert (∀ k, k < num_mols →
    (h ++ os1 ++ os2) !! (length h + k) = Some o1 ∧
    (h ++ os1 ++ os2) !! (length h + num_mols + k) = Some o2) as Hval.
  { intros k Hk. split.
    - rewrite lookup_app_r, lookup_app_l by lia.
      replace (length h + k - length h) with k by lia.
      destruct (lookup_lt_is_Some_2 os1 k) as [o Ho]; [lia|].
      rewrite Ho. f_equal. symmetry.
      by eapply (Forall_lookup_1 _ _ _ _ Hos1).
    - rewrite lookup_app_r, lookup_app_r by lia.
      replace (length h + num_mols + k - length h - length os1)
        with k by lia.
      destruct (lookup_lt_is_Some_2 os2 k) as [o Ho]; [lia|].
      rewrite Ho. f_equal. symmetry.
      by eapply (Forall_lookup_1 _ _ _ _ Hos2). }
  destruct (Hval i Hi) as [Hli Hfi], (Hval j Hj) as [Hlj Hfj].
  unfold record_value, mutate; cbn [fd_labels fd_features fst snd].
  split_and!; try (by apply Hget); try lia.
  - by rewrite Hli, Hfi, Hlj, Hfj.
  - by rewrite Hli.
  - by rewrite Hfi.
  - intros o. by rewrite !list_lookup_insert_ne by lia.
Qed.

Lemma FakeDataset_init_branches_sizes datasets n same h st h1 :
  fake_branches datasets n same h = Ok (st, h1) →
  is_Ok (set_label_size_dict label_size datasets).
Proof.
  unfold FakeDataset_init_branches.
  destruct datasets as [|[task ds] rest] eqn:Hd; [done|]. rewrite <-Hd.
  intros H. apply bind_Ok in H as (first & _ & H).
  assert (∃ r, FakeDataset_merge datasets = Ok r) as [r Hr].
  { destruct (d_features first);
      apply bind_Ok in H as (r & Hr & _); eauto. }
  unfold FakeDataset_merge, merge in Hr.
  apply bind_Ok in Hr as (all & Hall & _).
  by eapply label_size_loop_Ok.
Qed.

(** C10: when the first record of the first task has no features the
    constructor never returns; once its no-features branch (the merge and
    the copies) is done, the closing read of [features] raises
    [AttributeError], and an error raised in the branch is the error of
    the constructor. *)
Theorem FakeDataset_init_no_features datasets num_mols same h task ds rest
    first :
  datasets = (task, ds) :: rest →
  SingleTaskDataset_getitem ds 0 = Ok first →
  d_features first = None →
  (∀ self h', fake_init datasets num_mols same h ≠ Ok (self, h')) ∧
  (∀ st h1,
     fake_branches datasets num_mols same h = Ok (st, h1) →
     fake_init datasets num_mols same h = Err (AttributeError "features")) ∧
  (∀ e,
     fake_branches datasets num_mols same h = Err e →
     fake_init datasets num_mols same h = Err e).
Proof.
  intros Hd Hfirst Hnone.
  assert (∀ ids sm lb attr h1,
    fake_branches datasets num_mols same h
    = Ok ((ids, sm, lb, attr), h1) → attr = None) as Hattr.
  { rewrite Hd. unfold FakeDataset_init_branches. rewrite Hfirst; simpl.
    rewrite Hnone. intros ids sm lb attr h1 H.
    apply bind_Ok in H as (r & _ & H).
    apply bind_Ok in H as ([[[ids0 sm0] lb0] fs0] & _ & H).
    destruct same.
    - by injection H as <- <- <- <- <-.
    - apply bind_Ok in H as ([[[[ids1 sm1] lb1] fs2] h2] & _ & H).
      by injection H as <- <- <- <- <-. }
  split_and!.
  - intros self h' (_ & _ & ids & sm & Hb)%FakeDataset_init_Ok.
    by apply Hattr in Hb.
  - intros [[[ids sm] lb] attr] h1 Hb.
    destruct (FakeDataset_init_branches_sizes _ _ _ _ _ _ Hb)
      as [sizes Hsizes].
    unfold FakeDataset_init. rewrite Hb, Hsizes; simpl.
    by rewrite (Hattr _ _ _ _ _ Hb).
  - intros e Hb. unfold FakeDataset_init. by rewrite Hb.
Qed.
End fake.

(** ** Statistics of a collection without entities *)

Section empty_statistics.
Context {Label Feature Weight : Type}.
Context (smiles_to_unique_mol_id : string → result string).
Context (label_size : Label → list nat).
Context (num_nodes num_edges : Feature → nat).
Context {Float : Type} (np_std : list nat → Float).
Implicit Types
  (datasets : list (string * @SingleTaskDataset Label Feature Weight)).
Implicit Types (h : list (@object Label Feature)).

(** No exception of the code is a [DegenerateDatasetError]. *)
Lemma degenerate_handled_Err {A} (e : exn) :
  ¬ degenerate_handled (Err e : result A).
Proof. by destruct e. Qed.

(** The division of the mean accessors is not guarded: with a count of 0
    they raise, whatever the total is. *)
Lemma mean_unguarded (total : result nat) :
  ¬ degenerate_handled (total ≫= λ t, py_truediv t 0) ∧
  ∀ t, total = Ok t → total ≫= (λ t, py_truediv t 0) = Err ZeroDivisionError.
Proof.
  split.
  - destruct total as [t|e]; apply degenerate_handled_Err.
  - by intros t ->.
Qed.

(** Without [indexing_same_elem] and with [num_mols = 0] the constructed
    [features] list is empty. *)
Lemma FakeDataset_init_no_copy datasets h self h' :
  FakeDataset_init label_size datasets 0 false h = Ok (self, h') →
  fk_num_mols self = 0 ∧ fk_features self = [].
Proof.
  intros (Hn & _ & ids & sm & Hb)%FakeDataset_init_Ok.
  by apply FakeDataset_init_branches_copies in Hb as (_ & -> & _).
Qed.

(** C4 (as the code has it): the statistics accessors are not guarded
    against a collection without entities.  On a constructed
    [MultitaskDataset] of length 0 the mean, max and min accessors neither
    return a value nor raise a [DegenerateDatasetError]; the same holds for
    the mean accessors of a [FakeDataset] of length 0, and on the one built
    without [indexing_same_elem] the feature list is empty: the totals are
    0, max and min raise [ValueError], and the means raise
    [ZeroDivisionError]. *)
Theorem statistics_on_empty :
  (∀ datasets save about self,
     MultitaskDataset_init smiles_to_unique_mol_id label_size datasets
       save about = Ok self →
     MultitaskDataset_len self = 0 →
     ¬ degenerate_handled (mean_num_nodes_per_graph num_nodes self) ∧
     ¬ degenerate_handled (mean_num_edges_per_graph num_edges self) ∧
     ¬ degenerate_handled (max_num_nodes_per_graph num_nodes self) ∧
     ¬ degenerate_handled (min_num_nodes_per_graph num_nodes self) ∧
     ¬ degenerate_handled (max_num_edges_per_graph num_edges self) ∧
     ¬ degenerate_handled (min_num_edges_per_graph num_edges self)) ∧
  (∀ datasets same h self h',
     FakeDataset_init label_size datasets 0 same h = Ok (self, h') →
     FakeDataset_len self = 0 ∧
     ¬ degenerate_handled
         (FakeDataset_mean_num_nodes_per_graph num_nodes self h') ∧
     ¬ degenerate_handled
         (FakeDataset_mean_num_edges_per_graph num_edges self h') ∧
     (same = false →
      FakeDataset_num_nodes_total num_nodes self h' = Ok 0 ∧
      FakeDataset_max_num_nodes_per_graph num_nodes self h'
      = Err (ValueError "max() arg is an empty sequence") ∧
      FakeDataset_min_num_nodes_per_graph num_nodes self h'
      = Err (ValueError "min() arg is an empty sequence") ∧
      FakeDataset_std_num_nodes_per_graph num_nodes np_std self h'
      = Ok (np_std []) ∧
      FakeDataset_mean_num_nodes_per_graph num_nodes self h'
      = Err ZeroDivisionError ∧
      FakeDataset_num_edges_total num_edges self h' = Ok 0 ∧
      FakeDataset_max_num_edges_per_graph num_edges self h'
      = Err (ValueError "max() arg is an empty sequence") ∧
      FakeDataset_min_num_edges_per_graph num_edges self h'
      = Err (ValueError "min() arg is an empty sequence") ∧
      FakeDataset_std_num_edges_per_graph num_edges np_std self h'
      = Ok (np_std []) ∧
      FakeDataset_mean_num_edges_per_graph num_edges self h'
      = Err ZeroDivisionError)).
Proof.
  split.
  - intros datasets save about self Hinit Hlen.
    pose proof (MultitaskDataset_init_no_entity _ _ _ _ _ _ Hinit Hlen)
      as Hfs.
    unfold mean_num_nodes_per_graph, mean_num_edges_per_graph,
      num_graphs_total, max_num_nodes_per_graph, min_num_nodes_per_graph,
      max_num_edges_per_graph, min_num_edges_per_graph, per_graph,
      get_features.
    rewrite Hlen, Hfs.
    split_and!;
      first [apply mean_unguarded | apply degenerate_handled_Err].
  - intros datasets same h self h' Hinit.
    assert (FakeDataset_len self = 0) as Hlen
      by (by apply FakeDataset_init_Ok in Hinit as (? & _)).
    unfold FakeDataset_mean_num_nodes_per_graph,
      FakeDataset_mean_num_edges_per_graph, FakeDataset_num_graphs_total.
    rewrite Hlen.
    split_and!; [done|apply mean_unguarded..|].
    intros ->. apply FakeDataset_init_no_copy in Hinit as [_ Hfs].
    unfold FakeDataset_num_nodes_total, FakeDataset_max_num_nodes_per_graph,
      FakeDataset_min_num_nodes_per_graph,
      FakeDataset_std_num_nodes_per_graph, FakeDataset_num_edges_total,
      FakeDataset_max_num_edges_per_graph,
      FakeDataset_min_num_edges_per_graph,
      FakeDataset_std_num_edges_per_graph, FakeDataset_per_graph.
    rewrite Hfs. by split_and!.
Qed.
End empty_statistics.

(** * Instances on the example mappings *)

(** Five labels with four features. *)
Lemma SingleTaskDataset_init_length_mismatch_witness :
  provided_length (Feature:=nat) (Weight:=nat) (Some [1; 2; 3; 4]) None None
    None None "features" = Some 4 ∧
  SingleTaskDataset_init (Weight:=nat) [1; 2; 3; 4; 5] (Some [1; 2; 3; 4])
    None None None None
  = Err (AssertionError
           "features must be the same length as labels, got 4 and 5").
Proof.
  split; [reflexivity|].
  exact (proj2 (SingleTaskDataset_init_length_mismatch (Weight:=nat)
                  [1; 2; 3; 4; 5] (Some [1; 2; 3; 4]) None None None None)
           [1; 2; 3; 4] eq_refl eq_refl eq_refl).
Defined.

(** Tasks A and B share m2: four rows, three entities, and a constructed
    dataset of length 3. *)
Lemma merge_length_distinct_ids_witness :
  _get_all_lists_ids resolve_id [("A", task_A); ("B", task_B)] = Ok rows_AB ∧
  merge resolve_id MultitaskDataset_get_inv_of_mol_ids
    [("A", task_A); ("B", task_B)] = Ok merged_AB ∧
  length (merged_mol_ids merged_AB)
  = size (list_to_set (C:=gset string) (al_mol_ids rows_AB)) ∧
  ∃ self,
    MultitaskDataset_init resolve_id scalar_size
      [("A", task_A); ("B", task_B)] false "" = Ok self ∧
    MultitaskDataset_len self = 3 ∧
    MultitaskDataset_len self
    = size (list_to_set (C:=gset string) (al_mol_ids rows_AB)).
Proof.
  assert (_get_all_lists_ids resolve_id [("A", task_A); ("B", task_B)]
          = Ok rows_AB) as Hrows by (vm_compute; reflexivity).
  assert (merge resolve_id MultitaskDataset_get_inv_of_mol_ids
            [("A", task_A); ("B", task_B)] = Ok merged_AB) as Hmerge
    by (vm_compute; reflexivity).
  assert (∃ self,
            MultitaskDataset_init resolve_id scalar_size
              [("A", task_A); ("B", task_B)] false "" = Ok self ∧
            MultitaskDataset_len self = 3) as (self & Hinit & Hlen)
    by (eexists; split; vm_compute; reflexivity).
  split_and!; [exact Hrows|exact Hmerge| |].
  - exact (proj1 (proj1 (merge_length_distinct_ids resolve_id scalar_size
                           _ _ Hrows) merged_AB Hmerge)).
  - exists self. split_and!; [exact Hinit|exact Hlen|].
    exact (proj2 (merge_length_distinct_ids resolve_id scalar_size
                    _ _ Hrows) false "" self Hinit).
Defined.

(** A before B and B before A give the identities m1, m2, m3. *)
Lemma merge_order_sorted_independent_witness :
  [("A", task_A_graphs); ("B", task_B_graphs)]
  ≡ₚ [("B", task_B_graphs); ("A", task_A_graphs)] ∧
  merge resolve_id MultitaskDataset_get_inv_of_mol_ids
    [("A", task_A_graphs); ("B", task_B_graphs)] = Ok merged_AB_graphs ∧
  StronglySorted (strict String.le) (merged_mol_ids merged_AB_graphs) ∧
  ∃ r2, merge resolve_id MultitaskDataset_get_inv_of_mol_ids
          [("B", task_B_graphs); ("A", task_A_graphs)] = Ok r2 ∧
        merged_mol_ids r2 = ["m1"; "m2"; "m3"].
Proof.
  assert ([("A", task_A_graphs); ("B", task_B_graphs)]
          ≡ₚ [("B", task_B_graphs); ("A", task_A_graphs)]) as Hperm
    by apply perm_swap.
  assert (merge resolve_id MultitaskDataset_get_inv_of_mol_ids
            [("A", task_A_graphs); ("B", task_B_graphs)]
          = Ok merged_AB_graphs) as Hmerge by (vm_compute; reflexivity).
  destruct (merge_order_sorted_independent resolve_id _ _ _ Hperm Hmerge)
    as (Hsorted & _ & Hsame).
  split_and!; [exact Hperm|exact Hmerge|exact Hsorted|exact Hsame].
Defined.

(** The entity of m2 is labelled by A and by B. *)
Lemma merge_label_map_witness :
  _get_all_lists_ids resolve_id [("A", task_A); ("B", task_B)] = Ok rows_AB ∧
  merge resolve_id MultitaskDataset_get_inv_of_mol_ids
    [("A", task_A); ("B", task_B)] = Ok merged_AB ∧
  merged_mol_ids merged_AB !! 1 = Some "m2" ∧
  ∃ d, merged_labels merged_AB !! 1 = Some d ∧
    (∀ t, t ∈ dom d ↔
          ∃ i, al_mol_ids rows_AB !! i = Some "m2" ∧
               al_tasks rows_AB !! i = Some t) ∧
    (∀ t, d !! t = last_label rows_AB "m2" t).
Proof.
  assert (_get_all_lists_ids resolve_id [("A", task_A); ("B", task_B)]
          = Ok rows_AB) as Hrows by (vm_compute; reflexivity).
  assert (merge resolve_id MultitaskDataset_get_inv_of_mol_ids
            [("A", task_A); ("B", task_B)] = Ok merged_AB) as Hmerge
    by (vm_compute; reflexivity).
  split_and!; [exact Hrows|exact Hmerge|reflexivity|].
  exact (merge_label_map resolve_id _ _ _ 1 "m2" Hrows Hmerge eq_refl).
Defined.

(** The slot of m2 holds the graph of task B, its last row; without
    graphs the 3-tuple is returned. *)
Lemma merge_feature_slot_witness :
  _get_all_lists_ids resolve_id
    [("A", task_A_graphs); ("B", task_B_graphs)] = Ok rows_AB_graphs ∧
  merge resolve_id MultitaskDataset_get_inv_of_mol_ids
    [("A", task_A_graphs); ("B", task_B_graphs)] = Ok merged_AB_graphs ∧
  (∃ f, [Obj 7; Obj 9; Obj 6] !! 1 = Some (Obj f) ∧
        last_feature rows_AB_graphs "m2" = Some f) ∧
  merged_AB
  = Merged3 (merged_mol_ids merged_AB) (merged_smiles merged_AB)
      (merged_labels merged_AB).
Proof.
  assert (_get_all_lists_ids resolve_id
            [("A", task_A_graphs); ("B", task_B_graphs)]
          = Ok rows_AB_graphs) as Hrows by (vm_compute; reflexivity).
  assert (merge resolve_id MultitaskDataset_get_inv_of_mol_ids
            [("A", task_A_graphs); ("B", task_B_graphs)]
          = Ok merged_AB_graphs) as Hmerge by (vm_compute; reflexivity).
  assert (_get_all_lists_ids resolve_id [("A", task_A); ("B", task_B)]
          = Ok rows_AB) as Hrows' by (vm_compute; reflexivity).
  assert (merge resolve_id MultitaskDataset_get_inv_of_mol_ids
            [("A", task_A); ("B", task_B)] = Ok merged_AB) as Hmerge'
    by (vm_compute; reflexivity).
  split_and!; [exact Hrows|exact Hmerge| |].
  - exact (proj1 (merge_feature_slot resolve_id _ _ _ Hrows Hmerge)
             [Obj 7; Obj 9; Obj 6] 1 "m2" eq_refl eq_refl).
  - apply (proj2 (merge_feature_slot resolve_id _ _ _ Hrows' Hmerge')).
    repeat constructor; intros _ [fs Hfs]; discriminate Hfs.
Defined.

(** Task A with graphs and task B without. *)
Lemma merge_mixed_features_witness :
  Exists (λ item, non_empty item ∧ supplies_features item)
    [("A", task_A_graphs); ("B", task_B)] ∧
  Exists (λ item, non_empty item ∧ ¬ supplies_features item)
    [("A", task_A_graphs); ("B", task_B)] ∧
  merge resolve_id MultitaskDataset_get_inv_of_mol_ids
    [("A", task_A_graphs); ("B", task_B)] = Err IndexError.
Proof.
  assert (Exists (λ item, non_empty item ∧ supplies_features item)
            [("A", task_A_graphs); ("B", task_B)]) as Hsome.
  { apply Exists_cons_hd. split; [discriminate|by eexists]. }
  assert (Exists (λ item, non_empty item ∧ ¬ supplies_features item)
            [("A", task_A_graphs); ("B", task_B)]) as Hnot.
  { apply Exists_cons_tl, Exists_cons_hd.
    split; [discriminate|intros [fs Hfs]; discriminate Hfs]. }
  split_and!; [exact Hsome|exact Hnot|].
  refine (proj2 (proj2 (proj2 (merge_mixed_features resolve_id _)
                          Hsome Hnot) _ _)).
  vm_compute; reflexivity.
Defined.

(** The collection built from one task without rows, and the
    [FakeDataset] holding no copy of the first entity of task A. *)
Lemma statistics_on_empty_witness :
  (MultitaskDataset_init resolve_id scalar_size [("A", task_empty)] false ""
   = Ok dataset_empty ∧
   MultitaskDataset_len dataset_empty = 0 ∧
   ¬ degenerate_handled (mean_num_nodes_per_graph node_count dataset_empty) ∧
   ¬ degenerate_handled (max_num_nodes_per_graph node_count dataset_empty)) ∧
  (FakeDataset_init scalar_size [("A", task_A_ids_graphs)] 0 false []
   = Ok (fake_none, heap_none) ∧
   FakeDataset_len fake_none = 0 ∧
   FakeDataset_num_nodes_total node_count fake_none heap_none = Ok 0 ∧
   FakeDataset_max_num_nodes_per_graph node_count fake_none heap_none
   = Err (ValueError "max() arg is an empty sequence") ∧
   FakeDataset_mean_num_nodes_per_graph node_count fake_none heap_none
   = Err ZeroDivisionError ∧
   FakeDataset_mean_num_edges_per_graph node_count fake_none heap_none
   = Err ZeroDivisionError).
Proof.
  assert (MultitaskDataset_init resolve_id scalar_size [("A", task_empty)]
            false "" = Ok dataset_empty) as Hinit
    by (vm_compute; reflexivity).
  assert (FakeDataset_init scalar_size [("A", task_A_ids_graphs)] 0 false []
          = Ok (fake_none, heap_none)) as Hfake
    by (vm_compute; reflexivity).
  pose proof (statistics_on_empty (Weight:=nat) resolve_id scalar_size
                node_count node_count (λ counts, counts)) as [Hmulti Hfk].
  split.
  - destruct (Hmulti _ _ _ _ Hinit eq_refl) as (Hmean & _ & Hmax & _).
    split_and!; [exact Hinit|reflexivity|exact Hmean|exact Hmax].
  - destruct (Hfk _ _ _ _ _ Hfake) as (Hlen & _ & _ & Hempty).
    destruct (Hempty eq_refl)
      as (Htotal & Hmax & _ & _ & Hmean & _ & _ & _ & _ & Hmean').
    split_and!; [exact Hfake|exact Hlen|exact Htotal|exact Hmax|exact Hmean|
                 exact Hmean'].
Defined.

(** C4 as the specification states it fails: a [FakeDataset] built from a
    task with graphs and [num_mols = 0] has length 0 and an empty feature
    list, and its mean node count divides 0 by 0. *)
Lemma statistics_on_empty_counterexample :
  FakeDataset_init scalar_size [("A", task_A_ids_graphs)] 0 false []
  = Ok (fake_none, heap_none) ∧
  FakeDataset_len fake_none = 0 ∧
  FakeDataset_mean_num_nodes_per_graph node_count fake_none heap_none
  = Err ZeroDivisionError ∧
  ¬ degenerate_handled
      (FakeDataset_mean_num_nodes_per_graph node_count fake_none heap_none).
Proof.
  split_and!; [vm_compute; reflexivity|reflexivity|vm_compute; reflexivity|].
  vm_compute. discriminate.
Qed.

(** One task without rows. *)
Lemma MultitaskDataset_init_empty_witness :
  [("A", task_empty)] ≠ [] ∧
  Forall (λ item, SingleTaskDataset_len item.2 = 0) [("A", task_empty)] ∧
  ∃ self,
    MultitaskDataset_init resolve_id scalar_size [("A", task_empty)] false ""
    = Ok self ∧
    MultitaskDataset_len self = 0.
Proof.
  assert ([("A", task_empty)] ≠ []) as Hne by discriminate.
  assert (Forall (λ item, SingleTaskDataset_len item.2 = 0)
            [("A", task_empty)]) as Hempty by (repeat constructor).
  split_and!; [exact Hne|exact Hempty|].
  exact (proj2 (proj2 (MultitaskDataset_init_empty resolve_id scalar_size))
           _ false "" Hne Hempty).
Defined.

(** Three copies of the first entity of task A. *)
Lemma FakeDataset_length_and_copies_witness :
  FakeDataset_init scalar_size [("A", task_A_ids_graphs)] 3 false []
  = Ok (fake_A, heap_A) ∧
  FakeDataset_len fake_A = 3 ∧
  ∃ d0 d1,
    FakeDataset_getitem fake_A 0 = Ok d0 ∧
    FakeDataset_getitem fake_A 1 = Ok d1 ∧
    fd_labels d0 ≠ fd_labels d1 ∧ fd_features d0 ≠ fd_features d1 ∧
    record_value heap_A d0 = record_value heap_A d1 ∧
    ∀ o, record_value (mutate (fd_labels d0) o heap_A) d1
         = record_value heap_A d1.
Proof.
  assert (FakeDataset_init scalar_size [("A", task_A_ids_graphs)] 3
            false [] = Ok (fake_A, heap_A)) as Hinit
    by (vm_compute; reflexivity).
  destruct (FakeDataset_length_and_copies scalar_size _ _ _ _ _ _ Hinit)
    as [Hlen Hcopies].
  split_and!; [exact Hinit|exact Hlen|].
  destruct (Hcopies eq_refl 0 1 ltac:(lia) ltac:(lia) ltac:(lia))
    as (d0 & d1 & H0 & H1 & Hl & Hf & _ & _ & Hv & _ & _ & Hm).
  exists d0, d1. split_and!; try assumption. intros o. apply Hm.
Defined.

(** Task A without graphs: the branch completes and the read fails. *)
Lemma FakeDataset_init_no_features_witness :
  SingleTaskDataset_getitem task_A_ids 0 = Ok (datum_at task_A_ids 0) ∧
  d_features (datum_at task_A_ids 0) = None ∧
  is_Ok (FakeDataset_init_branches [("A", task_A_ids)] 3 false []) ∧
  FakeDataset_init scalar_size [("A", task_A_ids)] 3 false []
  = Err (AttributeError "features").
Proof.
  assert (is_Ok (FakeDataset_init_branches [("A", task_A_ids)] 3 false []))
    as Hb by (eexists; vm_compute; reflexivity).
  split_and!; [reflexivity|reflexivity|exact Hb|].
  destruct Hb as [[st h1] Hb].
  exact (proj1 (proj2 (FakeDataset_init_no_features scalar_size
                         [("A", task_A_ids)] 3 false [] "A" task_A_ids []
                         (datum_at task_A_ids 0) eq_refl eq_refl eq_refl))
           st h1 Hb).
Defined.

(** C10 as stated fails: the first record has no features and the task
    brings its own identities, yet with a second task without rows the
    merge of the two tasks is empty and the copy of its first entity raises
    [IndexError] before [features] is read. *)
Lemma FakeDataset_init_no_features_counterexample :
  SingleTaskDataset_getitem task_m1_ids 0 = Ok (datum_at task_m1_ids 0) ∧
  d_features (datum_at task_m1_ids 0) = None ∧
  is_Some (d_unique_ids (datum_at task_m1_ids 0)) ∧
  FakeDataset_merge [("A", task_m1_ids); ("B", task_no_rows)]
  = Ok (Merged3 [] [] []) ∧
  FakeDataset_init scalar_size
    [("A", task_m1_ids); ("B", task_no_rows)] 3 false []
  = Err IndexError ∧
  exn_class IndexError ≠ "AttributeError".
Proof.
  split_and!; [vm_compute; reflexivity..|by eexists|vm_compute; reflexivity|
               vm_compute; reflexivity|discriminate].
Qed.

(** * Further properties *)

(** ** SingleTaskDataset: construction and access *)

Section single_task_access.
Context {Label Feature Weight : Type}.
Implicit Types (ds : @SingleTaskDataset Label Feature Weight).

Lemma get_field_Err {A} (field : option (list A)) idx e :
  get_field field idx = Err e → e = IndexError.
Proof.
  unfold get_field. destruct field as [l|]; [|done].
  destruct (py_index l idx) eqn:Hl; simpl; [done|].
  apply py_index_Err in Hl as [_ ->]. by intros [= <-].
Qed.

Lemma bind_Err {A B} (m : result A) (f : A → result B) e :
  m ≫= f = Err e ↔ m = Err e ∨ ∃ a, m = Ok a ∧ f a = Err e.
Proof.
  destruct m as [a|e']; simpl; split.
  - right. eauto.
  - intros [?|(a' & ? & ?)]; congruence.
  - intros [= <-]. by left.
  - intros [?|(a' & ? & ?)]; congruence.
Qed.

Lemma getitem_Err ds idx e :
  SingleTaskDataset_getitem ds idx = Err e → e = IndexError.
Proof.
  unfold SingleTaskDataset_getitem. intros H.
  repeat (apply bind_Err in H as [H|(? & _ & H)];
          [by apply get_field_Err in H|]).
  done.
Qed.

Lemma getitem_out_of_range ds idx :
  SingleTaskDataset_len ds ≤ idx →
  SingleTaskDataset_getitem ds idx = Err IndexError.
Proof.
  intros Hidx.
  destruct (SingleTaskDataset_getitem ds idx) as [d|e] eqn:Hd.
  - exfalso. unfold SingleTaskDataset_getitem in Hd.
    apply bind_Ok in Hd as (f & _ & Hd).
    apply bind_Ok in Hd as (l & Hl & _).
    apply bind_Ok in Hl as (x & Hx%py_index_Ok & _).
    apply lookup_lt_Some in Hx. unfold SingleTaskDataset_len in Hidx. lia.
  - f_equal. by eapply getitem_Err.
Qed.

(** X1: the constructor returns exactly when every sequence passed has the
    length of the labels; the store it returns holds the sequences as
    passed, is validated, and has as many rows as labels. *)
Theorem SingleTaskDataset_init_validated (labels : list Label)
    (features : option (list Feature)) smiles indices
    (weights : option (list Weight)) unique_ids :
  (is_Ok (SingleTaskDataset_init labels features smiles indices weights
            unique_ids) ↔
   ∀ name n,
     provided_length features smiles indices weights unique_ids name
     = Some n → n = length labels) ∧
  (∀ ds,
     SingleTaskDataset_init labels features smiles indices weights unique_ids
     = Ok ds →
     well_formed ds ∧ SingleTaskDataset_len ds = length labels ∧
     st_labels ds = labels ∧ st_features ds = features ∧
     st_smiles ds = smiles ∧ st_indices ds = indices ∧
     st_weights ds = weights ∧ st_unique_ids ds = unique_ids).
Proof.
  split.
  - split.
    + intros [ds Hds]. by apply SingleTaskDataset_init_Ok in Hds as [? _].
    + intros Hlen. eexists. apply SingleTaskDataset_init_Ok. by split.
  - intros ds [Hlen ->]%SingleTaskDataset_init_Ok. by split_and!.
Qed.

(** X2: [__getitem__] raises [IndexError] for every index from [len] on;
    within range of a validated store it returns a dictionary holding the
    label and, for exactly the sequences the store was given, their entry
    at that index. *)
Theorem SingleTaskDataset_getitem_bounds ds idx :
  (SingleTaskDataset_len ds ≤ idx →
   SingleTaskDataset_getitem ds idx = Err IndexError) ∧
  (well_formed ds → idx < SingleTaskDataset_len ds →
   ∃ d, SingleTaskDataset_getitem ds idx = Ok d ∧
     is_Some (d_labels d) ∧ d_labels d = st_labels ds !! idx ∧
     (is_Some (d_features d) ↔ is_Some (st_features ds)) ∧
     (is_Some (d_smiles d) ↔ is_Some (st_smiles ds)) ∧
     (is_Some (d_indices d) ↔ is_Some (st_indices ds)) ∧
     (is_Some (d_weights d) ↔ is_Some (st_weights ds)) ∧
     (is_Some (d_unique_ids d) ↔ is_Some (st_unique_ids ds))).
Proof.
  split; [apply getitem_out_of_range|].
  - intros Hwf Hidx. exists (datum_at ds idx).
    split; [by apply getitem_wf|]. simpl.
    destruct (lookup_lt_is_Some_2 (st_labels ds) idx Hidx) as [l Hl].
    unfold well_formed, provided_length in Hwf.
    assert (∀ {A} (field : option (list A)),
      (∀ l', field = Some l' → length l' = SingleTaskDataset_len ds) →
      is_Some (field ≫= (.!! idx)) ↔ is_Some field) as Hfield.
    { intros A [l'|] Hlen; simpl; [|done].
      split; [by eauto|]. intros _. apply lookup_lt_is_Some_2.
      by rewrite (Hlen l'). }
    split_and!; [by rewrite Hl|done|..]; apply Hfield; intros l' Hl'.
    + apply (Hwf "features"). by rewrite Hl'.
    + apply (Hwf "smiles"). by rewrite Hl'.
    + apply (Hwf "indices"). by rewrite Hl'.
    + apply (Hwf "weights"). by rewrite Hl'.
    + apply (Hwf "unique_ids"). by rewrite Hl'.
Qed.
End single_task_access.

(** ** merge: no row is lost *)

Lemma filter_key_other `{EqDecision K} {B} (k k' : K) (rows : list (K * B)) :
  k' ≠ k →
  filter (λ row, row.1 = k') (filter (λ row, ¬ row.1 = k) rows)
  = filter (λ row, row.1 = k') rows.
Proof.
  intros Hne. induction rows as [|[a x] rows IH]; [done|].
  rewrite !filter_cons; simpl.
  destruct (decide (¬ a = k)) as [Ha|Ha].
  - rewrite filter_cons; simpl. by rewrite IH.
  - apply dec_stable in Ha as ->. by rewrite decide_False.
Qed.

(** Filing rows under the distinct keys and reading the files back in key
    order gives the rows again, in another order. *)
Lemma rows_partition `{EqDecision K} {B} (u : list K) (rows : list (K * B)) :
  NoDup u → (∀ row, row ∈ rows → row.1 ∈ u) →
  mjoin ((λ k, (filter (λ row, row.1 = k) rows).*2) <$> u) ≡ₚ rows.*2.
Proof.
  intros Hu. revert rows. induction Hu as [|k u Hk Hu IH]; intros rows Hin.
  - destruct rows as [|row rows]; [done|].
    exfalso. eapply elem_of_nil, (Hin row). left.
  - csimpl.
    trans ((filter (λ row, row.1 = k) rows
            ++ filter (λ row, ¬ row.1 = k) rows).*2);
      [|by rewrite filter_app_complement].
    rewrite fmap_app. f_equiv.
    rewrite <-(IH (filter (λ row, ¬ row.1 = k) rows)).
    + apply reflexive_eq. f_equal. apply list_fmap_ext.
      intros i k' Hk'. rewrite filter_key_other; [done|].
      intros ->. apply Hk. by eapply list_elem_of_lookup_2.
    + intros row [Hne Hrow]%list_elem_of_filter.
      apply Hin in Hrow. apply elem_of_cons in Hrow as [?|?]; done.
Qed.

Lemma length_remove_dups_le `{EqDecision A} (l : list A) :
  length (remove_dups l) ≤ length l ∧
  (length (remove_dups l) = length l ↔ NoDup l).
Proof.
  induction l as [|x l [IHle IHeq]]; simpl.
  - split; [done|]. split; [constructor|done].
  - destruct (decide_rel elem_of x l) as [Hx|Hx]; simpl.
    + split; [lia|]. split; [lia|]. by intros [? _]%NoDup_cons.
    + split; [lia|]. rewrite NoDup_cons. split.
      * intros [= ?]. split; [done|]. by apply IHeq.
      * intros [_ ?]. f_equal. by apply IHeq.
Qed.

Section merge_rows.
Context {Label Feature Weight : Type}.
Context (smiles_to_unique_mol_id : string → result string).
Implicit Types
  (datasets : list (string * @SingleTaskDataset Label Feature Weight)).
Implicit Types (all : @all_lists Label Feature).

Lemma merged_of_smiles all :
  merged_smiles (merged_of all)
  = variants_of all <$> merged_mol_ids (merged_of all).
Proof.
  apply list_eq. intros j. rewrite list_lookup_fmap.
  destruct (merged_of_lengths all) as (Hlen & _).
  destruct (merged_mol_ids (merged_of all) !! j) as [id|] eqn:Hj; simpl.
  - rewrite merged_of_mol_ids in Hj.
    by destruct (merged_of_entity all j id Hj) as (-> & _).
  - apply lookup_ge_None. rewrite Hlen. by apply lookup_ge_None.
Qed.

(** X3: the SMILES list of an entity is, in row order, the SMILES of the
    rows carrying its identity, so it is never empty; over all entities the
    lists hold every collected SMILES exactly once. *)
Theorem merge_smiles_variants datasets all r :
  _get_all_lists_ids smiles_to_unique_mol_id datasets = Ok all →
  merge smiles_to_unique_mol_id MultitaskDataset_get_inv_of_mol_ids datasets
  = Ok r →
  merged_smiles r = variants_of all <$> merged_mol_ids r ∧
  Forall (λ variants, variants ≠ []) (merged_smiles r) ∧
  mjoin (merged_smiles r) ≡ₚ al_smiles all.
Proof.
  intros Hall (all' & Hall' & _ & ->)%merge_Ok.
  assert (all' = all) as -> by congruence.
  destruct (all_lists_lengths _ _ _ Hall) as (Hs & _ & _).
  rewrite merged_of_smiles, merged_of_mol_ids. split_and!; [done| |].
  - apply Forall_fmap, Forall_forall. intros id Hid; simpl.
    apply (proj1 (elem_of_np_unique String.le _ _)) in Hid.
    apply list_elem_of_lookup in Hid as [i Hi].
    destruct (lookup_lt_is_Some_2 (al_smiles all) i) as [s Hsi].
    { apply lookup_lt_Some in Hi. lia. }
    assert (s ∈ variants_of all id) as Hin
      by (apply rows_of_elem_of; eauto).
    intros Heq. rewrite Heq in Hin. by apply elem_of_nil in Hin.
  - unfold variants_of, rows_of.
    rewrite rows_partition.
    + rewrite snd_zip by lia. done.
    + apply (np_unique_NoDup String.le).
    + intros [id s] Hrow; simpl. apply (elem_of_np_unique String.le).
      apply list_elem_of_lookup in Hrow as [i Hi].
      apply lookup_zip_with_Some in Hi as (? & ? & [= <- <-] & ? & ?).
      by eapply list_elem_of_lookup_2.
Qed.

(** X4: there are at most as many entities as rows, and exactly as many
    when the collected identities are pairwise distinct. *)
Theorem merge_entities_le_rows datasets all r :
  _get_all_lists_ids smiles_to_unique_mol_id datasets = Ok all →
  merge smiles_to_unique_mol_id MultitaskDataset_get_inv_of_mol_ids datasets
  = Ok r →
  length (merged_mol_ids r) ≤ length (al_mol_ids all) ∧
  (length (merged_mol_ids r) = length (al_mol_ids all) ↔
   NoDup (al_mol_ids all)).
Proof.
  intros Hall (all' & Hall' & _ & ->)%merge_Ok.
  assert (all' = all) as -> by congruence.
  rewrite merged_of_mol_ids.
  rewrite (Permutation_length (np_unique_Permutation String.le _)).
  apply length_remove_dups_le.
Qed.
End merge_rows.

(** ** merge: when it returns *)

Section merge_returns.
Context {Label Feature Weight : Type}.
Context (smiles_to_unique_mol_id : string → result string).
Implicit Types (ds : @SingleTaskDataset Label Feature Weight).
Implicit Types
  (datasets : list (string * @SingleTaskDataset Label Feature Weight)).

Lemma mapM_Ok_total {A B} (f : A → result B) l :
  Forall (λ x, is_Ok (f x)) l → is_Ok (mapM f l).
Proof.
  induction 1 as [|x l [y Hy] _ [k Hk]]; simpl; [by eexists|].
  rewrite Hy; simpl. rewrite Hk; simpl. by eexists.
Qed.

Lemma task_columns_collectable task ds :
  collectable smiles_to_unique_mol_id (task, ds) →
  SingleTaskDataset_len ds ≠ 0 →
  is_Ok (task_columns smiles_to_unique_mol_id task ds).
Proof.
  intros [Hwf Hrows] Hlen. destruct (Hrows Hlen) as (sm & Hsm & Hres).
  simpl in Hwf, Hsm, Hres.
  rewrite (task_columns_wf _ task ds sm) by done.
  destruct (st_unique_ids ds) as [ids|] eqn:Hu; simpl; [by eexists|].
  destruct (mapM_Ok_total smiles_to_unique_mol_id sm) as [ids Hids];
    [by apply Hres|].
  unfold smiles_to_unique_mol_ids. rewrite Hids; simpl. by eexists.
Qed.

Lemma get_all_lists_loop_collectable datasets acc :
  Forall (collectable smiles_to_unique_mol_id) datasets →
  is_Ok (get_all_lists_loop smiles_to_unique_mol_id datasets acc).
Proof.
  intros Hall. revert acc.
  induction Hall as [|[task ds] rest Hds _ IH]; intros acc; simpl.
  { by eexists. }
  case_decide as Hlen; [done|].
  destruct (task_columns_collectable task ds Hds Hlen) as [cols ->].
  simpl. apply IH.
Qed.

(** The feature column is empty exactly when no task with rows supplies
    features. *)
Lemma all_lists_no_features datasets all :
  _get_all_lists_ids smiles_to_unique_mol_id datasets = Ok all →
  length (al_features all) = 0 ↔
  Forall (λ item, non_empty item → ¬ supplies_features item) datasets.
Proof.
  intros Hall.
  destruct (all_lists_features _ _ _ Hall) as (Hle & Hfull & Hsome).
  rewrite Forall_forall. split.
  - intros Hz item Hin Hne Hsup.
    assert (0 < length (al_features all)); [|lia].
    apply Hsome, Exists_exists. eauto.
  - intros Hno. destruct (decide (0 < length (al_features all)))
      as [Hpos|]; [|lia].
    apply Hsome, Exists_exists in Hpos as (item & Hin & Hne & Hsup).
    by destruct (Hno item Hin Hne).
Qed.

(** Once the rows are collected, [merge] returns the merged tuple when
    the feature column is empty or complete, and otherwise runs out of
    range. *)
Lemma merge_collected datasets all :
  _get_all_lists_ids smiles_to_unique_mol_id datasets = Ok all →
  merge smiles_to_unique_mol_id MultitaskDataset_get_inv_of_mol_ids datasets
  = if decide (length (al_features all) = 0 ∨
               length (al_features all) = length (al_mol_ids all))
    then Ok (merged_of all) else Err IndexError.
Proof.
  intros Hall. case_decide as Hf.
  - apply merge_Ok. eauto.
  - destruct (merge _ _ datasets) as [r|e] eqn:Hr.
    + apply merge_Ok in Hr as (all' & Hall' & Hf' & _).
      assert (all' = all) as -> by congruence. done.
    + f_equal. by eapply merge_Err.
Qed.

(** X5: over validated stores that carry SMILES the resolver accepts,
    [merge] returns exactly when the tasks with rows all supply features
    or none of them does. *)
Theorem merge_returns_iff datasets :
  Forall (collectable smiles_to_unique_mol_id) datasets →
  is_Ok (merge smiles_to_unique_mol_id MultitaskDataset_get_inv_of_mol_ids
           datasets) ↔
  Forall (λ item, non_empty item → supplies_features item) datasets ∨
  Forall (λ item, non_empty item → ¬ supplies_features item) datasets.
Proof.
  intros Hc.
  destruct (get_all_lists_loop_collectable datasets no_lists Hc)
    as [all Hall].
  destruct (all_lists_features _ _ _ Hall) as (Hle & Hfull & Hsome).
  pose proof (all_lists_no_features _ _ Hall) as Hnone.
  split.
  - intros [r (all' & Hall' & Hf & _)%merge_Ok].
    assert (all' = all) as -> by (unfold _get_all_lists_ids in *; congruence).
    destruct Hf as [Hf|Hf]; [right; by apply Hnone|left; by apply Hfull].
  - intros Hcases. exists (merged_of all). apply merge_Ok.
    exists all. split; [done|]. split; [|done].
    destruct Hcases as [?|?]; [right; by apply Hfull|left; by apply Hnone].
Qed.

Lemma get_all_lists_loop_skip datasets rest acc :
  Forall (λ item, SingleTaskDataset_len item.2 = 0) datasets →
  get_all_lists_loop smiles_to_unique_mol_id (datasets ++ rest) acc
  = get_all_lists_loop smiles_to_unique_mol_id rest acc.
Proof.
  induction 1 as [|[task ds] l Hds _ IH]; simpl; [done|].
  by rewrite decide_True.
Qed.

(** X6: the first task with rows must carry SMILES: when it does not,
    [merge] raises [KeyError] for the key smiles, also when the store
    brings its own identities. *)
Theorem merge_without_smiles datasets task ds rest :
  Forall (λ item, SingleTaskDataset_len item.2 = 0) datasets →
  well_formed ds → SingleTaskDataset_len ds ≠ 0 → st_smiles ds = None →
  merge smiles_to_unique_mol_id MultitaskDataset_get_inv_of_mol_ids
    (datasets ++ (task, ds) :: rest)
  = Err (KeyError "smiles").
Proof.
  intros Hempty Hwf Hlen Hsm. unfold merge, _get_all_lists_ids.
  rewrite get_all_lists_loop_skip by done. simpl.
  rewrite decide_False by done.
  by rewrite task_columns_no_smiles.
Qed.
End merge_returns.

Section resolver.
Context {Label Feature Weight : Type}.
Implicit Types (ds : @SingleTaskDataset Label Feature Weight).
Implicit Types
  (datasets : list (string * @SingleTaskDataset Label Feature Weight)).

Lemma task_columns_resolver (resolve1 resolve2 : string → result string)
    task ds :
  is_Some (st_unique_ids ds) →
  task_columns resolve1 task ds = task_columns resolve2 task ds.
Proof.
  intros Hids. unfold task_columns.
  destruct (column ds "smiles" d_smiles) as [ds_smiles|]; simpl; [|done].
  destruct (column ds "labels" d_labels) as [ds_labels|]; simpl; [|done].
  destruct (SingleTaskDataset_getitem ds 0) as [first|] eqn:Hfirst; simpl;
    [|done].
  apply getitem_Ok in Hfirst as (_ & Hu & _).
  apply Hu in Hids as [u ->]. done.
Qed.

(** X7: identities a store brings are taken as they are: when every task
    with rows has [unique_ids], the merge does not depend on the resolver. *)
Theorem merge_with_unique_ids (resolve1 resolve2 : string → result string)
    datasets :
  Forall (λ item, non_empty item → is_Some (st_unique_ids item.2)) datasets →
  merge resolve1 MultitaskDataset_get_inv_of_mol_ids datasets
  = merge resolve2 MultitaskDataset_get_inv_of_mol_ids datasets.
Proof.
  intros Hids. unfold merge, _get_all_lists_ids.
  assert (∀ acc, get_all_lists_loop resolve1 datasets acc
                 = get_all_lists_loop resolve2 datasets acc) as ->; [|done].
  induction Hids as [|[task ds] rest Hds _ IH]; intros acc; simpl; [done|].
  case_decide as Hlen; [done|].
  rewrite (task_columns_resolver resolve1 resolve2) by by apply Hds.
  destruct (task_columns resolve2 task ds); simpl; [done|done].
Qed.
End resolver.

(** ** set_label_size_dict *)

Section label_sizes.
Context {Label Feature Weight : Type}.
Context (label_size : Label → list nat).
Implicit Types
  (datasets : list (string * @SingleTaskDataset Label Feature Weight)).

Lemma label_size_loop_wf datasets acc :
  Forall (λ item, well_formed item.2) datasets → NoDup datasets.*1 →
  ∃ sizes, label_size_loop label_size datasets acc = Ok sizes ∧
    (∀ task ds, (task, ds) ∈ datasets →
       sizes !! task = match st_labels ds !! 0 with
                       | Some label => Some (label_size label)
                       | None => acc !! task
                       end) ∧
    (∀ task, task ∉ datasets.*1 → sizes !! task = acc !! task).
Proof.
  intros Hwf. revert acc.
  induction Hwf as [|[t d] rest Hd _ IH]; intros acc Hnd.
  { exists acc. split_and!; [done| |done]. by intros ?? ?%elem_of_nil. }
  rewrite fmap_cons in Hnd. apply NoDup_cons in Hnd as [Ht Hnd].
  simpl in Hd, Ht. cbn [label_size_loop]. case_decide as Hlen.
  - destruct (IH acc Hnd) as (sizes & Hs & Hin & Hout).
    exists sizes. split_and!; [done| |].
    + intros task ds [[= -> ->]|Hr]%elem_of_cons; [|by apply Hin].
      rewrite Hout by done.
      unfold SingleTaskDataset_len in Hlen. by destruct (st_labels d).
    + intros task. rewrite fmap_cons. intros [? ?]%not_elem_of_cons.
      by apply Hout.
  - rewrite getitem_wf by first [done|lia]. simpl.
    destruct (st_labels d !! 0) as [label|] eqn:Hl.
    2:{ apply lookup_ge_None in Hl. unfold SingleTaskDataset_len in Hlen.
        lia. }
    simpl.
    destruct (IH (<[t := label_size label]> acc) Hnd)
      as (sizes & Hs & Hin & Hout).
    exists sizes. split_and!; [done| |].
    + intros task ds [[= -> ->]|Hr]%elem_of_cons.
      * rewrite Hl, Hout by done. by rewrite lookup_insert_eq.
      * rewrite (Hin _ _ Hr). destruct (st_labels ds !! 0); [done|].
        apply lookup_insert_ne. intros ->. apply Ht.
        apply list_elem_of_fmap. by exists (task, ds).
    + intros task. rewrite ?fmap_cons. intros [? ?]%not_elem_of_cons.
      rewrite Hout by done. by apply lookup_insert_ne.
Qed.

(** X8: over validated stores under distinct task names, the label sizes
    hold, for every task with rows, the size of the label of its first
    row, and nothing for a task without rows or for any other name. *)
Theorem set_label_size_dict_entries datasets :
  Forall (λ item, well_formed item.2) datasets → NoDup datasets.*1 →
  ∃ sizes, set_label_size_dict label_size datasets = Ok sizes ∧
    (∀ task ds, (task, ds) ∈ datasets →
       sizes !! task = label_size <$> st_labels ds !! 0) ∧
    (∀ task, task ∉ datasets.*1 → sizes !! task = None).
Proof.
  intros Hwf Hnd.
  destruct (label_size_loop_wf datasets ∅ Hwf Hnd)
    as (sizes & Hs & Hin & Hout).
  exists sizes. split_and!; [done| |].
  - intros task ds Hds. rewrite (Hin _ _ Hds).
    by destruct (st_labels ds !! 0).
  - intros task Ht. by rewrite Hout.
Qed.
End label_sizes.

(** ** The constructed collection *)

Lemma Forall_Obj {Feature} (fs : list (@slot Feature)) :
  Forall (λ data, ∃ f, data = Obj f) fs → ∃ feats, fs = Obj <$> feats.
Proof.
  induction 1 as [|data fs [f ->] _ [feats ->]]; [by exists []|].
  by exists (f :: feats).
Qed.

Lemma py_max_Ok (l : list nat) :
  l ≠ [] → ∃ m, py_max l = Ok m ∧ m ∈ l ∧ Forall (λ x, x ≤ m) l.
Proof.
  destruct l as [|x l]; [done|]. intros _. exists (foldr Nat.max x l).
  split; [done|]. induction l as [|y l [IH1 IH2]]; simpl.
  - split; [left|by repeat constructor].
  - apply Forall_cons in IH2 as [Hx Hl]. split.
    + destruct (Nat.max_spec y (foldr Nat.max x l)) as [[_ ->]|[_ ->]].
      * apply elem_of_cons in IH1 as [->|?]; [left|right; by right].
      * right; left.
    + repeat constructor; [lia|lia|].
      eapply Forall_impl; [exact Hl|]. simpl. lia.
Qed.

Lemma py_min_Ok (l : list nat) :
  l ≠ [] → ∃ m, py_min l = Ok m ∧ m ∈ l ∧ Forall (λ x, m ≤ x) l.
Proof.
  destruct l as [|x l]; [done|]. intros _. exists (foldr Nat.min x l).
  split; [done|]. induction l as [|y l [IH1 IH2]]; simpl.
  - split; [left|by repeat constructor].
  - apply Forall_cons in IH2 as [Hx Hl]. split.
    + destruct (Nat.min_spec y (foldr Nat.min x l)) as [[_ ->]|[_ ->]].
      * right; left.
      * apply elem_of_cons in IH1 as [->|?]; [left|right; by right].
    + repeat constructor; [lia|lia|].
      eapply Forall_impl; [exact Hl|]. simpl. lia.
Qed.

Lemma sum_list_bounds (l : list nat) mn mx :
  Forall (λ x, mn ≤ x ≤ mx) l →
  mn * length l ≤ sum_list l ≤ mx * length l.
Proof. induction 1; simpl; lia. Qed.

Section constructed.
Context {Label Feature Weight : Type}.
Context (smiles_to_unique_mol_id : string → result string).
Context (label_size : Label → list nat).
Context (num_nodes num_edges : Feature → nat).
Context {Float : Type} (np_std : list nat → Float).
Context (show_std : Float → string) (show_mean : Q → string).
Implicit Types
  (datasets : list (string * @SingleTaskDataset Label Feature Weight)).
Implicit Types (ds : @SingleTaskDataset Label Feature Weight).
Implicit Types (self : @MultitaskDataset Label Feature).
Implicit Types (all : @all_lists Label Feature).

(** The attributes of a constructed dataset are the lists of the merge. *)
Lemma MultitaskDataset_init_fields datasets save about self :
  MultitaskDataset_init smiles_to_unique_mol_id label_size datasets
    save about = Ok self →
  ∃ all,
    _get_all_lists_ids smiles_to_unique_mol_id datasets = Ok all ∧
    (length (al_features all) = 0 ∨
     length (al_features all) = length (al_mol_ids all)) ∧
    mt_labels self = merged_labels (merged_of all) ∧
    mt_features self = merged_features (merged_of all) ∧
    mt_mol_ids self
    = (if save then Some (merged_mol_ids (merged_of all)) else None) ∧
    mt_smiles self
    = (if save then Some (merged_smiles (merged_of all)) else None).
Proof.
  unfold MultitaskDataset_init. destruct datasets as [|[task ds] rest];
    [done|].
  intros H. apply bind_Ok in H as (with_features & _ & H).
  apply bind_Ok in H as (r & Hr & H).
  apply merge_Ok in Hr as (all & Hall & Hf & ->). exists all.
  split; [done|]. split; [done|].
  apply bind_Ok in H as ([[[ids sm] lb] fs] & Hun & H).
  apply bind_Ok in H as (sizes & _ & [= <-]); simpl.
  destruct with_features, (merged_of all); simplify_eq/=; by destruct save.
Qed.

Lemma merged_of_features_Some all :
  is_Some (merged_features (merged_of all)) ↔ 0 < length (al_features all).
Proof.
  unfold merged_of. destruct (np_unique _ _) as [u inv].
  case_decide; simpl; split; try done; try lia;
    first [by eexists|by intros [? ?]].
Qed.

(** With a complete feature column, every slot of the merged features
    holds a feature object. *)
Lemma merged_of_features_Obj all fs :
  length (al_features all) = length (al_mol_ids all) →
  merged_features (merged_of all) = Some fs →
  ∃ feats, fs = Obj <$> feats.
Proof.
  intros Hlen Hfs. apply Forall_Obj, Forall_lookup. intros j data Hj.
  destruct (merged_of_lengths all) as (_ & _ & Hl).
  pose proof (lookup_lt_Some _ _ _ Hj) as Hlt.
  rewrite (Hl fs Hfs), merged_of_mol_ids in Hlt.
  destruct (lookup_lt_is_Some_2 _ _ Hlt) as [id Hid].
  destruct (merged_of_entity all j id Hid) as (_ & _ & Hslot).
  rewrite (Hslot fs Hfs) in Hj.
  assert (is_Some (last_feature all id)) as [f Hlast].
  { apply last_is_Some.
    assert (id ∈ al_mol_ids all) as [i Hi]%list_elem_of_lookup.
    { apply (elem_of_np_unique String.le).
      by eapply list_elem_of_lookup_2. }
    destruct (lookup_lt_is_Some_2 (al_features all) i) as [f Hfi].
    { rewrite Hlen. by eapply lookup_lt_Some. }
    exists f. apply rows_of_elem_of. eauto. }
  rewrite Hlast in Hj. exists f. by injection Hj as <-.
Qed.

(** The features of a constructed dataset, when it has any, are feature
    objects, one per entity, and there is at least one entity. *)
Lemma MultitaskDataset_init_features datasets save about self fs :
  MultitaskDataset_init smiles_to_unique_mol_id label_size datasets
    save about = Ok self →
  mt_features self = Some fs →
  ∃ feats, fs = Obj <$> feats ∧ length feats = MultitaskDataset_len self ∧
           feats ≠ [].
Proof.
  intros (all & Hall & Hf & Hlb & Hft & _)%MultitaskDataset_init_fields Hfs.
  rewrite Hft in Hfs.
  assert (0 < length (al_features all)) as Hpos.
  { apply merged_of_features_Some. by rewrite Hfs. }
  destruct Hf as [Hf|Hf]; [lia|].
  destruct (merged_of_features_Obj all fs Hf Hfs) as [feats ->].
  exists feats. split; [done|].
  destruct (merged_of_lengths all) as (_ & Hl & Hl').
  unfold MultitaskDataset_len. rewrite Hlb, Hl, <-(Hl' _ Hfs).
  rewrite length_fmap. split; [done|].
  assert (0 < length feats); [|by destruct feats; simpl in *; [lia|]].
  rewrite <-(length_fmap Obj), (Hl' _ Hfs), merged_of_mol_ids.
  assert (∃ id, id ∈ al_mol_ids all) as [id Hid].
  { destruct (al_mol_ids all) as [|id ids]; simpl in *; [lia|].
    exists id. left. }
  apply (elem_of_np_unique String.le) in Hid.
  destruct (np_unique String.le (al_mol_ids all)).1; simpl; [|lia].
  by apply elem_of_nil in Hid.
Qed.

Lemma first_with_features task (ds : @SingleTaskDataset Label Feature Weight) :
  well_formed ds →
  (if decide (0 < SingleTaskDataset_len ds) then
     first ← SingleTaskDataset_getitem ds 0;
     Ok (bool_decide (is_Some (d_features first)))
   else Ok false)
  = Ok (bool_decide (non_empty (task, ds) ∧ supplies_features (task, ds))).
Proof.
  intros Hwf. unfold non_empty, supplies_features; simpl.
  case_decide as Hlen.
  - rewrite getitem_wf by done. simpl. f_equal. apply bool_decide_ext.
    split.
    + intros [f Hf]. split; [lia|]. by destruct (st_features ds).
    + intros [_ [fs Hfs]]. rewrite Hfs. simpl. apply lookup_lt_is_Some_2.
      assert (length fs = SingleTaskDataset_len ds) as ->; [|done].
      apply (Hwf "features"). by rewrite Hfs.
  - f_equal. symmetry. apply bool_decide_eq_false. intros [? _]. lia.
Qed.

(** The constructor on tasks that can be collected: the first task picks
    the unpacking, the merge has to return the matching tuple. *)
Lemma MultitaskDataset_init_collectable task ds rest save about :
  Forall (collectable smiles_to_unique_mol_id) ((task, ds) :: rest) →
  ∃ all sizes,
    _get_all_lists_ids smiles_to_unique_mol_id ((task, ds) :: rest) = Ok all ∧
    MultitaskDataset_init smiles_to_unique_mol_id label_size
      ((task, ds) :: rest) save about
    = (r ← (if decide (length (al_features all) = 0 ∨
                       length (al_features all) = length (al_mol_ids all))
            then Ok (merged_of all) else Err IndexError);
       '(mol_ids, smiles, labels, features) ←
         (if bool_decide (non_empty (task, ds) ∧
                          supplies_features (task, ds))
          then unpack4 r else unpack3 r);
       Ok {| mt_about := about;
             mt_mol_ids := if save then Some mol_ids else None;
             mt_smiles := if save then Some smiles else None;
             mt_labels := labels;
             mt_features := features;
             mt_labels_size := sizes |}).
Proof.
  intros Hc.
  destruct (get_all_lists_loop_collectable _ _ no_lists Hc) as [all Hall].
  destruct (label_size_loop_Ok smiles_to_unique_mol_id label_size
              _ _ _ ∅ Hall) as [sizes Hsizes].
  exists all, sizes. split; [done|].
  apply Forall_cons in Hc as [[Hwf _] _]. simpl in Hwf.
  unfold MultitaskDataset_init.
  rewrite (first_with_features task ds Hwf). simpl.
  rewrite (merge_collected _ _ _ Hall).
  case_decide; [|done]. simpl.
  destruct (bool_decide _), (merged_of all); simpl; try done;
    unfold set_label_size_dict; by rewrite Hsizes.
Qed.

(** X9: the constructor returns, on tasks that can be collected, exactly
    when the first task has rows and every task with rows supplies
    features, or no task with rows supplies features. *)
Theorem MultitaskDataset_init_returns_iff task ds rest save about :
  Forall (collectable smiles_to_unique_mol_id) ((task, ds) :: rest) →
  is_Ok (MultitaskDataset_init smiles_to_unique_mol_id label_size
           ((task, ds) :: rest) save about) ↔
  (non_empty (task, ds) ∧
   Forall (λ item, non_empty item → supplies_features item)
     ((task, ds) :: rest)) ∨
  Forall (λ item, non_empty item → ¬ supplies_features item)
    ((task, ds) :: rest).
Proof.
  intros Hc.
  destruct (MultitaskDataset_init_collectable task ds rest save about Hc)
    as (all & sizes & Hall & ->).
  destruct (all_lists_features _ _ _ Hall) as (Hle & Hfull & Hsome).
  pose proof (all_lists_no_features _ _ _ Hall) as Hnone.
  pose proof (merged_of_features_Some all) as Hm.
  assert (non_empty (task, ds) ∧ supplies_features (task, ds) →
          0 < length (al_features all)) as Hfirst.
  { intros ?. apply Hsome. by left. }
  assert (Forall (λ item, non_empty item → supplies_features item)
            ((task, ds) :: rest) → non_empty (task, ds) →
          non_empty (task, ds) ∧ supplies_features (task, ds)) as Hhead.
  { intros [? _]%Forall_cons ?. auto. }
  case_decide as Hf; simpl.
  - case_bool_decide as Hb; destruct (merged_of all) eqn:Hr; simpl in *.
    + split; [by intros [? [=]]|]. intros [[_ ?]|?].
      * destruct Hm as [_ [? [=]]]. auto.
      * destruct Hm as [_ [? [=]]]. auto.
    + split; [|by eexists]. intros _. left. split; [by destruct Hb|].
      apply Hfull. destruct Hf as [Hf|]; [|done].
      specialize (Hfirst Hb). lia.
    + split; [|by eexists]. intros _. right. apply Hnone.
      destruct (decide (0 < length (al_features all))) as [Hpos|]; [|lia].
      apply Hm in Hpos as [? [=]].
    + split; [by intros [? [=]]|]. intros [[? ?]|?].
      * destruct Hb. auto.
      * assert (0 < length (al_features all)) by (apply Hm; by eexists).
        assert (length (al_features all) = 0) by by apply Hnone.
        lia.
  - split; [by intros [? [=]]|]. intros [[_ ?]|?]; destruct Hf.
    + right. by apply Hfull.
    + left. by apply Hnone.
Qed.

(** X10: a first task without rows makes the constructor unpack three
    values; when the tasks with rows supply features, [merge] returns
    four and the constructor raises [ValueError]. *)
Theorem MultitaskDataset_init_first_without_rows task ds rest save about :
  Forall (collectable smiles_to_unique_mol_id) ((task, ds) :: rest) →
  SingleTaskDataset_len ds = 0 →
  Forall (λ item, non_empty item → supplies_features item) rest →
  Exists non_empty rest →
  MultitaskDataset_init smiles_to_unique_mol_id label_size
    ((task, ds) :: rest) save about
  = Err (ValueError "too many values to unpack (expected 3)").
Proof.
  intros Hc Hlen Hsup Hex.
  destruct (MultitaskDataset_init_collectable task ds rest save about Hc)
    as (all & sizes & Hall & ->).
  destruct (all_lists_features _ _ _ Hall) as (Hle & Hfull & Hsome).
  assert (length (al_features all) = length (al_mol_ids all)) as Hf.
  { apply Hfull. constructor; [|done]. by intros []. }
  assert (0 < length (al_features all)) as Hpos.
  { apply Hsome. right. apply Exists_exists in Hex as (item & Hin & Hne).
    apply Exists_exists. exists item. split; [done|]. split; [done|].
    rewrite Forall_forall in Hsup. by apply Hsup. }
  rewrite decide_True by by right. simpl.
  rewrite bool_decide_eq_false_2 by (by intros [[] _]).
  apply merged_of_features_Some in Hpos as [fs Hfs].
  by destruct (merged_of all).
Qed.

(** X11: reading a constructed dataset.  Past the end every read raises
    [IndexError]; within range a dataset built without features raises
    [AttributeError], and one built with features returns the labels and
    the feature object of the entity, with its identity and SMILES
    exactly when they were saved. *)
Theorem MultitaskDataset_getitem_constructed datasets save about self idx :
  MultitaskDataset_init smiles_to_unique_mol_id label_size datasets
    save about = Ok self →
  (MultitaskDataset_len self ≤ idx →
   MultitaskDataset_getitem self idx = Err IndexError) ∧
  (idx < MultitaskDataset_len self →
   match mt_features self with
   | None =>
       MultitaskDataset_getitem self idx = Err (AttributeError "features")
   | Some fs =>
       ∃ d labels f,
         MultitaskDataset_getitem self idx = Ok d ∧
         mt_labels self !! idx = Some labels ∧ md_labels d = Some labels ∧
         fs !! idx = Some (Obj f) ∧ md_features d = Some (Obj f) ∧
         (is_Some (md_mol_ids d) ↔ save = true) ∧
         (is_Some (md_smiles d) ↔ save = true)
   end).
Proof.
  intros Hinit.
  pose proof (λ fs, MultitaskDataset_init_features _ _ _ _ fs Hinit)
    as Hfeats.
  apply MultitaskDataset_init_fields in Hinit
    as (all & _ & _ & Hlb & Hft & Hids & Hsm).
  destruct (merged_of_lengths all) as (Hl1 & Hl2 & _).
  unfold MultitaskDataset_getitem, MultitaskDataset_len, get_features.
  rewrite Hids, Hsm. rewrite Hlb in *. split.
  - intros Hidx. unfold get_attr, py_index.
    destruct save; simpl; by rewrite !lookup_ge_None_2 by lia.
  - intros Hidx. unfold get_attr, py_index.
    destruct (lookup_lt_is_Some_2 (merged_mol_ids (merged_of all)) idx)
      as [id Hid]; [lia|].
    destruct (lookup_lt_is_Some_2 (merged_smiles (merged_of all)) idx)
      as [sm Hsmi]; [lia|].
    destruct (lookup_lt_is_Some_2 (merged_labels (merged_of all)) idx)
      as [labels Hlabels]; [lia|].
    destruct (mt_features self) as [fs|] eqn:Hfs.
    + destruct (Hfeats fs eq_refl) as (feats & -> & Hlen & _).
      unfold MultitaskDataset_len in Hlen. rewrite Hlb in Hlen.
      destruct (lookup_lt_is_Some_2 feats idx) as [f Hf]; [lia|].
      assert ((Obj <$> feats) !! idx = Some (Obj f)) as Hslot
        by by rewrite list_lookup_fmap, Hf.
      exists {| md_mol_ids := if save then Some id else None;
                md_smiles := if save then Some sm else None;
                md_labels := Some labels;
                md_features := Some (Obj f) |}, labels, f.
      destruct save; simpl; rewrite ?Hid, ?Hsmi, Hlabels; simpl;
        rewrite Hslot; simpl; split_and!; try done;
        try (by split; [intros _|eexists]);
        by split; [intros [? [=]]|].
    + destruct save; simpl; by rewrite ?Hid, ?Hsmi, Hlabels.
Qed.

Lemma per_graph_Obj name (attr : Feature → nat) self feats :
  mt_features self = Some (Obj <$> feats) →
  per_graph name attr self = Ok (attr <$> feats).
Proof.
  unfold per_graph, get_features. intros ->. simpl.
  apply mapM_Ok_Forall2, Forall2_fmap, Forall_Forall2_diag, Forall_true.
  done.
Qed.

(** The statistics of one count over feature objects. *)
Lemma statistics_of_count name (attr : Feature → nat) self feats :
  mt_features self = Some (Obj <$> feats) → feats ≠ [] →
  length feats = MultitaskDataset_len self →
  ∃ mx mn,
    per_graph name attr self ≫= py_max = Ok mx ∧
    per_graph name attr self ≫= py_min = Ok mn ∧
    Forall (λ f, mn ≤ attr f ≤ mx) feats ∧
    mn * num_graphs_total self ≤ sum_list (attr <$> feats)
      ≤ mx * num_graphs_total self ∧
    (total ← sum_list <$> per_graph name attr self;
     py_truediv total (num_graphs_total self))
    = Ok (Qmake (Z.of_nat (sum_list (attr <$> feats)))
            (Pos.of_nat (num_graphs_total self))).
Proof.
  intros Hfs Hne Hlen. rewrite (per_graph_Obj _ _ _ _ Hfs). simpl.
  assert (attr <$> feats ≠ []) as Hcounts by by destruct feats.
  destruct (py_max_Ok _ Hcounts) as (mx & -> & _ & Hmx).
  destruct (py_min_Ok _ Hcounts) as (mn & -> & _ & Hmn).
  exists mx, mn. split; [done|]. split; [done|].
  assert (Forall (λ f, mn ≤ attr f ≤ mx) feats) as Hb.
  { apply Forall_forall. intros f Hf.
    assert (attr f ∈ attr <$> feats) as Hin.
    { apply list_elem_of_fmap. eauto. }
    pose proof (proj1 (Forall_forall _ _) Hmx _ Hin).
    pose proof (proj1 (Forall_forall _ _) Hmn _ Hin). simpl in *. lia. }
  split; [done|]. unfold num_graphs_total. rewrite <-Hlen. split.
  - rewrite <-(length_fmap attr). apply sum_list_bounds.
    by apply Forall_fmap.
  - unfold py_truediv. rewrite decide_False; [done|].
    destruct feats; simpl in *; [done|lia].
Qed.

(** X12: on a constructed dataset that holds features every structural
    statistic returns: the totals are the sums of the counts over the
    feature objects, every count lies between the minimum and the maximum,
    the total between their multiples by the number of graphs, and the
    mean is the total over the number of graphs. *)
Theorem statistics_on_features datasets save about self :
  MultitaskDataset_init smiles_to_unique_mol_id label_size datasets
    save about = Ok self →
  is_Some (mt_features self) →
  ∃ feats,
    mt_features self = Some (Obj <$> feats) ∧
    length feats = num_graphs_total self ∧ 0 < num_graphs_total self ∧
    (∃ mx mn,
       num_nodes_total num_nodes self
       = Ok (sum_list (num_nodes <$> feats)) ∧
       max_num_nodes_per_graph num_nodes self = Ok mx ∧
       min_num_nodes_per_graph num_nodes self = Ok mn ∧
       std_num_nodes_per_graph num_nodes np_std self
       = Ok (np_std (num_nodes <$> feats)) ∧
       mean_num_nodes_per_graph num_nodes self
       = Ok (Qmake (Z.of_nat (sum_list (num_nodes <$> feats)))
               (Pos.of_nat (num_graphs_total self))) ∧
       Forall (λ f, mn ≤ num_nodes f ≤ mx) feats ∧
       mn * num_graphs_total self ≤ sum_list (num_nodes <$> feats)
         ≤ mx * num_graphs_total self) ∧
    (∃ mx mn,
       num_edges_total num_edges self
       = Ok (sum_list (num_edges <$> feats)) ∧
       max_num_edges_per_graph num_edges self = Ok mx ∧
       min_num_edges_per_graph num_edges self = Ok mn ∧
       std_num_edges_per_graph num_edges np_std self
       = Ok (np_std (num_edges <$> feats)) ∧
       mean_num_edges_per_graph num_edges self
       = Ok (Qmake (Z.of_nat (sum_list (num_edges <$> feats)))
               (Pos.of_nat (num_graphs_total self))) ∧
       Forall (λ f, mn ≤ num_edges f ≤ mx) feats ∧
       mn * num_graphs_total self ≤ sum_list (num_edges <$> feats)
         ≤ mx * num_graphs_total self).
Proof.
  intros Hinit [fs Hfs].
  destruct (MultitaskDataset_init_features _ _ _ _ _ Hinit Hfs)
    as (feats & -> & Hlen & Hne).
  exists feats. split; [done|]. split; [done|]. split.
  { unfold num_graphs_total. rewrite <-Hlen. destruct feats; simpl;
      [done|lia]. }
  split.
  - destruct (statistics_of_count "num_nodes" num_nodes self feats
                Hfs Hne Hlen) as (mx & mn & Hmx & Hmn & Hb & Ht & Hmean).
    exists mx, mn.
    unfold num_nodes_total, max_num_nodes_per_graph,
      min_num_nodes_per_graph, std_num_nodes_per_graph,
      mean_num_nodes_per_graph, num_nodes_total.
    split_and!; try done; try lia;
      by rewrite (per_graph_Obj _ _ _ _ Hfs).
  - destruct (statistics_of_count "num_edges" num_edges self feats
                Hfs Hne Hlen) as (mx & mn & Hmx & Hmn & Hb & Ht & Hmean).
    exists mx, mn.
    unfold num_edges_total, max_num_edges_per_graph,
      min_num_edges_per_graph, std_num_edges_per_graph,
      mean_num_edges_per_graph, num_edges_total.
    split_and!; try done; try lia;
      by rewrite (per_graph_Obj _ _ _ _ Hfs).
Qed.

(** X13: the summary of a constructed dataset is available exactly when
    the dataset has no entity or holds features; without entities it is
    the short summary, which reads no feature. *)
Theorem MultitaskDataset_repr_constructed class_name datasets save about
    self :
  MultitaskDataset_init smiles_to_unique_mol_id label_size datasets
    save about = Ok self →
  (is_Ok (MultitaskDataset_repr num_nodes num_edges np_std show_std
            show_mean class_name self) ↔
   MultitaskDataset_len self = 0 ∨ is_Some (mt_features self)) ∧
  (MultitaskDataset_len self ≠ 0 → mt_features self = None →
   MultitaskDataset_repr num_nodes num_edges np_std show_std show_mean
     class_name self = Err (AttributeError "features")) ∧
  (MultitaskDataset_len self = 0 →
   MultitaskDataset_repr num_nodes num_edges np_std show_std show_mean
     class_name self
   = Ok (repr_rule +:+ class_name +:+ nl
         +:+ repr_line "about" about
         +:+ repr_line "num_graphs_total" "0"
         +:+ repr_rule)).
Proof.
  intros Hinit.
  pose proof (λ fs, MultitaskDataset_init_features _ _ _ _ fs Hinit)
    as Hfeats.
  assert (mt_about self = about) as Habout.
  { revert Hinit. unfold MultitaskDataset_init.
    destruct datasets as [|[task ds] rest]; [done|]. intros H.
    apply bind_Ok in H as (? & _ & H). apply bind_Ok in H as (? & _ & H).
    apply bind_Ok in H as ([[[? ?] ?] ?] & _ & H).
    by apply bind_Ok in H as (? & _ & [= <-]). }
  assert (mt_features self = None →
          MultitaskDataset_len self ≠ 0 →
          MultitaskDataset_repr num_nodes num_edges np_std show_std
            show_mean class_name self = Err (AttributeError "features"))
    as Hnone.
  { intros Hfs Hlen. unfold MultitaskDataset_repr.
    rewrite decide_False by done.
    unfold num_nodes_total, per_graph, get_features. by rewrite Hfs. }
  split_and!.
  - split.
    + intros [s Hs]. destruct (decide (MultitaskDataset_len self = 0));
        [by left|right].
      destruct (mt_features self) eqn:Hfs; [by eexists|].
      by rewrite Hnone in Hs.
    + intros [Hlen|[fs Hfs]]; unfold MultitaskDataset_repr.
      { rewrite decide_True by done. by eexists. }
      case_decide as Hlen; [by eexists|].
      destruct (Hfeats fs Hfs) as (feats & -> & Hl & Hne).
      destruct (statistics_of_count "num_nodes" num_nodes self feats
                  Hfs Hne Hl) as (mx & mn & Hmx & Hmn & _ & _ & Hmean).
      destruct (statistics_of_count "num_edges" num_edges self feats
                  Hfs Hne Hl) as (mx' & mn' & Hmx' & Hmn' & _ & _ & Hmean').
      unfold max_num_nodes_per_graph, min_num_nodes_per_graph,
        mean_num_nodes_per_graph, max_num_edges_per_graph,
        min_num_edges_per_graph, mean_num_edges_per_graph,
        num_nodes_total, num_edges_total, std_num_nodes_per_graph,
        std_num_edges_per_graph.
      rewrite Hmx, Hmn, Hmean, Hmx', Hmn', Hmean'.
      rewrite !(per_graph_Obj _ _ _ _ Hfs). simpl. by eexists.
  - intros Hlen Hfs. by apply Hnone.
  - intros Hlen. unfold MultitaskDataset_repr. rewrite decide_True by done.
    unfold num_graphs_total. by rewrite Hlen, Habout.
Qed.
End constructed.

(** ** The cache of [__getitem__] *)

Section cache.
Context `{EqDecision K} {V : Type} (maxsize : nat) (f : K → result V).

(** A call through a cache that holds results of [f] under distinct keys,
    at most [maxsize] of them, returns what [f] returns and leaves such a
    cache. *)
Lemma lru_call_coherent key cache :
  Forall (λ entry, f entry.1 = Ok entry.2) cache → NoDup cache.*1 →
  length cache ≤ maxsize →
  (lru_call maxsize f key cache).1 = f key ∧
  Forall (λ entry, f entry.1 = Ok entry.2) (lru_call maxsize f key cache).2 ∧
  NoDup (lru_call maxsize f key cache).2.*1 ∧
  length (lru_call maxsize f key cache).2 ≤ maxsize ∧
  (∀ entry, entry ∈ (lru_call maxsize f key cache).2 →
     entry ∈ cache ∨ entry.1 = key).
Proof.
  intros Hco Hnd Hlen. unfold lru_call.
  destruct (list_find _ cache) as [[i entry]|] eqn:Hfind; cbn [fst snd].
  - apply list_find_Some in Hfind as (Hi & Hkey & _).
    pose proof (delete_Permutation _ _ _ Hi) as Hperm.
    split_and!.
    + rewrite <-Hkey. symmetry.
      by eapply (Forall_lookup_1 _ _ _ _ Hco).
    + by rewrite <-Hperm.
    + by rewrite <-Hperm.
    + by rewrite <-Hperm.
    + intros e He. left. by rewrite Hperm.
  - apply list_find_None in Hfind.
    destruct (f key) as [v|e] eqn:Hv; cbn [fst snd].
    + split_and!; [done| | | |].
      * apply Forall_take. by constructor.
      * rewrite fmap_take.
        eapply sublist_NoDup; [|apply sublist_take]. rewrite fmap_cons.
        constructor; [|done]. simpl. intros Hin.
        apply list_elem_of_fmap in Hin as (e & He1 & He2).
        rewrite Forall_forall in Hfind. by apply (Hfind e).
      * rewrite length_take. lia.
      * intros e He%subseteq_take.
        apply elem_of_cons in He as [->|?]; [by right|by left].
    + split_and!; try done. intros entry He. by left.
Qed.
End cache.

Section cached_reads.
Context {Label Feature : Type}.
Implicit Types (self : @MultitaskDataset Label Feature).

Lemma MultitaskDataset_getitems_coherent self idxs cache :
  Forall (λ entry, MultitaskDataset_getitem self entry.1 = Ok entry.2)
    cache →
  NoDup cache.*1 → length cache ≤ 16 →
  (MultitaskDataset_getitems self idxs cache).1
  = MultitaskDataset_getitem self <$> idxs ∧
  Forall (λ entry, MultitaskDataset_getitem self entry.1 = Ok entry.2)
    (MultitaskDataset_getitems self idxs cache).2 ∧
  NoDup (MultitaskDataset_getitems self idxs cache).2.*1 ∧
  length (MultitaskDataset_getitems self idxs cache).2 ≤ 16 ∧
  (∀ entry, entry ∈ (MultitaskDataset_getitems self idxs cache).2 →
     entry ∈ cache ∨ entry.1 ∈ idxs).
Proof.
  revert cache. induction idxs as [|idx idxs IH]; intros cache Hco Hnd Hlen.
  { simpl. split_and!; try done. intros e He. by left. }
  cbn [MultitaskDataset_getitems]. unfold MultitaskDataset_getitem_cached.
  destruct (lru_call_coherent 16 (MultitaskDataset_getitem self) idx cache
              Hco Hnd Hlen) as (Hr & Hco' & Hnd' & Hlen' & Hin').
  destruct (lru_call 16 _ idx cache) as [r cache'] eqn:Hcall.
  simpl in Hr, Hco', Hnd', Hlen', Hin'.
  destruct (IH cache' Hco' Hnd' Hlen')
    as (Hrs & Hco'' & Hnd'' & Hlen'' & Hin'').
  destruct (MultitaskDataset_getitems self idxs cache') as [rs cache''].
  simpl in *. split_and!; try done.
  - by rewrite Hr, Hrs.
  - intros e He. destruct (Hin'' e He) as [Hc|?]; [|right; by right].
    destruct (Hin' e Hc) as [?|Hk]; [by left|right; rewrite Hk; left].
Qed.

(** X14: the cache of [__getitem__] does not show in the results: reads
    of one dataset through the cache, from an empty cache, return what
    the uncached body returns for each index, failures included; the
    cache holds at most 16 entries, under distinct indices that were
    read, each with the datum the body returns for it. *)
Theorem MultitaskDataset_getitem_cache_transparent self idxs :
  (MultitaskDataset_getitems self idxs []).1
  = MultitaskDataset_getitem self <$> idxs ∧
  length (MultitaskDataset_getitems self idxs []).2 ≤ 16 ∧
  NoDup (MultitaskDataset_getitems self idxs []).2.*1 ∧
  ∀ idx d, (idx, d) ∈ (MultitaskDataset_getitems self idxs []).2 →
    idx ∈ idxs ∧ MultitaskDataset_getitem self idx = Ok d.
Proof.
  destruct (MultitaskDataset_getitems_coherent self idxs [])
    as (Hrs & Hco & Hnd & Hlen & Hin); [by constructor|constructor|simpl; lia|].
  split_and!; try done. intros idx d He. split.
  - by destruct (Hin _ He) as [?%elem_of_nil|?].
  - rewrite Forall_forall in Hco. by apply (Hco _ He).
Qed.
End cached_reads.

(** ** FakeDataset: positions, sharing and bounds *)

Lemma Sorted_le_seq k n : Sorted (≤) (seq k n).
Proof.
  revert k. induction n as [|n IH]; intros k; simpl; [constructor|].
  constructor; [apply IH|]. destruct n; simpl; constructor. lia.
Qed.

Lemma length_join_replicate {A} D (l : list A) :
  length (mjoin (replicate D l)) = D * length l.
Proof.
  induction D as [|D IH]; csimpl; [done|]. rewrite length_app, IH. lia.
Qed.

Lemma lookup_join_replicate {A} D (l : list A) i :
  i < D * length l → mjoin (replicate D l) !! i = l !! (i `mod` length l).
Proof.
  revert i. induction D as [|D IH]; intros i Hi; csimpl in *; [lia|].
  destruct (decide (i < length l)) as [Hlt|Hge].
  - rewrite lookup_app_l by done. by rewrite Nat.mod_small.
  - rewrite lookup_app_r by lia. rewrite IH by lia. f_equal.
    replace i with ((i - length l) + 1 * length l) at 2 by lia.
    by rewrite Nat.Div0.mod_add.
Qed.

Lemma elem_of_join_replicate {A} D (l : list A) x :
  D ≠ 0 → x ∈ mjoin (replicate D l) ↔ x ∈ l.
Proof.
  intros HD. rewrite list_elem_of_join. split.
  - by intros (l' & Hx & [-> _]%elem_of_replicate).
  - intros Hx. exists l. split; [done|]. by apply elem_of_replicate.
Qed.

Lemma np_unique_positions D n :
  D ≠ 0 → (np_unique (≤) (mjoin (replicate D (seq 0 n)))).1 = seq 0 n.
Proof.
  intros HD. trans ((np_unique (≤) (seq 0 n)).1).
  { apply (np_unique_ext (≤)). intros x. by apply elem_of_join_replicate. }
  apply (Sorted_unique (≤)).
  - apply (np_unique_Sorted (≤)).
  - apply Sorted_le_seq.
  - rewrite (np_unique_Permutation (≤)).
    apply NoDup_Permutation; [apply NoDup_remove_dups|apply NoDup_seq|].
    intros x. apply elem_of_remove_dups.
Qed.

(** X15: the inverse of a [FakeDataset] ignores the identities: with no
    task it divides by zero; otherwise the entities are the positions
    below rows // tasks, and row [i] is filed under [i] modulo that
    number, for as many rows as tasks times that number. *)
Theorem FakeDataset_get_inv_of_mol_ids_positions (num_datasets : nat)
    (all_mol_ids : list string) :
  (num_datasets = 0 →
   FakeDataset_get_inv_of_mol_ids num_datasets all_mol_ids
   = Err ZeroDivisionError) ∧
  (num_datasets ≠ 0 →
   ∃ inv,
     FakeDataset_get_inv_of_mol_ids num_datasets all_mol_ids
     = Ok (seq 0 (length all_mol_ids `div` num_datasets), inv) ∧
     length inv = num_datasets * (length all_mol_ids `div` num_datasets) ∧
     length inv ≤ length all_mol_ids ∧
     ∀ i, i < length inv →
       inv !! i = Some (i `mod` (length all_mol_ids `div` num_datasets))).
Proof.
  unfold FakeDataset_get_inv_of_mol_ids. split; intros HD.
  { by rewrite decide_True. }
  rewrite decide_False by done. cbv zeta.
  set (n := length all_mol_ids `div` num_datasets).
  eexists. split_and!.
  - f_equal. f_equal. by apply np_unique_positions.
  - by rewrite length_join_replicate, length_seq.
  - rewrite length_join_replicate, length_seq.
    apply Nat.Div0.mul_div_le.
  - intros i. rewrite length_join_replicate, length_seq. intros Hi.
    rewrite lookup_join_replicate by by rewrite length_seq.
    rewrite length_seq. apply lookup_seq_lt.
    apply Nat.mod_upper_bound. lia.
Qed.

Section fake_access.
Context {Label Feature Weight : Type}.
Context (label_size : Label → list nat).
Implicit Types (ds : @SingleTaskDataset Label Feature Weight).
Implicit Types
  (datasets : list (string * @SingleTaskDataset Label Feature Weight)).
Implicit Types (h : list (@object Label Feature)) (o : @object Label Feature).

(** X16: [FakeDataset] reads the first record of the first task without
    looking at its length: an empty mapping stops the constructor at
    [next(iter(datasets))], a first task without rows at
    [datasets[task][0]]. *)
Theorem FakeDataset_init_first_task :
  (∀ num_mols same h,
     FakeDataset_init (Weight:=Weight) label_size [] num_mols same h
     = Err StopIteration) ∧
  (∀ task ds rest num_mols same h,
     SingleTaskDataset_len ds = 0 →
     FakeDataset_init label_size ((task, ds) :: rest) num_mols same h
     = Err IndexError).
Proof.
  split; [done|]. intros task ds rest num_mols same h Hlen.
  unfold FakeDataset_init, FakeDataset_init_branches.
  rewrite getitem_out_of_range by lia. done.
Qed.

(** With [indexing_same_elem] the constructor keeps the objects of the
    merge: the labels, then the features. *)
Lemma FakeDataset_init_branches_shared datasets n h ids sm lb fs h' :
  FakeDataset_init_branches datasets n true h
  = Ok ((ids, sm, lb, Some fs), h') →
  ∃ (labels : list (gmap string Label)) (features : list (@slot Feature)),
    lb = seq (length h) (length labels) ∧
    fs = seq (length h + length labels) (length features) ∧
    h' = h ++ (LabelsObj <$> labels) ++ (FeatureObj <$> features).
Proof.
  unfold FakeDataset_init_branches.
  destruct datasets as [|[task ds] rest]; [done|]. intros H.
  apply bind_Ok in H as (first & _ & H).
  destruct (d_features first).
  - apply bind_Ok in H as (r & _ & H).
    apply bind_Ok in H as ([[[ids0 sm0] lb0] fs0] & Hun & H).
    destruct r as [|ids1 sm1 lb1 fs1]; [done|].
    injection Hun as <- <- <- <-.
    unfold adopt in H. simpl in H. injection H as <- <- <- <- <-.
    exists lb1, fs1.
    by rewrite !length_fmap, length_app, length_fmap, <-app_assoc.
  - apply bind_Ok in H as (r & _ & H).
    apply bind_Ok in H as ([[[ids0 sm0] lb0] fs0] & Hun & H).
    unfold adopt in H. simpl in H. by injection H.
Qed.

(** X17: with [indexing_same_elem] every index, also one past the length,
    gives the record of index 0: the objects of the first entity, which
    the constructor did not copy.  Changing one of them through one read
    shows in every other read. *)
Theorem FakeDataset_same_elem datasets num_mols h self h' :
  FakeDataset_init label_size datasets num_mols true h = Ok (self, h') →
  FakeDataset_len self = num_mols ∧
  length h' = length h + length (fk_labels self) + length (fk_features self) ∧
  ∀ i di, FakeDataset_getitem self i = Ok di →
    (∀ j, FakeDataset_getitem self j = Ok di) ∧
    is_Some (record_value h' di).1 ∧ is_Some (record_value h' di).2 ∧
    ∀ o,
      record_value (mutate (fd_labels di) o h') di
      = (Some o, (record_value h' di).2) ∧
      record_value (mutate (fd_features di) o h') di
      = ((record_value h' di).1, Some o).
Proof.
  intros (Hn & Hsame & ids & sm & Hb)%FakeDataset_init_Ok.
  apply FakeDataset_init_branches_shared in Hb
    as (labels & features & Hlb & Hfs & ->).
  split; [done|]. split.
  { rewrite Hlb, Hfs, !length_app, !length_fmap, !length_seq. lia. }
  intros i di. unfold FakeDataset_getitem. rewrite Hsame, Hlb, Hfs.
  intros H. apply bind_Ok in H as (l & [-> Hl]%py_index_Ok%lookup_seq & H).
  apply bind_Ok in H as (f & [-> Hf]%py_index_Ok%lookup_seq & [= <-]).
  split; [|split_and!].
  - intros j. unfold py_index. by rewrite !lookup_seq_lt by done.
  - unfold record_value; simpl. apply lookup_lt_is_Some_2.
    rewrite !length_app, !length_fmap. lia.
  - unfold record_value; simpl. apply lookup_lt_is_Some_2.
    rewrite !length_app, !length_fmap. lia.
  - intros o. unfold record_value, mutate; simpl.
    rewrite !list_lookup_insert_eq
      by (rewrite !length_app, !length_fmap; lia).
    by rewrite !list_lookup_insert_ne by lia.
Qed.

(** X18: without [indexing_same_elem] the constructor adds [num_mols]
    label dictionaries and [num_mols] feature objects, and a read returns
    exactly for the indices below [num_mols]; past them it raises
    [IndexError]. *)
Theorem FakeDataset_copies_bounds datasets num_mols h self h' idx :
  FakeDataset_init label_size datasets num_mols false h = Ok (self, h') →
  length h' = length h + num_mols + num_mols ∧
  (idx < num_mols →
   ∃ d, FakeDataset_getitem self idx = Ok d ∧
        is_Some (record_value h' d).1 ∧ is_Some (record_value h' d).2) ∧
  (num_mols ≤ idx → FakeDataset_getitem self idx = Err IndexError).
Proof.
  intros (Hn & Hsame & ids & sm & Hb)%FakeDataset_init_Ok.
  apply FakeDataset_init_branches_copies in Hb
    as (Hlb & Hfs & os1 & os2 & o1 & o2 & -> & Hn1 & Hn2 & _).
  unfold FakeDataset_getitem, py_index. rewrite Hsame, Hlb, Hfs.
  split_and!.
  - rewrite !length_app. lia.
  - intros Hidx. rewrite !lookup_seq_lt by done. simpl.
    eexists. split; [done|]. unfold record_value; simpl.
    split; apply lookup_lt_is_Some_2; rewrite !length_app; lia.
  - intros Hidx. by rewrite !lookup_seq_ge by done.
Qed.
End fake_access.

(** ** FakeDataset: identities cannot be resolved *)

Section fake_identities.
Context {Label Feature Weight : Type}.
Context (label_size : Label → list nat).
Implicit Types (ds : @SingleTaskDataset Label Feature Weight).
Implicit Types (h : list (@object Label Feature)).

(** X23: a [FakeDataset] has no attribute [n_jobs], so it cannot resolve
    identities: over a first task with rows and SMILES that brings no
    [unique_ids], the merge, and with it the constructor, raises
    [AttributeError] whatever the other tasks and the other arguments. *)
Theorem FakeDataset_init_without_unique_ids task ds rest sm num_mols same h :
  well_formed ds → 0 < SingleTaskDataset_len ds →
  st_smiles ds = Some sm → st_unique_ids ds = None →
  FakeDataset_merge ((task, ds) :: rest) = Err (AttributeError "n_jobs") ∧
  FakeDataset_init label_size ((task, ds) :: rest) num_mols same h
  = Err (AttributeError "n_jobs").
Proof.
  intros Hwf Hlen Hsm Hids.
  assert (FakeDataset_merge ((task, ds) :: rest)
          = Err (AttributeError "n_jobs")) as Hmerge.
  { unfold FakeDataset_merge, merge, _get_all_lists_ids.
    cbn [get_all_lists_loop]. rewrite decide_False by lia.
    rewrite (task_columns_wf _ task ds sm) by (done || lia).
    rewrite Hids. unfold smiles_to_unique_mol_ids.
    destruct sm as [|s sm]; [|done].
    pose proof (Hwf "smiles" 0) as H0. unfold provided_length in H0.
    rewrite Hsm in H0. specialize (H0 eq_refl). lia. }
  split; [done|].
  unfold FakeDataset_init, FakeDataset_init_branches.
  rewrite getitem_wf by done. cbn [mbind result_bind]. rewrite Hmerge.
  by destruct (d_features (datum_at ds 0)).
Qed.
End fake_identities.

(** ** FakeDataset: the merge files rows by position *)

Lemma rows_of_app `{EqDecision K} {B} (key : K) (k1 k2 : list K)
    (x1 x2 : list B) :
  length k1 = length x1 →
  rows_of key (k1 ++ k2) (x1 ++ x2) = rows_of key k1 x1 ++ rows_of key k2 x2.
Proof.
  intros Hlen. unfold rows_of.
  by rewrite zip_with_app, filter_app, fmap_app.
Qed.

Lemma rows_of_seq {B} j k (xs : list B) :
  rows_of j (seq k (length xs)) xs
  = if decide (k ≤ j) then option_list (xs !! (j - k)) else [].
Proof.
  revert k. induction xs as [|x xs IH]; intros k.
  { simpl. by case_decide. }
  unfold rows_of in *. simpl. rewrite filter_cons; simpl.
  specialize (IH (S k)).
  destruct (decide (k = j)) as [->|Hne].
  - rewrite fmap_cons, IH, decide_False, decide_True by lia.
    by rewrite Nat.sub_diag.
  - rewrite IH. destruct (decide (S k ≤ j)) as [Hle|Hle].
    + rewrite decide_True by lia.
      by replace (j - k) with (S (j - S k)) by lia.
    + by rewrite decide_False by lia.
Qed.

(** Over blocks of [n] rows filed under the positions 0 to [n - 1], block
    after block, position [j] holds the [j]-th row of every block. *)
Lemma rows_of_blocks {B} j n (bs : list (list B)) :
  Forall (λ b, length b = n) bs →
  rows_of j (mjoin (replicate (length bs) (seq 0 n))) (mjoin bs)
  = omap (.!! j) bs.
Proof.
  induction 1 as [|b bs Hb _ IH]; csimpl; [done|].
  rewrite rows_of_app by (by rewrite length_seq). rewrite IH.
  rewrite <-Hb, rows_of_seq, decide_True, Nat.sub_0_r by lia.
  by destruct (b !! j).
Qed.

Lemma zip_join_fmap {X A B} (f : X → list A) (g : X → list B) (l : list X) :
  Forall (λ x, length (f x) = length (g x)) l →
  zip (mjoin (f <$> l)) (mjoin (g <$> l))
  = mjoin ((λ x, zip (f x) (g x)) <$> l).
Proof.
  induction 1 as [|x l Hx _ IH]; csimpl; [done|].
  rewrite zip_with_app by done. by rewrite IH.
Qed.

Lemma length_join_fmap {X A} (f : X → list A) n (l : list X) :
  Forall (λ x, length (f x) = n) l →
  length (mjoin (f <$> l)) = length l * n.
Proof.
  induction 1 as [|x l Hx _ IH]; csimpl; [done|].
  rewrite length_app, IH, Hx. lia.
Qed.

Lemma foldl_insert_NoDup {V} (rows : list (string * V))
    (d : gmap string V) :
  NoDup rows.*1 →
  (∀ t v, (t, v) ∈ rows →
     foldl (λ d row, <[row.1 := row.2]> d) d rows !! t = Some v) ∧
  (∀ t, t ∉ rows.*1 →
     foldl (λ d row, <[row.1 := row.2]> d) d rows !! t = d !! t).
Proof.
  revert d. induction rows as [|[t' v'] rows IH]; intros d Hnd.
  { split; [by intros ?? ?%elem_of_nil|done]. }
  rewrite fmap_cons in Hnd. apply NoDup_cons in Hnd as [Hnotin Hnd].
  destruct (IH (<[t' := v']> d) Hnd) as [IH1 IH2]. split.
  - intros t v [[= -> ->]|Hin]%elem_of_cons; [|by apply IH1].
    simpl. rewrite IH2 by done. by rewrite lookup_insert_eq.
  - intros t. rewrite fmap_cons. intros [Hne Hnot]%not_elem_of_cons.
    simpl. rewrite IH2 by done. by rewrite lookup_insert_ne.
Qed.

Lemma filter_Forall_id {A} (P : A → Prop) `{∀ x, Decision (P x)}
    (l : list A) :
  Forall P l → filter P l = l.
Proof.
  induction 1 as [|x l Hx _ IH]; [done|].
  by rewrite filter_cons, decide_True, IH.
Qed.

Section fake_merge.
Context {Label Feature Weight : Type}.
Context (smiles_to_unique_mol_id : string → result string).
Implicit Types (ds : @SingleTaskDataset Label Feature Weight).
Implicit Types
  (datasets : list (string * @SingleTaskDataset Label Feature Weight)).
Implicit Types (all cols : @all_lists Label Feature).

Lemma column_labels ds xs :
  column ds "labels" d_labels = Ok xs → xs = st_labels ds.
Proof.
  intros H. pose proof (column_length _ _ _ _ H) as Hlen.
  apply mapM_Ok_Forall2 in H. apply list_eq. intros i.
  destruct (decide (i < SingleTaskDataset_len ds)) as [Hi|Hi].
  - destruct (Forall2_lookup_l _ _ _ i i H) as (x & Hx & Hd);
      [by apply lookup_seq|].
    apply bind_Ok in Hd as (d & Hd & Hget).
    apply getitem_Ok in Hd as (_ & _ & _ & Hl).
    rewrite Hx, <-Hl. destruct (d_labels d); by simplify_eq/=.
  - unfold SingleTaskDataset_len in *.
    by rewrite !lookup_ge_None_2 by lia.
Qed.

Lemma task_columns_labels task ds cols :
  task_columns smiles_to_unique_mol_id task ds = Ok cols →
  al_labels cols = st_labels ds ∧
  al_tasks cols = replicate (SingleTaskDataset_len ds) task.
Proof.
  intros H.
  pose proof (task_columns_Ok _ _ _ _ H) as (_ & _ & _ & Ht & _).
  split; [|done]. unfold task_columns in H.
  apply bind_Ok in H as (sm & _ & H).
  apply bind_Ok in H as (lb & Hlb & H). apply column_labels in Hlb as ->.
  inv_Ok H. by injection H as <-.
Qed.

(** What [merge] computes for the labels, whatever the inverse. *)
Lemma merge_labels_Ok {I} (get_inv : list string → result (list I * list nat))
    datasets r :
  merge smiles_to_unique_mol_id get_inv datasets = Ok r →
  ∃ all inv xs,
    _get_all_lists_ids smiles_to_unique_mol_id datasets = Ok all ∧
    get_inv (al_mol_ids all) = Ok (merged_mol_ids r, inv) ∧
    mapM (λ all_idx, task ← py_index (al_tasks all) all_idx;
                     label ← py_index (al_labels all) all_idx;
                     Ok (task, label)) (seq 0 (length inv)) = Ok xs ∧
    merged_labels r
    = apply_rows (λ row (d : gmap string Label), <[row.1 := row.2]> d)
        (zip inv xs) (replicate (length (merged_mol_ids r)) ∅).
Proof.
  unfold merge. intros H. apply bind_Ok in H as (all & Hall & H).
  apply bind_Ok in H as ([ids inv] & Hinv & H).
  apply bind_Ok in H as (smiles & _ & H).
  apply bind_Ok in H as (labels & Hlb & H).
  apply scatter_Ok in Hlb as (xs & Hxs & _ & ->).
  exists all, inv, xs. split; [done|].
  case_decide.
  - apply bind_Ok in H as (fs & _ & [= <-]). by simpl.
  - injection H as <-. by simpl.
Qed.

Lemma FakeDataset_get_inv_Ok D (ids : list string) mol_ids inv :
  FakeDataset_get_inv_of_mol_ids D ids = Ok (mol_ids, inv) →
  D ≠ 0 ∧ mol_ids = seq 0 (length ids `div` D) ∧
  inv = mjoin (replicate D (seq 0 (length ids `div` D))).
Proof.
  unfold FakeDataset_get_inv_of_mol_ids. case_decide as HD; [done|].
  cbv zeta. intros [= <- <-]. split; [done|]. split; [|done].
  by apply np_unique_positions.
Qed.

(** The [j]-th rows of tasks of [n] rows each: one per task, under the
    task's name. *)
Lemma position_rows datasets (colss : list all_lists) n j :
  Forall2 (λ item cols, task_columns smiles_to_unique_mol_id item.1 item.2
                        = Ok cols) datasets colss →
  Forall (λ item, SingleTaskDataset_len item.2 = n) datasets → j < n →
  ∃ rows,
    omap (.!! j) ((λ cols, zip (al_tasks cols) (al_labels cols)) <$> colss)
    = rows ∧
    rows.*1 = datasets.*1 ∧
    ∀ task ds, (task, ds) ∈ datasets →
      ∃ label, st_labels ds !! j = Some label ∧ (task, label) ∈ rows.
Proof.
  intros Hc Hn Hj. eexists. split; [done|].
  induction Hc as [|[t d] cols items colss Hcols _ IH]; [|csimpl].
  { split; [done|]. by intros ?? ?%elem_of_nil. }
  apply Forall_cons in Hn as [Hd Hn]. simpl in Hd, Hcols.
  destruct (IH Hn) as [IH1 IH2].
  apply task_columns_labels in Hcols as [-> ->]. rewrite Hd.
  destruct (lookup_lt_is_Some_2 (st_labels d) j) as [label Hl].
  { unfold SingleTaskDataset_len in Hd. lia. }
  assert (zip (replicate n t) (st_labels d) !! j = Some (t, label)) as ->.
  { apply lookup_zip_with_Some. exists t, label.
    split; [done|]. split; [by apply lookup_replicate_2|done]. }
  csimpl. split; [by rewrite IH1|].
  intros task ds [[= -> ->]|Hin]%elem_of_cons.
  - exists label. split; [done|left].
  - destruct (IH2 _ _ Hin) as (l & ? & ?). exists l. split; [done|by right].
Qed.

End fake_merge.

(** X19: the merge of a [FakeDataset] goes by position, not by identity:
    over tasks of [n] rows each, under distinct names, it returns the
    entities 0 to [n - 1], and entity [j] holds, for every task, the label
    of the [j]-th row of that task. *)
Theorem FakeDataset_merge_by_position {Label Feature Weight : Type}
    (datasets : list (string * @SingleTaskDataset Label Feature Weight))
    n r :
  NoDup datasets.*1 →
  Forall (λ item, SingleTaskDataset_len item.2 = n) datasets →
  FakeDataset_merge datasets = Ok r →
  merged_mol_ids r = seq 0 n ∧ length (merged_labels r) = n ∧
  ∀ j d, merged_labels r !! j = Some d →
    (∀ task ds, (task, ds) ∈ datasets → d !! task = st_labels ds !! j) ∧
    (∀ task, task ∉ datasets.*1 → d !! task = None).
Proof.
  unfold FakeDataset_merge.
  intros Hnd Hn (all & inv & xs & Hall & Hinv & Hxs & Hlb)%merge_labels_Ok.
  apply FakeDataset_get_inv_Ok in Hinv as (HD & Hids & ->).
  apply get_all_lists_ids_Ok in Hall as (colss & Hc & ->).
  unfold collected in Hc. rewrite foldl_extend in *. simpl in *.
  assert (Forall (λ cols : @all_lists Label Feature,
            length (al_tasks cols) = n ∧ length (al_labels cols) = n ∧
            length (al_mol_ids cols) = n) colss) as Hcols.
  { apply Forall_forall. intros cols Hin.
    apply list_elem_of_lookup in Hin as [i Hi].
    destruct (Forall2_lookup_r _ _ _ _ _ Hc Hi) as ([t d] & Hitem & Htc).
    apply list_elem_of_lookup_2, list_elem_of_filter in Hitem as [_ Hitem].
    rewrite Forall_forall in Hn. specialize (Hn _ Hitem). simpl in *.
    apply task_columns_Ok in Htc as (_ & Hl & Hm & Ht & _).
    rewrite Ht, length_replicate. split_and!; congruence. }
  assert (length (mjoin (al_mol_ids <$> colss)) `div` length datasets = n)
    as Hdiv.
  { rewrite (length_join_fmap _ n)
      by (eapply Forall_impl; [exact Hcols|]; simpl; intros ? (? & ? & ?);
          congruence).
    destruct (decide (n = 0)) as [->|Hn0].
    { rewrite Nat.mul_0_r. by apply Nat.Div0.div_0_l. }
    rewrite filter_Forall_id in Hc.
    2:{ eapply Forall_impl; [exact Hn|]. intros item. simpl. lia. }
    rewrite <-(Forall2_length _ _ _ Hc), Nat.mul_comm.
    by apply Nat.div_mul. }
  rewrite Hdiv in *. split; [done|]. rewrite Hlb, Hids.
  rewrite length_apply_rows, length_replicate, length_seq.
  split; [done|]. intros j d Hj.
  assert (j < n) as Hjn.
  { apply lookup_lt_Some in Hj.
    by rewrite length_apply_rows, length_replicate in Hj. }
  rewrite filter_Forall_id in Hc.
  2:{ eapply Forall_impl; [exact Hn|]. intros item. simpl. lia. }
  pose proof (Forall2_length _ _ _ Hc) as Hlen.
  apply mapM_py_index2 in Hxs.
  2,3: rewrite length_join_replicate, length_seq,
         (length_join_fmap _ n)
         by (eapply Forall_impl; [exact Hcols|]; simpl; intros ? (? & ? & ?);
          congruence); lia.
  subst xs. rewrite apply_rows_replicate in Hj by done.
  injection Hj as <-.
  rewrite zip_join_fmap
    by (eapply Forall_impl; [exact Hcols|]; simpl; intros ? (? & ? & ?);
          congruence).
  rewrite Hlen.
  rewrite <-(length_fmap (λ cols, zip (al_tasks cols) (al_labels cols))).
  rewrite (rows_of_blocks j n).
  2:{ apply Forall_fmap. eapply Forall_impl; [exact Hcols|].
      intros cols (Ht & Hl & _). simpl.
      rewrite length_zip_with. lia. }
  destruct (position_rows _ datasets colss n j Hc Hn Hjn)
    as (rows & -> & Hkeys & Hrows).
  destruct (foldl_insert_NoDup rows ∅) as [Hin Hout].
  { by rewrite Hkeys. }
  split.
  - intros task ds Hds. destruct (Hrows _ _ Hds) as (label & -> & Hrow).
    by apply Hin.
  - intros task Ht. rewrite Hout; [done|]. by rewrite Hkeys.
Qed.

(** ** _get_all_lists_ids: the collected columns *)

Section collect_columns.
Context {Label Feature Weight : Type}.
Context (smiles_to_unique_mol_id : string → result string).
Implicit Types (ds : @SingleTaskDataset Label Feature Weight).
Implicit Types
  (datasets : list (string * @SingleTaskDataset Label Feature Weight)).
Implicit Types (all acc : @all_lists Label Feature).

Lemma well_formed_no_rows ds :
  well_formed ds → SingleTaskDataset_len ds = 0 →
  st_labels ds = [] ∧ default [] (st_smiles ds) = [] ∧
  default [] (st_features ds) = [] ∧ default [] (st_unique_ids ds) = [].
Proof.
  intros Hwf Hlen. unfold well_formed, provided_length in Hwf.
  split_and!.
  - unfold SingleTaskDataset_len in Hlen. by destruct (st_labels ds).
  - destruct (st_smiles ds) as [l|] eqn:Hl; [|done]. simpl.
    apply nil_length_inv. rewrite <-Hlen. apply (Hwf "smiles").
    by rewrite ?Hl.
  - destruct (st_features ds) as [l|] eqn:Hl; [|done]. simpl.
    apply nil_length_inv. rewrite <-Hlen. apply (Hwf "features").
    by rewrite ?Hl.
  - destruct (st_unique_ids ds) as [l|] eqn:Hl; [|done]. simpl.
    apply nil_length_inv. rewrite <-Hlen. apply (Hwf "unique_ids").
    by rewrite ?Hl.
Qed.

Lemma get_all_lists_loop_columns datasets acc :
  Forall (collectable smiles_to_unique_mol_id) datasets →
  ∃ idss,
    Forall2 (λ item ids,
               match st_unique_ids item.2 with
               | Some unique_ids => ids = unique_ids
               | None =>
                   smiles_to_unique_mol_ids smiles_to_unique_mol_id
                     (default [] (st_smiles item.2)) = Ok ids
               end) datasets idss ∧
    get_all_lists_loop smiles_to_unique_mol_id datasets acc
    = Ok (extend acc
            {| al_smiles :=
                 mjoin ((λ item, default [] (st_smiles item.2)) <$> datasets);
               al_features :=
                 mjoin ((λ item, default [] (st_features item.2))
                          <$> datasets);
               al_labels := mjoin ((λ item, st_labels item.2) <$> datasets);
               al_mol_ids := mjoin idss;
               al_tasks :=
                 mjoin ((λ item, replicate (SingleTaskDataset_len item.2)
                                   item.1) <$> datasets) |}).
Proof.
  intros Hc. revert acc.
  induction Hc as [|[task ds] rest [Hwf Hrows] _ IH]; intros acc.
  { exists []. split; [constructor|]. unfold extend; simpl.
    rewrite !app_nil_r. by destruct acc. }
  simpl in Hwf, Hrows. cbn [get_all_lists_loop]. case_decide as Hlen.
  - destruct (IH acc) as (idss & Hids & ->).
    destruct (well_formed_no_rows ds Hwf Hlen) as (Hl & Hs & Hf & Hu).
    exists ([] :: idss). split.
    + constructor; [|done]. simpl.
      destruct (st_unique_ids ds); [done|]. by rewrite Hs.
    + csimpl. by rewrite Hl, Hs, Hf, Hlen.
  - destruct (Hrows Hlen) as (sm & Hsm & Hres).
    rewrite (task_columns_wf _ task ds sm) by done.
    assert (∃ ids,
      match st_unique_ids ds with
      | Some unique_ids => ids = unique_ids
      | None => smiles_to_unique_mol_ids smiles_to_unique_mol_id sm = Ok ids
      end ∧
      match st_unique_ids ds with
      | Some unique_ids => Ok unique_ids
      | None => smiles_to_unique_mol_ids smiles_to_unique_mol_id sm
      end = Ok ids) as (ids & Hids & ->).
    { destruct (st_unique_ids ds) as [u|]; [by exists u|].
      destruct (mapM_Ok_total smiles_to_unique_mol_id sm (Hres eq_refl))
        as [ids Hids].
      by exists ids. }
    simpl. edestruct IH as (idss & Hidss & ->).
    exists (ids :: idss). split.
    + constructor; [|done]. simpl. by rewrite Hsm.
    + csimpl. rewrite Hsm. unfold extend; simpl.
      by rewrite <-!app_assoc.
Qed.

(** X20: over tasks that can be collected, the five collected columns are
    the columns of the tasks one after the other, in iteration order: the
    SMILES, labels and features as the stores hold them, every task name
    once per row, and the identities a store brings or else those the
    resolver gives for its SMILES. *)
Theorem get_all_lists_ids_columns datasets :
  Forall (collectable smiles_to_unique_mol_id) datasets →
  ∃ all idss,
    _get_all_lists_ids smiles_to_unique_mol_id datasets = Ok all ∧
    Forall2 (λ item ids,
               match st_unique_ids item.2 with
               | Some unique_ids => ids = unique_ids
               | None =>
                   smiles_to_unique_mol_ids smiles_to_unique_mol_id
                     (default [] (st_smiles item.2)) = Ok ids
               end) datasets idss ∧
    al_smiles all
    = mjoin ((λ item, default [] (st_smiles item.2)) <$> datasets) ∧
    al_features all
    = mjoin ((λ item, default [] (st_features item.2)) <$> datasets) ∧
    al_labels all = mjoin ((λ item, st_labels item.2) <$> datasets) ∧
    al_mol_ids all = mjoin idss ∧
    al_tasks all
    = mjoin ((λ item, replicate (SingleTaskDataset_len item.2) item.1)
               <$> datasets).
Proof.
  intros Hc.
  destruct (get_all_lists_loop_columns datasets no_lists Hc)
    as (idss & Hids & Hall).
  eexists _, idss. split; [exact Hall|]. by split_and!.
Qed.
End collect_columns.

(** ** Reading an entity, and the order of the tasks *)

Lemma mjoin_single_key {X A} (key : X → string) (g : X → list A)
    (t : string) (l : list X) :
  NoDup (key <$> l) → (∀ x, key x ≠ t → g x = []) →
  (∀ x, x ∈ l → key x = t → mjoin (g <$> l) = g x) ∧
  ((∀ x, x ∈ l → key x ≠ t) → mjoin (g <$> l) = []).
Proof.
  intros Hnd Hg. induction l as [|y l IH]; csimpl.
  { split; [by intros ? ?%elem_of_nil|done]. }
  rewrite fmap_cons in Hnd. apply NoDup_cons in Hnd as [Hy Hnd].
  destruct (IH Hnd) as [IH1 IH2]. split.
  - intros x [->|Hx]%elem_of_cons Hkey.
    + rewrite IH2, app_nil_r; [done|]. intros x Hx Hkx. apply Hy.
      apply list_elem_of_fmap. exists x. split; [congruence|done].
    + rewrite (IH1 x Hx Hkey), Hg; [done|]. intros Hky. apply Hy.
      apply list_elem_of_fmap. exists x. split; [congruence|done].
  - intros Hne. rewrite Hg, IH2; [done| |].
    + intros x Hx. apply Hne. by right.
    + apply Hne. left.
Qed.

Lemma NoDup_fmap_filter {X K} (key : X → K) (P : X → Prop)
    `{∀ x, Decision (P x)} (l : list X) :
  NoDup (key <$> l) → NoDup (key <$> filter P l).
Proof.
  intros Hnd. eapply sublist_NoDup; [exact Hnd|].
  apply fmap_sublist, sublist_filter.
Qed.

Lemma rows_of_task `{EqDecision K} {B} (id : K) (t name : string)
    (ids : list K) (xs : list B) :
  rows_of (id, t) (zip ids (replicate (length ids) name)) xs
  = if decide (name = t) then rows_of id ids xs else [].
Proof.
  unfold rows_of. revert xs.
  induction ids as [|a ids IH]; intros [|x xs]; simpl;
    try (by case_decide).
  rewrite !filter_cons. simpl. specialize (IH xs).
  destruct (decide ((a, name) = (id, t))) as [[= -> ->]|Hne].
  - rewrite !decide_True in * by done. csimpl. by rewrite IH.
  - rewrite IH. destruct (decide (name = t)) as [->|]; [|done].
    by rewrite decide_False by congruence.
Qed.

Section entity.
Context {Label Feature Weight : Type}.
Context (smiles_to_unique_mol_id : string → result string).
Context (label_size : Label → list nat).
Implicit Types (ds : @SingleTaskDataset Label Feature Weight).
Implicit Types
  (datasets : list (string * @SingleTaskDataset Label Feature Weight)).
Implicit Types (self : @MultitaskDataset Label Feature).
Implicit Types (all cols : @all_lists Label Feature).

(** X21: reading index [idx] of a dataset constructed with its identities
    saved gives the entity of the [idx]-th identity in ascending order:
    that identity, the SMILES of its rows, under each task the label of
    the last row of the task with that identity, and the feature of its
    last row. *)
Theorem MultitaskDataset_getitem_entity datasets about self all idx d :
  MultitaskDataset_init smiles_to_unique_mol_id label_size datasets
    true about = Ok self →
  _get_all_lists_ids smiles_to_unique_mol_id datasets = Ok all →
  MultitaskDataset_getitem self idx = Ok d →
  ∃ id labels f,
    (np_unique String.le (al_mol_ids all)).1 !! idx = Some id ∧
    md_mol_ids d = Some id ∧
    md_smiles d = Some (variants_of all id) ∧
    md_labels d = Some labels ∧ (∀ t, labels !! t = last_label all id t) ∧
    md_features d = Some (Obj f) ∧ last_feature all id = Some f.
Proof.
  intros Hinit Hall Hd.
  apply MultitaskDataset_init_fields in Hinit
    as (all' & Hall' & Hf & Hlb & Hft & Hids & Hsm).
  assert (all' = all) as -> by congruence.
  unfold MultitaskDataset_getitem, get_features in Hd.
  rewrite Hids, Hsm, Hlb, Hft in Hd. unfold get_attr in Hd.
  apply bind_Ok in Hd as (oid & Hoid & Hd).
  apply bind_Ok in Hoid as (id & Hid%py_index_Ok & [= <-]).
  apply bind_Ok in Hd as (osm & Hosm & Hd).
  apply bind_Ok in Hosm as (sm & Hsmi%py_index_Ok & [= <-]).
  apply bind_Ok in Hd as (olb & Holb & Hd).
  apply bind_Ok in Holb as (labels & Hlabels%py_index_Ok & [= <-]).
  apply bind_Ok in Hd as (ofs & Hofs & [= <-]).
  apply bind_Ok in Hofs as (fs & Hfs & Hofs).
  apply bind_Ok in Hofs as (data & Hdata%py_index_Ok & [= <-]).
  assert (merged_features (merged_of all) = Some fs) as Hfs'.
  { revert Hfs. destruct (merged_features (merged_of all));
      [by intros [= ->]|done]. }
  clear Hfs. simpl.
  rewrite merged_of_mol_ids in Hid.
  destruct (merged_of_entity all idx id Hid)
    as (Hsm' & (labels' & Hlabels' & Hlast) & Hslot).
  assert (labels' = labels) as -> by congruence.
  assert (sm = variants_of all id) as -> by congruence.
  specialize (Hslot fs Hfs').
  assert (0 < length (al_features all)) as Hpos.
  { apply merged_of_features_Some. by rewrite Hfs'. }
  destruct Hf as [Hf|Hf]; [lia|].
  destruct (merged_of_features_Obj all fs Hf Hfs') as [feats ->].
  assert (data = from_option Obj MinusOne (last_feature all id)) as ->
    by congruence.
  apply list_lookup_fmap_Some in Hslot as (f & Hf' & Hobj).
  destruct (last_feature all id) as [f'|] eqn:Hlf; simplify_eq/=.
  eexists id, labels, _. by split_and!.
Qed.

(** The rows of task [t] with identity [id], read off the tasks. *)
Lemma last_label_rows datasets all id t :
  _get_all_lists_ids smiles_to_unique_mol_id datasets = Ok all →
  rows_of (id, t) (zip (al_mol_ids all) (al_tasks all)) (al_labels all)
  = mjoin ((λ item,
             match task_columns smiles_to_unique_mol_id item.1 item.2 with
             | Ok cols =>
                 if decide (item.1 = t)
                 then rows_of id (al_mol_ids cols) (al_labels cols)
                 else []
             | Err _ => []
             end)
           <$> filter (λ item, SingleTaskDataset_len item.2 ≠ 0) datasets).
Proof.
  intros (colss & Hc & ->)%get_all_lists_ids_Ok.
  rewrite foldl_extend; simpl. unfold collected in Hc.
  induction Hc as [|[name ds] cols items colss Hcols _ IH]; [done|].
  csimpl in *. rewrite Hcols.
  apply task_columns_Ok in Hcols as (_ & Hl & Hm & Ht & _).
  rewrite Ht, <-Hm.
  rewrite zip_with_app by by rewrite length_replicate.
  rewrite rows_of_app.
  2:{ rewrite length_zip_with, length_replicate. lia. }
  by rewrite IH, rows_of_task.
Qed.

(** X22: under distinct task names the identities and the label maps of
    the merged collection do not depend on the order in which the tasks
    are iterated. *)
Theorem merge_labels_order_independent datasets1 datasets2 r1 r2 :
  datasets1 ≡ₚ datasets2 → NoDup datasets1.*1 →
  merge smiles_to_unique_mol_id MultitaskDataset_get_inv_of_mol_ids
    datasets1 = Ok r1 →
  merge smiles_to_unique_mol_id MultitaskDataset_get_inv_of_mol_ids
    datasets2 = Ok r2 →
  merged_mol_ids r1 = merged_mol_ids r2 ∧
  merged_labels r1 = merged_labels r2.
Proof.
  intros Hperm Hnd1 (all1 & Hall1 & _ & ->)%merge_Ok
    (all2 & Hall2 & _ & ->)%merge_Ok.
  assert (NoDup datasets2.*1) as Hnd2 by by rewrite <-Hperm.
  destruct (all_lists_Permutation _ _ _ _ Hperm Hall1)
    as (all2' & Hall2' & Hids & _).
  assert (all2' = all2) as -> by congruence.
  assert (merged_mol_ids (merged_of all1) = merged_mol_ids (merged_of all2))
    as Hsame.
  { rewrite !merged_of_mol_ids. apply (np_unique_ext String.le).
    intros id. by rewrite Hids. }
  split; [done|].
  destruct (merged_of_lengths all1) as (_ & Hl1 & _).
  destruct (merged_of_lengths all2) as (_ & Hl2 & _).
  apply list_eq. intros j.
  destruct (merged_mol_ids (merged_of all1) !! j) as [id|] eqn:Hj.
  2:{ apply lookup_ge_None in Hj.
      rewrite !lookup_ge_None_2; [done|rewrite Hl2, <-Hsame|rewrite Hl1];
        done. }
  pose proof Hj as Hj'. rewrite Hsame in Hj'.
  rewrite merged_of_mol_ids in Hj, Hj'.
  destruct (merged_of_entity all1 j id Hj) as (_ & (d1 & -> & Hd1) & _).
  destruct (merged_of_entity all2 j id Hj') as (_ & (d2 & -> & Hd2) & _).
  f_equal. apply map_eq. intros t. rewrite Hd1, Hd2.
  unfold last_label. f_equal.
  rewrite (last_label_rows _ _ _ _ Hall1), (last_label_rows _ _ _ _ Hall2).
  set (g := λ item : string * SingleTaskDataset, _).
  set (l1 := filter _ datasets1). set (l2 := filter _ datasets2).
  assert (l1 ≡ₚ l2) as Hl by by apply filter_Permutation.
  assert (∀ x, x.1 ≠ t → g x = []) as Hg.
  { intros x Hx. unfold g. destruct (task_columns _ _ _); [|done].
    by rewrite decide_False. }
  destruct (mjoin_single_key fst g t l1) as [Hin1 Hout1];
    [by apply NoDup_fmap_filter|done|].
  destruct (mjoin_single_key fst g t l2) as [Hin2 Hout2];
    [by apply NoDup_fmap_filter|done|].
  destruct (decide (t ∈ l1.*1)) as [Ht|Ht].
  - apply list_elem_of_fmap in Ht as (x & -> & Hx).
    rewrite (Hin1 x Hx eq_refl), (Hin2 x); [done| |done].
    by rewrite <-Hl.
  - rewrite Hout1, Hout2; [done| |].
    + intros x Hx Hk. apply Ht. apply list_elem_of_fmap. exists x.
      split; [done|]. by rewrite Hl.
    + intros x Hx Hk. apply Ht. apply list_elem_of_fmap. by exists x.
Qed.
End entity.

(** * Instances of the further properties *)

Lemma store_well_formed labels features smiles :
  (∀ l, features = Some l → length l = length labels) →
  (∀ l, smiles = Some l → length l = length labels) →
  well_formed (store labels features smiles).
Proof.
  intros Hf Hs name n. unfold provided_length, store; simpl.
  repeat case_decide; try done; [destruct features|destruct smiles];
    intros [= <-]; eauto.
Qed.

Lemma store_collectable task labels features sm :
  (∀ l, features = Some l → length l = length labels) →
  length sm = length labels →
  collectable resolve_id (task, store labels features (Some sm)).
Proof.
  intros Hf Hs. split.
  - apply store_well_formed; [done|]. by intros l [= <-].
  - intros _. exists sm. split; [done|]. intros _.
    apply Forall_forall. intros s _. by eexists.
Qed.

Lemma tasks_AB_collectable :
  Forall (collectable resolve_id) [("A", task_A); ("B", task_B)].
Proof. repeat constructor; by apply store_collectable. Qed.

Lemma tasks_AB_graphs_collectable :
  Forall (collectable resolve_id)
    [("A", task_A_graphs); ("B", task_B_graphs)].
Proof.
  repeat constructor; apply store_collectable; try done; by intros l [= <-].
Qed.

(** Two labels with two graphs and two SMILES. *)
Lemma SingleTaskDataset_init_validated_witness :
  SingleTaskDataset_init (Weight:=nat) [0; 1] (Some [7; 8])
    (Some ["m1"; "m2"]) None None None = Ok task_A_graphs ∧
  well_formed task_A_graphs ∧ SingleTaskDataset_len task_A_graphs = 2.
Proof.
  assert (SingleTaskDataset_init (Weight:=nat) [0; 1] (Some [7; 8])
            (Some ["m1"; "m2"]) None None None = Ok task_A_graphs) as Hinit
    by reflexivity.
  destruct (proj2 (SingleTaskDataset_init_validated (Weight:=nat) [0; 1]
                     (Some [7; 8]) (Some ["m1"; "m2"]) None None None)
              task_A_graphs Hinit) as (Hwf & Hlen & _).
  split_and!; [exact Hinit|exact Hwf|exact Hlen].
Defined.

(** Task A with graphs has two rows. *)
Lemma SingleTaskDataset_getitem_bounds_witness :
  SingleTaskDataset_getitem task_A_graphs 2 = Err IndexError ∧
  ∃ d, SingleTaskDataset_getitem task_A_graphs 1 = Ok d ∧
       d_labels d = Some 1 ∧ is_Some (d_features d).
Proof.
  split.
  - apply (proj1 (SingleTaskDataset_getitem_bounds task_A_graphs 2)).
    vm_compute; lia.
  - destruct (proj2 (SingleTaskDataset_getitem_bounds task_A_graphs 1))
      as (d & Hd & _ & Hl & Hf & _).
    + apply store_well_formed; by intros l [= <-].
    + vm_compute; lia.
    + exists d. split_and!; [exact Hd|exact Hl|]. apply Hf. by eexists.
Defined.

(** The entity of m2 has the SMILES of its two rows. *)
Lemma merge_smiles_variants_witness :
  _get_all_lists_ids resolve_id [("A", task_A); ("B", task_B)] = Ok rows_AB ∧
  merge resolve_id MultitaskDataset_get_inv_of_mol_ids
    [("A", task_A); ("B", task_B)] = Ok merged_AB ∧
  merged_smiles merged_AB
  = variants_of rows_AB <$> merged_mol_ids merged_AB ∧
  mjoin (merged_smiles merged_AB) ≡ₚ al_smiles rows_AB.
Proof.
  assert (_get_all_lists_ids resolve_id [("A", task_A); ("B", task_B)]
          = Ok rows_AB) as Hrows by (vm_compute; reflexivity).
  assert (merge resolve_id MultitaskDataset_get_inv_of_mol_ids
            [("A", task_A); ("B", task_B)] = Ok merged_AB) as Hmerge
    by (vm_compute; reflexivity).
  destruct (merge_smiles_variants resolve_id _ _ _ Hrows Hmerge)
    as (Hsm & _ & Hperm).
  split_and!; [exact Hrows|exact Hmerge|exact Hsm|exact Hperm].
Defined.

(** Four rows, three entities. *)
Lemma merge_entities_le_rows_witness :
  _get_all_lists_ids resolve_id [("A", task_A); ("B", task_B)] = Ok rows_AB ∧
  merge resolve_id MultitaskDataset_get_inv_of_mol_ids
    [("A", task_A); ("B", task_B)] = Ok merged_AB ∧
  length (merged_mol_ids merged_AB) ≤ length (al_mol_ids rows_AB).
Proof.
  assert (_get_all_lists_ids resolve_id [("A", task_A); ("B", task_B)]
          = Ok rows_AB) as Hrows by (vm_compute; reflexivity).
  assert (merge resolve_id MultitaskDataset_get_inv_of_mol_ids
            [("A", task_A); ("B", task_B)] = Ok merged_AB) as Hmerge
    by (vm_compute; reflexivity).
  split_and!; [exact Hrows|exact Hmerge|].
  exact (proj1 (merge_entities_le_rows resolve_id _ _ _ Hrows Hmerge)).
Defined.

(** Tasks A and B both supply graphs. *)
Lemma merge_returns_iff_witness :
  Forall (collectable resolve_id)
    [("A", task_A_graphs); ("B", task_B_graphs)] ∧
  is_Ok (merge resolve_id MultitaskDataset_get_inv_of_mol_ids
           [("A", task_A_graphs); ("B", task_B_graphs)]).
Proof.
  split; [exact tasks_AB_graphs_collectable|].
  apply (proj2 (merge_returns_iff resolve_id _ tasks_AB_graphs_collectable)).
  left. repeat constructor; intros _; by eexists.
Defined.

(** A task without rows, then a task with one row and no SMILES. *)
Lemma merge_without_smiles_witness :
  Forall (λ item, SingleTaskDataset_len item.2 = 0) [("E", task_empty)] ∧
  well_formed (store [1] None None) ∧
  merge resolve_id MultitaskDataset_get_inv_of_mol_ids
    ([("E", task_empty)] ++ [("A", store [1] None None)])
  = Err (KeyError "smiles").
Proof.
  assert (Forall (λ item : string * @SingleTaskDataset nat nat nat,
                    SingleTaskDataset_len item.2 = 0) [("E", task_empty)])
    as Hempty by (repeat constructor).
  assert (well_formed (store [1] None None)) as Hwf
    by (apply store_well_formed; by intros l [= <-]).
  split_and!; [exact Hempty|exact Hwf|].
  apply (merge_without_smiles resolve_id _ "A" (store [1] None None) []
           Hempty Hwf); [vm_compute; lia|reflexivity].
Defined.

(** The task with identities u1 and u2 merges under a resolver that
    rejects every SMILES. *)
Lemma merge_with_unique_ids_witness :
  Forall (λ item, non_empty item → is_Some (st_unique_ids item.2))
    [("A", task_ids)] ∧
  merge resolve_id MultitaskDataset_get_inv_of_mol_ids [("A", task_ids)]
  = merge reject_all MultitaskDataset_get_inv_of_mol_ids [("A", task_ids)].
Proof.
  assert (Forall (λ item : string * @SingleTaskDataset nat nat nat,
                    non_empty item → is_Some (st_unique_ids item.2))
            [("A", task_ids)]) as Hids.
  { repeat constructor. intros _. by eexists. }
  split; [exact Hids|].
  exact (merge_with_unique_ids resolve_id reject_all _ Hids).
Defined.

(** Task A has rows, task E has none. *)
Lemma set_label_size_dict_entries_witness :
  ∃ sizes,
    set_label_size_dict scalar_size [("A", task_A); ("E", task_empty)]
    = Ok sizes ∧
    sizes !! "A" = Some [] ∧ sizes !! "E" = None ∧ sizes !! "B" = None.
Proof.
  destruct (set_label_size_dict_entries scalar_size
              [("A", task_A); ("E", task_empty)])
    as (sizes & Hs & Hin & Hout).
  - repeat constructor; apply store_well_formed; by intros l [= <-].
  - apply NoDup_cons. split; [by intros [=]%list_elem_of_singleton|].
    apply NoDup_singleton.
  - exists sizes. split_and!; [exact Hs| | |].
    + rewrite (Hin "A" task_A); [reflexivity|left].
    + rewrite (Hin "E" task_empty); [reflexivity|right; left].
    + apply Hout. simpl.
      intros [[=]|[[=]|[]%elem_of_nil]%elem_of_cons]%elem_of_cons.
Defined.

(** Tasks A and B with graphs are constructed. *)
Lemma MultitaskDataset_init_returns_iff_witness :
  is_Ok (MultitaskDataset_init resolve_id scalar_size
           [("A", task_A_graphs); ("B", task_B_graphs)] false "").
Proof.
  apply (proj2 (MultitaskDataset_init_returns_iff resolve_id scalar_size
                  "A" task_A_graphs [("B", task_B_graphs)] false ""
                  tasks_AB_graphs_collectable)).
  left. split; [discriminate|].
  repeat constructor; intros _; by eexists.
Defined.

(** A first task without rows before task A with graphs. *)
Lemma MultitaskDataset_init_first_without_rows_witness :
  MultitaskDataset_init resolve_id scalar_size
    [("E", task_empty); ("A", task_A_graphs)] false ""
  = Err (ValueError "too many values to unpack (expected 3)").
Proof.
  apply MultitaskDataset_init_first_without_rows.
  - repeat constructor.
    + apply store_well_formed; by intros l [= <-].
    + by intros [].
    + apply store_well_formed; by intros l [= <-].
    + intros _. eexists. split; [reflexivity|]. intros _.
      apply Forall_forall. intros s _. by eexists.
  - reflexivity.
  - repeat constructor. intros _. by eexists.
  - apply Exists_cons_hd. discriminate.
Defined.

(** The dataset of tasks A and B with graphs has three entities. *)
Lemma MultitaskDataset_getitem_constructed_witness :
  ∃ self,
    MultitaskDataset_init resolve_id scalar_size
      [("A", task_A_graphs); ("B", task_B_graphs)] true "" = Ok self ∧
    MultitaskDataset_getitem self 3 = Err IndexError ∧
    ∃ d, MultitaskDataset_getitem self 1 = Ok d ∧
         md_features d = Some (Obj 9) ∧ is_Some (md_mol_ids d).
Proof.
  assert (∃ self,
    MultitaskDataset_init resolve_id scalar_size
      [("A", task_A_graphs); ("B", task_B_graphs)] true "" = Ok self ∧
    MultitaskDataset_len self = 3 ∧
    mt_features self = Some [Obj 7; Obj 9; Obj 6])
    as (self & Hinit & Hlen & Hfs)
    by (eexists; split_and!; vm_compute; reflexivity).
  exists self. split; [exact Hinit|].
  destruct (MultitaskDataset_getitem_constructed resolve_id scalar_size
              _ _ _ _ 3 Hinit) as [Hout _].
  destruct (MultitaskDataset_getitem_constructed resolve_id scalar_size
              _ _ _ _ 1 Hinit) as [_ Hin].
  split; [apply Hout; lia|].
  rewrite Hfs in Hin.
  destruct Hin as (d & labels & f & Hd & _ & _ & Hf & Hdf & Hid & _);
    [lia|].
  exists d. split_and!; [exact Hd| |by apply Hid].
  rewrite Hdf, <-Hf. reflexivity.
Defined.

(** The graphs of the three entities have 7, 9 and 6 nodes. *)
Lemma statistics_on_features_witness :
  ∃ self,
    MultitaskDataset_init resolve_id scalar_size
      [("A", task_A_graphs); ("B", task_B_graphs)] true "" = Ok self ∧
    num_nodes_total node_count self = Ok 22 ∧
    ∃ mx mn, max_num_nodes_per_graph node_count self = Ok mx ∧
             min_num_nodes_per_graph node_count self = Ok mn ∧
             mn * 3 ≤ 22 ≤ mx * 3.
Proof.
  assert (∃ self,
    MultitaskDataset_init resolve_id scalar_size
      [("A", task_A_graphs); ("B", task_B_graphs)] true "" = Ok self ∧
    MultitaskDataset_len self = 3 ∧
    mt_features self = Some (Obj <$> [7; 9; 6]))
    as (self & Hinit & Hlen & Hfs)
    by (eexists; split_and!; vm_compute; reflexivity).
  exists self. split; [exact Hinit|].
  destruct (statistics_on_features resolve_id scalar_size node_count
              node_count (λ counts, counts) _ _ _ _ Hinit)
    as (feats & Hfeats & _ & _ & (mx & mn & Ht & Hmx & Hmn & _ & _ & _ & Hb)
        & _).
  { by rewrite Hfs. }
  assert (feats = [7; 9; 6]) as ->.
  { rewrite Hfs in Hfeats.
    destruct feats as [|a [|b [|c [|? ?]]]]; by simplify_eq/=. }
  split; [exact Ht|]. exists mx, mn.
  unfold num_graphs_total in Hb. rewrite Hlen in Hb.
  split_and!; [exact Hmx|exact Hmn|apply Hb|apply Hb].
Defined.

(** The summary of the collection built from one task without rows. *)
Lemma MultitaskDataset_repr_constructed_witness :
  MultitaskDataset_init resolve_id scalar_size [("A", task_empty)] false ""
  = Ok dataset_empty ∧
  MultitaskDataset_len dataset_empty = 0 ∧
  MultitaskDataset_repr node_count node_count (λ counts, counts)
    (λ _, "") (λ _, "") "MultitaskDataset" dataset_empty
  = Ok (repr_rule +:+ "MultitaskDataset" +:+ nl
        +:+ repr_line "about" ""
        +:+ repr_line "num_graphs_total" "0"
        +:+ repr_rule).
Proof.
  assert (MultitaskDataset_init resolve_id scalar_size [("A", task_empty)]
            false "" = Ok dataset_empty) as Hinit
    by (vm_compute; reflexivity).
  split_and!; [exact Hinit|reflexivity|].
  exact (proj2 (proj2 (MultitaskDataset_repr_constructed resolve_id
                         scalar_size node_count node_count
                         (λ counts, counts) (λ _, "") (λ _, "")
                         "MultitaskDataset" _ _ _ _ Hinit)) eq_refl).
Defined.

(** Seventeen entities read in turn, then the last and the first again:
    the read of 16 is served from the cache, the entry of 0 was dropped by
    the read of 16 before and is computed again, which drops the entry
    of 1. *)
Lemma MultitaskDataset_getitem_cache_transparent_witness :
  ∃ self,
    MultitaskDataset_init resolve_id scalar_size [("T", task_17)] true ""
    = Ok self ∧
    MultitaskDataset_len self = 17 ∧
    (MultitaskDataset_getitems self (seq 0 17 ++ [16; 0]) []).1
    = MultitaskDataset_getitem self <$> seq 0 17 ++ [16; 0] ∧
    (MultitaskDataset_getitems self (seq 0 17) []).2.*1
    = [16; 15; 14; 13; 12; 11; 10; 9; 8; 7; 6; 5; 4; 3; 2; 1] ∧
    (MultitaskDataset_getitems self (seq 0 17 ++ [16; 0]) []).2.*1
    = [0; 16; 15; 14; 13; 12; 11; 10; 9; 8; 7; 6; 5; 4; 3; 2] ∧
    (∃ d, MultitaskDataset_getitem self 16 = Ok d ∧
          md_mol_ids d = Some "q" ∧ md_features d = Some (Obj 116)) ∧
    ∀ idx d,
      (idx, d) ∈ (MultitaskDataset_getitems self (seq 0 17 ++ [16; 0]) []).2 →
      MultitaskDataset_getitem self idx = Ok d.
Proof.
  assert (∃ self,
    MultitaskDataset_init resolve_id scalar_size [("T", task_17)] true ""
    = Ok self ∧
    MultitaskDataset_len self = 17 ∧
    (MultitaskDataset_getitems self (seq 0 17) []).2.*1
    = [16; 15; 14; 13; 12; 11; 10; 9; 8; 7; 6; 5; 4; 3; 2; 1] ∧
    (MultitaskDataset_getitems self (seq 0 17 ++ [16; 0]) []).2.*1
    = [0; 16; 15; 14; 13; 12; 11; 10; 9; 8; 7; 6; 5; 4; 3; 2] ∧
    (∃ d, MultitaskDataset_getitem self 16 = Ok d ∧
          md_mol_ids d = Some "q" ∧ md_features d = Some (Obj 116)))
    as (self & Hinit & Hlen & Hfirst & Hkeys & Hd)
    by (eexists; split_and!; [vm_compute; reflexivity..|];
        eexists; split_and!; vm_compute; reflexivity).
  exists self.
  destruct (MultitaskDataset_getitem_cache_transparent self
              (seq 0 17 ++ [16; 0])) as (Hrs & _ & _ & Hin).
  split_and!; [exact Hinit|exact Hlen|exact Hrs|exact Hfirst|exact Hkeys|
               exact Hd|].
  intros idx d Hc. exact (proj2 (Hin idx d Hc)).
Defined.

(** Five rows over two tasks: two entities, four rows filed. *)
Lemma FakeDataset_get_inv_of_mol_ids_positions_witness :
  FakeDataset_get_inv_of_mol_ids 0 ["a"; "b"] = Err ZeroDivisionError ∧
  ∃ inv,
    FakeDataset_get_inv_of_mol_ids 2 ["a"; "b"; "c"; "d"; "e"]
    = Ok ([0; 1], inv) ∧
    length inv = 4 ∧ inv !! 3 = Some 1.
Proof.
  split.
  - exact (proj1 (FakeDataset_get_inv_of_mol_ids_positions 0 ["a"; "b"])
             eq_refl).
  - destruct (proj2 (FakeDataset_get_inv_of_mol_ids_positions 2
                       ["a"; "b"; "c"; "d"; "e"]))
      as (inv & Hinv & Hlen & _ & Hpos); [lia|].
    exists inv. split_and!; [exact Hinv|exact Hlen|].
    apply (Hpos 3). rewrite Hlen. simpl. lia.
Defined.

(** A first task without rows. *)
Lemma FakeDataset_init_first_task_witness :
  SingleTaskDataset_len task_no_rows = 0 ∧
  FakeDataset_init scalar_size
    [("A", task_no_rows); ("B", task_B_graphs)] 3 false []
  = Err IndexError.
Proof.
  split; [reflexivity|].
  exact (proj2 (FakeDataset_init_first_task scalar_size)
           "A" task_no_rows [("B", task_B_graphs)] 3 false [] eq_refl).
Defined.

(** Task A with graphs, shared: two entities kept, every index reads the
    first. *)
Lemma FakeDataset_same_elem_witness :
  ∃ self h',
    FakeDataset_init scalar_size [("A", task_A_ids_graphs)] 3 true []
    = Ok (self, h') ∧
    FakeDataset_len self = 3 ∧ length h' = 4 ∧
    ∃ d, FakeDataset_getitem self 0 = Ok d ∧
         FakeDataset_getitem self 7 = Ok d.
Proof.
  assert (∃ self h' d,
    FakeDataset_init scalar_size [("A", task_A_ids_graphs)] 3 true []
    = Ok (self, h') ∧
    length (fk_labels self) = 2 ∧ length (fk_features self) = 2 ∧
    FakeDataset_getitem self 0 = Ok d)
    as (self & h' & d & Hinit & Hlb & Hfs & Hd)
    by (do 3 eexists; split_and!; vm_compute; reflexivity).
  exists self, h'. split; [exact Hinit|].
  destruct (FakeDataset_same_elem scalar_size _ _ _ _ _ Hinit)
    as (Hlen & Hheap & Hget).
  rewrite Hlb, Hfs in Hheap.
  split_and!; [exact Hlen|exact Hheap|].
  exists d. split; [exact Hd|].
  exact (proj1 (Hget 0 d Hd) 7).
Defined.

(** Three copies: index 2 is the last one. *)
Lemma FakeDataset_copies_bounds_witness :
  FakeDataset_init scalar_size [("A", task_A_ids_graphs)] 3 false []
  = Ok (fake_A, heap_A) ∧
  FakeDataset_getitem fake_A 3 = Err IndexError ∧
  ∃ d, FakeDataset_getitem fake_A 2 = Ok d.
Proof.
  assert (FakeDataset_init scalar_size [("A", task_A_ids_graphs)] 3
            false [] = Ok (fake_A, heap_A)) as Hinit
    by (vm_compute; reflexivity).
  split; [exact Hinit|]. split.
  - apply (FakeDataset_copies_bounds scalar_size _ _ _ _ _ 3 Hinit). lia.
  - destruct (FakeDataset_copies_bounds scalar_size _ _ _ _ _ 2 Hinit)
      as (_ & Hin & _).
    destruct Hin as (d & Hd & _); [lia|]. by exists d.
Defined.

(** Task A with graphs, which brings no identities of its own. *)
Lemma FakeDataset_init_without_unique_ids_witness :
  0 < SingleTaskDataset_len task_A_graphs ∧
  st_unique_ids task_A_graphs = None ∧
  FakeDataset_merge [("A", task_A_graphs)] = Err (AttributeError "n_jobs") ∧
  FakeDataset_init scalar_size [("A", task_A_graphs)] 3 false []
  = Err (AttributeError "n_jobs").
Proof.
  assert (0 < SingleTaskDataset_len task_A_graphs) as Hlen
    by (vm_compute; lia).
  split_and!; [exact Hlen|reflexivity|..];
    apply (FakeDataset_init_without_unique_ids scalar_size "A" task_A_graphs
             [] ["m1"; "m2"] 3 false []);
    try reflexivity; try exact Hlen;
    apply store_well_formed; by intros l [= <-].
Defined.

(** Tasks A and B by position: entity 0 holds the first rows of both. *)
Lemma FakeDataset_merge_by_position_witness :
  ∃ r,
    FakeDataset_merge [("A", task_A_ids); ("B", task_B_ids)] = Ok r ∧
    merged_mol_ids r = [0; 1] ∧
    ∀ d, merged_labels r !! 0 = Some d →
         d !! "A" = Some 0 ∧ d !! "B" = Some 10.
Proof.
  assert (is_Ok (FakeDataset_merge [("A", task_A_ids); ("B", task_B_ids)]))
    as [r Hr] by (eexists; vm_compute; reflexivity).
  exists r. split; [exact Hr|].
  destruct (FakeDataset_merge_by_position
              [("A", task_A_ids); ("B", task_B_ids)] 2 r)
    as (Hids & _ & Hlb).
  - apply NoDup_cons. split; [by intros [=]%list_elem_of_singleton|].
    apply NoDup_singleton.
  - repeat constructor.
  - exact Hr.
  - split; [exact Hids|]. intros d Hd.
    destruct (Hlb 0 d Hd) as [Hin _]. split.
    + apply (Hin "A" task_A_ids). left.
    + apply (Hin "B" task_B_ids). right; left.
Defined.

(** The task names of the four rows of A and B. *)
Lemma get_all_lists_ids_columns_witness :
  ∃ all,
    _get_all_lists_ids resolve_id [("A", task_A); ("B", task_B)] = Ok all ∧
    al_tasks all = ["A"; "A"; "B"; "B"] ∧ al_labels all = [0; 1; 10; 5].
Proof.
  destruct (get_all_lists_ids_columns resolve_id _ tasks_AB_collectable)
    as (all & idss & Hall & _ & _ & _ & Hl & _ & Ht).
  exists all. split_and!; [exact Hall|by rewrite Ht|by rewrite Hl].
Defined.

(** Index 1 of the dataset of A and B with graphs is the entity of m2. *)
Lemma MultitaskDataset_getitem_entity_witness :
  ∃ self d,
    MultitaskDataset_init resolve_id scalar_size
      [("A", task_A_graphs); ("B", task_B_graphs)] true "" = Ok self ∧
    MultitaskDataset_getitem self 1 = Ok d ∧
    md_mol_ids d = Some "m2" ∧ md_smiles d = Some ["m2"; "m2"] ∧
    md_features d = Some (Obj 9).
Proof.
  assert (∃ self d,
    MultitaskDataset_init resolve_id scalar_size
      [("A", task_A_graphs); ("B", task_B_graphs)] true "" = Ok self ∧
    MultitaskDataset_getitem self 1 = Ok d)
    as (self & d & Hinit & Hd)
    by (do 2 eexists; split; vm_compute; reflexivity).
  assert (_get_all_lists_ids resolve_id
            [("A", task_A_graphs); ("B", task_B_graphs)]
          = Ok rows_AB_graphs) as Hrows by (vm_compute; reflexivity).
  exists self, d. split; [exact Hinit|]. split; [exact Hd|].
  destruct (MultitaskDataset_getitem_entity resolve_id scalar_size
              _ _ _ _ _ _ Hinit Hrows Hd)
    as (id & labels & f & Hid & Hmid & Hsm & _ & _ & Hf & Hlast).
  assert (id = "m2") as -> by (vm_compute in Hid; congruence).
  assert (f = 9) as -> by (vm_compute in Hlast; congruence).
  split_and!; [exact Hmid|exact Hsm|exact Hf].
Defined.

(** A before B and B before A give the same label maps. *)
Lemma merge_labels_order_independent_witness :
  ∃ r2,
    merge resolve_id MultitaskDataset_get_inv_of_mol_ids
      [("B", task_B); ("A", task_A)] = Ok r2 ∧
    merged_labels merged_AB = merged_labels r2.
Proof.
  assert (merge resolve_id MultitaskDataset_get_inv_of_mol_ids
            [("A", task_A); ("B", task_B)] = Ok merged_AB) as Hmerge
    by (vm_compute; reflexivity).
  assert (is_Ok (merge resolve_id MultitaskDataset_get_inv_of_mol_ids
                   [("B", task_B); ("A", task_A)])) as [r2 Hr2]
    by (eexists; vm_compute; reflexivity).
  exists r2. split; [exact Hr2|].
  refine (proj2 (merge_labels_order_independent resolve_id _ _ _ _ _ _
                   Hmerge Hr2)).
  - apply perm_swap.
  - apply NoDup_cons. split; [by intros [=]%list_elem_of_singleton|].
    apply NoDup_singleton.
Defined.
